(** * PK11Signature.c: the JNI bridge between PK11Signature and NSS

    A shallow embedding of org/mozilla/jss/pkcs11/PK11Signature.c.

    The C functions are written in a state-and-fault monad over a [world]:
    the native heap (contexts, arenas, keys, proxy records, borrowed byte
    buffers), the Java exceptions raised so far, the log of calls made into
    NSPR/NSS/JNI marshalling, and the log of PR_ASSERTs whose condition was
    false.  NSPR, NSS and the JVM are external: they are played by a test
    double that keeps count of every resource, and whose answers (which call
    fails, with which error code) are inputs of each embedded function.

    PR_ASSERT and ASSERT_OUTOFMEM expand to nothing unless DEBUG is defined;
    the embedding is of the build without DEBUG (so the [#ifdef DEBUG] blocks
    are left out), and an assertion whose condition is false is recorded in
    [violated] and execution goes on, as it does in that build. *)

From Stdlib Require Import ZArith List Bool Lia.
From stdpp Require Import base option list strings.
Import ListNotations.

(** ** Pointers and native data *)

(** An address in the native heap. *)
Abbreviation loc := nat (only parsing).

(** A C pointer: [None] is NULL. *)
Abbreviation ptr := (option nat) (only parsing).

(** A pointer to a block obtained from PORT_ArenaZAlloc and friends: inside
    an arena (the arena and the index of the block) or, when the arena
    argument was NULL, a block of its own on the heap. *)
Inductive block_ptr :=
| in_arena (a : loc) (i : nat)
| in_heap (p : loc).

Abbreviation aptr := (option block_ptr) (only parsing).

Inductive PRStatus := PR_SUCCESS | PR_FAILURE.
Inductive SECStatus := SECSuccess | SECFailure.

Definition PRErrorCode := Z.

(** secerr.h: SEC_ERROR_BASE is -0x2000, SEC_ERROR_BAD_SIGNATURE is
    SEC_ERROR_BASE + 10. *)
Definition SEC_ERROR_BAD_SIGNATURE : PRErrorCode := (-8192 + 10)%Z.

(** secoidt.h: the two tags the file names, and all the others. *)
Inductive SECOidTag :=
| SEC_OID_UNKNOWN
| SEC_OID_PKCS1_RSA_PSS_SIGNATURE
| SEC_OID_other (n : positive).

Definition SECOidTag_eqb (a b : SECOidTag) : bool :=
  match a, b with
  | SEC_OID_UNKNOWN, SEC_OID_UNKNOWN => true
  | SEC_OID_PKCS1_RSA_PSS_SIGNATURE, SEC_OID_PKCS1_RSA_PSS_SIGNATURE => true
  | SEC_OID_other n, SEC_OID_other m => Pos.eqb n m
  | _, _ => false
  end.

(** pk11util.h *)
Inductive SigContextType := SGN_CONTEXT | VFY_CONTEXT.

Definition SigContextType_eqb (a b : SigContextType) : bool :=
  match a, b with
  | SGN_CONTEXT, SGN_CONTEXT | VFY_CONTEXT, VFY_CONTEXT => true
  | _, _ => false
  end.

(** struct SigContextProxyStr *)
Record SigContextProxyStr := {
  ctxt : ptr;
  type : SigContextType;
  arena : ptr
}.

(** What a native context was created from: a bare OID tag
    (SGN_NewContext, VFY_CreateContext) or a SECAlgorithmID living in an
    arena (the ...WithAlgorithmID variants). *)
Inductive sigalg :=
| by_tag (tag : SECOidTag)
| by_algorithm_id (id : aptr).

(** What SEC_CreateSignatureAlgorithmParameters was asked to encode; the
    salt length and mask generation function it derives from them are the
    library's own policy. *)
Record sig_params := {
  p_sigOid : SECOidTag;
  p_hashOid : SECOidTag;
  p_key : ptr
}.

(** Blocks handed out by an arena: a SECAlgorithmID (zeroed: tag unknown, no
    parameters) or the SECItem of encoded parameters. *)
Inductive ablock :=
| blk_SECAlgorithmID (algorithm : SECOidTag) (parameters : option sig_params)
| blk_SECItem (params : sig_params).

(** The cells of the native heap.  A released cell stays in place as
    [c_freed], so that a second release or a later access is seen. *)
Inductive cell :=
| c_SGNContext (alg : sigalg) (key : ptr) (begun : bool)
| c_VFYContext (alg : sigalg) (key : ptr) (hash : option SECOidTag)
               (begun : bool)
| c_arena (blocks : list ablock)
| c_block (b : ablock)
| c_private_key (bits : N)
| c_public_key (bits : N)
| c_proxy (r : SigContextProxyStr)
| c_uninit
| c_bytes (data : list Byte.byte)
| c_freed.

(** ** Java side *)

(** jss_exceptions.h names the classes JSS_throw raises; [JVM_THROWABLE] is
    whatever the JVM itself raises when a JNI call fails. *)
Inductive jclass_name :=
| OUT_OF_MEMORY_ERROR
| TOKEN_EXCEPTION
| SIGNATURE_EXCEPTION
| ARRAY_INDEX_OUT_OF_BOUNDS_EXCEPTION
| JVM_THROWABLE (n : nat).

Abbreviation jthrowable := (jclass_name * option string)%type (only parsing).

Definition is_OUT_OF_MEMORY (t : jthrowable) : bool :=
  match fst t with OUT_OF_MEMORY_ERROR => true | _ => false end.

(** The answer of an NSS call whose error code the file reads back with
    PR_GetError. *)
Inductive nss_answer :=
| nss_ok
| nss_fails (e : PRErrorCode).

(** The answer of a JNI call (or of a JSS helper over JNI) that can fail:
    it works, or it returns NULL/failure and leaves [raised] pending. *)
Inductive jni_answer :=
| jni_ok
| jni_fails (raised : jthrowable).

(** JNI release modes of ReleaseByteArrayElements. *)
Inductive release_mode := JNI_COPY_BACK | JNI_COMMIT | JNI_ABORT.

(** Modelled from the spec: NativeProxy, the managed object that stores the
    "native resource reference" passed into every entry point, is Java code
    outside these sources.  [mPointer] is the stored reference: the address
    JSS_ptrToByteArray encoded, or NULL when there is none. *)
Record SigContextProxy := {
  mPointer : ptr
}.

(** A jobject that may be null. *)
Abbreviation jobject A := (option A) (only parsing).

(** ** NSPR, NSS and marshalling calls, as logged *)

Inductive call :=
| call_PR_Malloc (result : ptr)
| call_PR_Free (p : ptr)
| call_PORT_NewArena (result : ptr)
| call_PORT_FreeArena (a : ptr)
| call_PORT_ArenaZAlloc (a : ptr) (result : aptr)
| call_SEC_CreateSignatureAlgorithmParameters
    (a : ptr) (sigOid hashOid : SECOidTag) (key : ptr) (result : aptr)
| call_SECOID_SetAlgorithmID
    (a : ptr) (id : aptr) (tag : SECOidTag) (params : aptr) (rv : SECStatus)
| call_SGN_NewContext (tag : SECOidTag) (key : ptr) (result : ptr)
| call_SGN_NewContextWithAlgorithmID (id : aptr) (key : ptr) (result : ptr)
| call_SGN_Begin (cx : ptr) (rv : SECStatus)
| call_SGN_Update (cx : ptr) (input : list Byte.byte) (rv : SECStatus)
| call_SGN_End (cx : ptr) (result : ptr) (rv : SECStatus)
| call_SGN_DestroyContext (cx : ptr)
| call_VFY_CreateContext (key : ptr) (tag : SECOidTag) (result : ptr)
| call_VFY_CreateContextWithAlgorithmID
    (key : ptr) (id : aptr) (hash : SECOidTag) (result : ptr)
| call_VFY_Begin (cx : ptr) (rv : SECStatus)
| call_VFY_Update (cx : ptr) (input : list Byte.byte) (rv : SECStatus)
| call_VFY_EndWithSignature (cx : ptr) (sig : list Byte.byte) (rv : SECStatus)
| call_VFY_DestroyContext (cx : ptr)
| call_SECKEY_PublicKeyStrengthInBits (key : ptr) (result : N)
| call_SECKEY_CreateRSAPrivateKey (bits : N) (privk pubk : ptr)
| call_SECKEY_DestroyPublicKey (key : ptr)
| call_SECKEY_DestroyPrivateKey (key : ptr)
| call_PK11_Verify (key : ptr) (sig hash : list Byte.byte) (rv : SECStatus)
| call_JSS_RefByteArray (array : nat) (result : ptr)
| call_JSS_DerefByteArray (array : nat) (data : ptr) (mode : release_mode).

(** ** The world and the monad *)

Record world := World {
  heap : list cell;
  jarrays : list (list Byte.byte);
  pending : list jthrowable;
  pr_error : PRErrorCode;
  calls : list call;
  violated : list string
}.

Definition set_heap (h : list cell) (w : world) : world :=
  World h (jarrays w) (pending w) (pr_error w) (calls w) (violated w).
Definition set_jarrays (j : list (list Byte.byte)) (w : world) : world :=
  World (heap w) j (pending w) (pr_error w) (calls w) (violated w).
Definition set_pending (p : list jthrowable) (w : world) : world :=
  World (heap w) (jarrays w) p (pr_error w) (calls w) (violated w).
Definition set_pr_error (e : PRErrorCode) (w : world) : world :=
  World (heap w) (jarrays w) (pending w) e (calls w) (violated w).
Definition set_calls (c : list call) (w : world) : world :=
  World (heap w) (jarrays w) (pending w) (pr_error w) c (violated w).
Definition set_violated (v : list string) (w : world) : world :=
  World (heap w) (jarrays w) (pending w) (pr_error w) (calls w) v.

(** What C leaves undefined and the test double reports. *)
Inductive fault :=
| use_after_free (fn : string) (p : loc)
| double_free (fn : string) (p : loc)
| wrong_kind (fn : string) (p : loc)
| wild_pointer (fn : string) (p : loc)
| out_of_bounds (fn : string) (p : loc)
| null_dereference (fn : string)
| signed_overflow (fn : string).

(** A run ends with a value and a world, or at a fault, in the world where
    it happened. *)
Inductive result (A : Type) :=
| Ok (a : A) (w : world)
| Fault (f : fault) (w : world).
Arguments Ok {A} a w.
Arguments Fault {A} f w.

Definition M (A : Type) := world -> result A.

Definition ret {A} (a : A) : M A := fun w => Ok a w.

Definition bind {A B} (m : M A) (k : A -> M B) : M B :=
  fun w => match m w with
           | Ok a w' => k a w'
           | Fault f w' => Fault f w'
           end.

#[global] Instance M_ret : MRet M := @ret.
#[global] Instance M_bind : MBind M := fun A B k m => bind m k.

Definition fail {A} (f : fault) : M A := fun w => Fault f w.

(** [always r P]: the world in which the run [r] ends, at a fault or not,
    satisfies [P]. *)
Definition always {A} (r : result A) (P : world -> Prop) : Prop :=
  match r with
  | Ok _ w => P w
  | Fault _ w => P w
  end.

(** [faults r f P]: the run [r] stops at the fault [f], in a world that
    satisfies [P]. *)
Definition faults {A} (r : result A) (f : fault) (P : world -> Prop) : Prop :=
  match r with
  | Ok _ _ => False
  | Fault f' w => f' = f /\ P w
  end.

(** [ensures r P]: the run [r] ends without fault, with a value and in a
    world that satisfy [P]. *)
Definition ensures {A} (r : result A) (P : A -> world -> Prop) : Prop :=
  match r with
  | Ok a w => P a w
  | Fault _ _ => False
  end.

Definition log (c : call) : M unit :=
  fun w => Ok tt (set_calls (calls w ++ [c]) w).

(** JSS_throw and JSS_throwMsg (jssutil): raise a Java exception. *)
Definition JSS_throw (c : jclass_name) : M unit :=
  fun w => Ok tt (set_pending (pending w ++ [(c, None)]) w).

Definition JSS_throwMsg (c : jclass_name) (msg : string) : M unit :=
  fun w => Ok tt (set_pending (pending w ++ [(c, Some msg)]) w).

(** A failing JNI call leaves its exception pending. *)
Definition jni (a : jni_answer) : M bool :=
  match a with
  | jni_ok => ret true
  | jni_fails t => fun w => Ok false (set_pending (pending w ++ [t]) w)
  end.

Definition ExceptionOccurred : M bool :=
  fun w => Ok (match pending w with [] => false | _ => true end) w.

Definition ExceptionClear : M unit :=
  fun w => Ok tt (set_pending [] w).

(** PR_ASSERT(cond) in the build without DEBUG: nothing happens; the
    embedding notes the assertion when [cond] is false. *)
Definition PR_ASSERT (cond : bool) (what : string) : M unit :=
  fun w => Ok tt (set_violated
                    (if cond then violated w else violated w ++ [what]) w).

(** ASSERT_OUTOFMEM(env) (jssutil.h): asserts that the pending exception is
    an OutOfMemoryError. *)
Definition ASSERT_OUTOFMEM (where_ : string) : M unit :=
  fun w => PR_ASSERT (match last (pending w) with
                      | Some t => is_OUT_OF_MEMORY t
                      | None => false
                      end) where_ w.

(** ** Native heap primitives of the test double *)

Definition halloc (c : cell) : M loc :=
  fun w => Ok (length (heap w)) (set_heap (heap w ++ [c]) w).

(** Read through a pointer; a released or never allocated target is a
    fault. *)
Definition hread (fn : string) (p : loc) : M cell :=
  fun w => match heap w !! p with
           | Some c_freed => Fault (use_after_free fn p) w
           | Some c => Ok c w
           | None => Fault (wild_pointer fn p) w
           end.

Definition hwrite (p : loc) (c : cell) : M unit :=
  fun w => Ok tt (set_heap (<[p := c]> (heap w)) w).

(** Release the cell at [p], which must be of the kind [fn] releases;
    releasing twice is a fault. *)
Definition hfree (fn : string) (kind : cell -> bool) (p : loc) : M unit :=
  fun w => match heap w !! p with
           | Some c_freed => Fault (double_free fn p) w
           | Some c =>
               if kind c then Ok tt (set_heap (<[p := c_freed]> (heap w)) w)
               else Fault (wrong_kind fn p) w
           | None => Fault (wild_pointer fn p) w
           end.

Definition is_SGNContext (c : cell) : bool :=
  match c with c_SGNContext _ _ _ => true | _ => false end.
Definition is_VFYContext (c : cell) : bool :=
  match c with c_VFYContext _ _ _ _ => true | _ => false end.
Definition is_arena (c : cell) : bool :=
  match c with c_arena _ => true | _ => false end.
Definition is_private_key (c : cell) : bool :=
  match c with c_private_key _ => true | _ => false end.
Definition is_public_key (c : cell) : bool :=
  match c with c_public_key _ => true | _ => false end.
Definition is_malloced (c : cell) : bool :=
  match c with c_proxy _ | c_uninit | c_bytes _ => true | _ => false end.

(** PR_Malloc(sizeof(SigContextProxy)): NULL, or a fresh block not yet
    written. *)
Definition PR_Malloc (ok : bool) : M ptr :=
  if ok then
    p ← halloc c_uninit;
    log (call_PR_Malloc (Some p));;
    mret (Some p)
  else
    log (call_PR_Malloc None);;
    mret None.

(** PR_Free(p): free(3); NULL is accepted. *)
Definition PR_Free (p : ptr) : M unit :=
  log (call_PR_Free p);;
  match p with
  | None => mret tt
  | Some l => hfree "PR_Free" is_malloced l
  end.

(** PORT_NewArena(DER_DEFAULT_CHUNKSIZE) *)
Definition PORT_NewArena (ok : bool) : M ptr :=
  if ok then
    a ← halloc (c_arena []);
    log (call_PORT_NewArena (Some a));;
    mret (Some a)
  else
    log (call_PORT_NewArena None);;
    mret None.

(** PORT_FreeArena(arena, zero): returns at once on NULL; otherwise the
    arena goes, with every block in it. *)
Definition PORT_FreeArena (a : ptr) : M unit :=
  log (call_PORT_FreeArena a);;
  match a with
  | None => mret tt
  | Some l => hfree "PORT_FreeArena" is_arena l
  end.

(** Hand out a block: from the arena, or from the heap when the arena is
    NULL. *)
Definition arena_alloc (fn : string) (a : ptr) (b : ablock) : M block_ptr :=
  match a with
  | None => p ← halloc (c_block b); mret (in_heap p)
  | Some l =>
      c ← hread fn l;
      match c with
      | c_arena blocks =>
          hwrite l (c_arena (blocks ++ [b]));;
          mret (in_arena l (length blocks))
      | _ => fail (wrong_kind fn l)
      end
  end.

Definition block_read (fn : string) (b : block_ptr) : M ablock :=
  match b with
  | in_heap p =>
      c ← hread fn p;
      match c with
      | c_block blk => mret blk
      | _ => fail (wrong_kind fn p)
      end
  | in_arena l i =>
      c ← hread fn l;
      match c with
      | c_arena blocks =>
          match blocks !! i with
          | Some blk => mret blk
          | None => fail (wild_pointer fn l)
          end
      | _ => fail (wrong_kind fn l)
      end
  end.

Definition block_write (fn : string) (b : block_ptr) (blk : ablock) : M unit :=
  match b with
  | in_heap p =>
      c ← hread fn p;
      match c with
      | c_block _ => hwrite p (c_block blk)
      | _ => fail (wrong_kind fn p)
      end
  | in_arena l i =>
      c ← hread fn l;
      match c with
      | c_arena blocks => hwrite l (c_arena (<[i := blk]> blocks))
      | _ => fail (wrong_kind fn l)
      end
  end.

(** PORT_ArenaZAlloc(arena, sizeof(SECAlgorithmID)): NULL, or a zeroed
    SECAlgorithmID. *)
Definition PORT_ArenaZAlloc (ok : bool) (a : ptr) : M aptr :=
  if ok then
    b ← arena_alloc "PORT_ArenaZAlloc" a
          (blk_SECAlgorithmID SEC_OID_UNKNOWN None);
    log (call_PORT_ArenaZAlloc a (Some b));;
    mret (Some b)
  else
    log (call_PORT_ArenaZAlloc a None);;
    mret None.

(** SEC_CreateSignatureAlgorithmParameters(arena, NULL, sigOid, hashOid,
    NULL, privk): NULL, or the encoded parameters, allocated in [arena]. *)
Definition SEC_CreateSignatureAlgorithmParameters
    (ok : bool) (a : ptr) (sigOid hashOid : SECOidTag) (privk : ptr)
    : M aptr :=
  if ok then
    b ← arena_alloc "SEC_CreateSignatureAlgorithmParameters" a
          (blk_SECItem {| p_sigOid := sigOid; p_hashOid := hashOid;
                          p_key := privk |});
    log (call_SEC_CreateSignatureAlgorithmParameters
           a sigOid hashOid privk (Some b));;
    mret (Some b)
  else
    log (call_SEC_CreateSignatureAlgorithmParameters
           a sigOid hashOid privk None);;
    mret None.

(** SECOID_SetAlgorithmID(arena, id, tag, params): stores the tag and a copy
    of the parameters in [*id]; on failure [*id] is left as it was. *)
Definition SECOID_SetAlgorithmID
    (ok : bool) (a : ptr) (id : aptr) (tag : SECOidTag) (params : aptr)
    : M SECStatus :=
  if ok then
    match id, params with
    | Some i, Some p =>
        blk ← block_read "SECOID_SetAlgorithmID" p;
        match blk with
        | blk_SECItem ps =>
            block_write "SECOID_SetAlgorithmID" i
              (blk_SECAlgorithmID tag (Some ps));;
            log (call_SECOID_SetAlgorithmID a id tag params SECSuccess);;
            mret SECSuccess
        | _ =>
            match p with
            | in_arena l _ | in_heap l =>
                fail (wrong_kind "SECOID_SetAlgorithmID" l)
            end
        end
    | _, _ =>
        log (call_SECOID_SetAlgorithmID a id tag params SECFailure);;
        mret SECFailure
    end
  else
    log (call_SECOID_SetAlgorithmID a id tag params SECFailure);;
    mret SECFailure.

(** PORT_SetError / PR_GetError: the error code of the last failure. *)
Definition PR_GetError : M PRErrorCode := fun w => Ok (pr_error w) w.

Definition nss (a : nss_answer) : M SECStatus :=
  match a with
  | nss_ok => mret SECSuccess
  | nss_fails e => fun w => Ok SECFailure (set_pr_error e w)
  end.

Definition status_of (ok : bool) : SECStatus :=
  if ok then SECSuccess else SECFailure.

(** Access a context through [cx], which must point to a live context of
    the kind [fn] works on. *)
Definition use_context (fn : string) (kind : cell -> bool) (cx : ptr)
    : M (loc * cell) :=
  match cx with
  | None => fail (null_dereference fn)
  | Some l =>
      c ← hread fn l;
      if kind c then mret (l, c) else fail (wrong_kind fn l)
  end.

(** *** Signing contexts *)

Definition SGN_NewContext (ok : bool) (tag : SECOidTag) (privk : ptr)
    : M ptr :=
  if ok then
    cx ← halloc (c_SGNContext (by_tag tag) privk false);
    log (call_SGN_NewContext tag privk (Some cx));;
    mret (Some cx)
  else
    log (call_SGN_NewContext tag privk None);;
    mret None.

Definition SGN_NewContextWithAlgorithmID (ok : bool) (id : aptr) (privk : ptr)
    : M ptr :=
  if ok then
    cx ← halloc (c_SGNContext (by_algorithm_id id) privk false);
    log (call_SGN_NewContextWithAlgorithmID id privk (Some cx));;
    mret (Some cx)
  else
    log (call_SGN_NewContextWithAlgorithmID id privk None);;
    mret None.

Definition SGN_Begin (ok : bool) (cx : ptr) : M SECStatus :=
  '(l, c) ← use_context "SGN_Begin" is_SGNContext cx;
  (if ok then
     match c with
     | c_SGNContext alg key _ => hwrite l (c_SGNContext alg key true)
     | _ => mret tt
     end
   else mret tt);;
  log (call_SGN_Begin cx (status_of ok));;
  mret (status_of ok).

Definition SGN_Update (ok : bool) (cx : ptr) (input : list Byte.byte)
    : M SECStatus :=
  use_context "SGN_Update" is_SGNContext cx;;
  log (call_SGN_Update cx input (status_of ok));;
  mret (status_of ok).

(** SGN_End(cx, &result): on success [result.data] is a fresh buffer holding
    the signature, for the caller to free, and [result.len] its length. *)
Definition SGN_End (signature : option (list Byte.byte)) (cx : ptr)
    : M (SECStatus * ptr * Z) :=
  use_context "SGN_End" is_SGNContext cx;;
  match signature with
  | Some s =>
      p ← halloc (c_bytes s);
      log (call_SGN_End cx (Some p) SECSuccess);;
      mret (SECSuccess, Some p, Z.of_nat (length s))
  | None =>
      log (call_SGN_End cx None SECFailure);;
      mret (SECFailure, None, 0%Z)
  end.

(** SGN_DestroyContext(cx, freeit): nothing on NULL. *)
Definition SGN_DestroyContext (cx : ptr) : M unit :=
  log (call_SGN_DestroyContext cx);;
  match cx with
  | None => mret tt
  | Some l => hfree "SGN_DestroyContext" is_SGNContext l
  end.

(** *** Verification contexts *)

Definition VFY_CreateContext (ok : bool) (pubk : ptr) (tag : SECOidTag)
    : M ptr :=
  if ok then
    cx ← halloc (c_VFYContext (by_tag tag) pubk None false);
    log (call_VFY_CreateContext pubk tag (Some cx));;
    mret (Some cx)
  else
    log (call_VFY_CreateContext pubk tag None);;
    mret None.

Definition VFY_CreateContextWithAlgorithmID
    (ok : bool) (pubk : ptr) (id : aptr) (hash : SECOidTag) : M ptr :=
  if ok then
    cx ← halloc (c_VFYContext (by_algorithm_id id) pubk (Some hash) false);
    log (call_VFY_CreateContextWithAlgorithmID pubk id hash (Some cx));;
    mret (Some cx)
  else
    log (call_VFY_CreateContextWithAlgorithmID pubk id hash None);;
    mret None.

Definition VFY_Begin (ok : bool) (cx : ptr) : M SECStatus :=
  '(l, c) ← use_context "VFY_Begin" is_VFYContext cx;
  (if ok then
     match c with
     | c_VFYContext alg key hash _ => hwrite l (c_VFYContext alg key hash true)
     | _ => mret tt
     end
   else mret tt);;
  log (call_VFY_Begin cx (status_of ok));;
  mret (status_of ok).

Definition VFY_Update (ok : bool) (cx : ptr) (input : list Byte.byte)
    : M SECStatus :=
  use_context "VFY_Update" is_VFYContext cx;;
  log (call_VFY_Update cx input (status_of ok));;
  mret (status_of ok).

Definition VFY_EndWithSignature (a : nss_answer) (cx : ptr)
    (sig : list Byte.byte) : M SECStatus :=
  use_context "VFY_EndWithSignature" is_VFYContext cx;;
  rv ← nss a;
  log (call_VFY_EndWithSignature cx sig rv);;
  mret rv.

(** VFY_DestroyContext(cx, freeit): nothing on NULL. *)
Definition VFY_DestroyContext (cx : ptr) : M unit :=
  log (call_VFY_DestroyContext cx);;
  match cx with
  | None => mret tt
  | Some l => hfree "VFY_DestroyContext" is_VFYContext l
  end.

(** *** Keys *)

(** SECKEY_PublicKeyStrengthInBits(pubk): 0 on NULL. *)
Definition SECKEY_PublicKeyStrengthInBits (pubk : ptr) : M N :=
  match pubk with
  | None =>
      log (call_SECKEY_PublicKeyStrengthInBits pubk 0%N);;
      mret 0%N
  | Some l =>
      c ← hread "SECKEY_PublicKeyStrengthInBits" l;
      match c with
      | c_public_key bits =>
          log (call_SECKEY_PublicKeyStrengthInBits pubk bits);;
          mret bits
      | _ => fail (wrong_kind "SECKEY_PublicKeyStrengthInBits" l)
      end
  end.

(** SECKEY_CreateRSAPrivateKey(keySizeInBits, &pubk, NULL): a fresh key pair,
    or NULL with [*pubk] NULL. *)
Definition SECKEY_CreateRSAPrivateKey (ok : bool) (bits : N)
    : M (ptr * ptr) :=
  if ok then
    priv ← halloc (c_private_key bits);
    pub ← halloc (c_public_key bits);
    log (call_SECKEY_CreateRSAPrivateKey bits (Some priv) (Some pub));;
    mret (Some priv, Some pub)
  else
    log (call_SECKEY_CreateRSAPrivateKey bits None None);;
    mret (None, None).

Definition SECKEY_DestroyPublicKey (k : ptr) : M unit :=
  log (call_SECKEY_DestroyPublicKey k);;
  match k with
  | None => mret tt
  | Some l => hfree "SECKEY_DestroyPublicKey" is_public_key l
  end.

Definition SECKEY_DestroyPrivateKey (k : ptr) : M unit :=
  log (call_SECKEY_DestroyPrivateKey k);;
  match k with
  | None => mret tt
  | Some l => hfree "SECKEY_DestroyPrivateKey" is_private_key l
  end.

(** ** The managed objects the file reads *)

(** Modelled from the spec: the managed classes are outside these sources
    ("the core only needs read access to algorithm OID and optional digest
    OID"); an Algorithm object stands for the tag JSS_getOidTagFromAlg maps it
    to, and a key proxy for the native key handle it stores. *)
Record Algorithm := {
  oidTag : SECOidTag
}.

Record PK11Key := {
  keyPointer : ptr
}.

(** The fields of PK11Signature named in java_ids.h: SIG_KEY_FIELD,
    SIG_ALGORITHM_FIELD, SIG_DIGEST_ALGORITHM_FIELD, SIG_CONTEXT_PROXY_FIELD. *)
Record PK11Signature := {
  key : jobject PK11Key;
  algorithm : jobject Algorithm;
  digestAlgorithm : jobject Algorithm;
  sigContext : jobject SigContextProxy
}.

Definition set_sigContext (p : jobject SigContextProxy) (s : PK11Signature)
    : PK11Signature :=
  {| key := key s; algorithm := algorithm s;
     digestAlgorithm := digestAlgorithm s; sigContext := p |}.

(** Modelled from the spec: JSS_getOidTagFromAlg (Algorithm.h) is outside
    these sources; it yields the tag of the Algorithm object, or
    SEC_OID_UNKNOWN with an exception pending. *)
Definition JSS_getOidTagFromAlg (a : jni_answer) (alg : Algorithm)
    : M SECOidTag :=
  ok ← jni a;
  mret (if ok : bool then oidTag alg else SEC_OID_UNKNOWN).

(** Modelled from the spec: JSS_PK11_getPrivKeyPtr and JSS_PK11_getPubKeyPtr
    (pk11util.h) are outside these sources; spec 4.1: the stored native key
    pointer is returned, borrowed, and the call "fails if the stored handle is
    null/invalid" with a TokenError. *)
Definition JSS_PK11_getKeyPtr (a : jni_answer) (k : PK11Key)
    : M (PRStatus * ptr) :=
  ok ← jni a;
  if ok : bool then
    match keyPointer k with
    | Some l => mret (PR_SUCCESS, Some l)
    | None => JSS_throw TOKEN_EXCEPTION;; mret (PR_FAILURE, None)
    end
  else mret (PR_FAILURE, None).

(** Modelled from the spec: JSS_getPtrFromProxy (jssutil.h) is outside these
    sources; it reads the native reference that the managed proxy stores
    (NULL when the proxy stores none), or fails with an exception pending. *)
Definition JSS_getPtrFromProxy (a : jni_answer) (proxy : SigContextProxy)
    : M (PRStatus * ptr) :=
  ok ← jni a;
  if ok : bool then mret (PR_SUCCESS, mPointer proxy)
  else mret (PR_FAILURE, None).

(** Modelled from the spec: JSS_ptrToByteArray (jssutil.h) is outside these
    sources; it encodes a native pointer as a Java byte array, or returns a
    null array with an exception pending.  The array is kept as the pointer
    it encodes. *)
Definition JSS_ptrToByteArray (a : jni_answer) (p : ptr) : M (jobject ptr) :=
  ok ← jni a;
  mret (if ok : bool then Some p else None).

(** ** Algorithm Resolver *)

Record resolver_answers := {
  ans_GetObjectClass : jni_answer;
  ans_GetFieldID : jni_answer;
  ans_getOidTagFromAlg : jni_answer
}.

Definition getAlgorithm (a : resolver_answers) (sig : PK11Signature)
    : M SECOidTag :=
  sigClass ← jni (ans_GetObjectClass a);
  if negb sigClass then
    ASSERT_OUTOFMEM "getAlgorithm: sigClass";;
    mret SEC_OID_UNKNOWN
  else
    algField ← jni (ans_GetFieldID a);
    if negb algField then
      ASSERT_OUTOFMEM "getAlgorithm: algField";;
      mret SEC_OID_UNKNOWN
    else
      match algorithm sig with
      | None =>
          ASSERT_OUTOFMEM "getAlgorithm: alg";;
          mret SEC_OID_UNKNOWN
      | Some alg => JSS_getOidTagFromAlg (ans_getOidTagFromAlg a) alg
      end.

Definition getDigestAlgorithm (a : resolver_answers) (sig : PK11Signature)
    : M SECOidTag :=
  sigClass ← jni (ans_GetObjectClass a);
  if negb sigClass then
    ASSERT_OUTOFMEM "getDigestAlgorithm: sigClass";;
    mret SEC_OID_UNKNOWN
  else
    algField ← jni (ans_GetFieldID a);
    if negb algField then
      ASSERT_OUTOFMEM "getDigestAlgorithm: algField";;
      mret SEC_OID_UNKNOWN
    else
      match digestAlgorithm sig with
      | None =>
          (* Do not ASSERT_OUTOFMEM: it is possible for digestAlgorithm to
             be NULL in sig; no exception will be raised. *)
          mret SEC_OID_UNKNOWN
      | Some alg => JSS_getOidTagFromAlg (ans_getOidTagFromAlg a) alg
      end.

(** ** RSA-PSS Parameter Builder *)

Record pss_answers := {
  ans_PORT_ArenaZAlloc : bool;
  ans_digest : resolver_answers;
  ans_SEC_CreateSignatureAlgorithmParameters : bool;
  ans_SECOID_SetAlgorithmID : bool
}.

(** [alg] is the SECAlgorithmID** argument: [None] when it is NULL, otherwise
    the value of the caller's variable, whose value on return is the second
    component of the result. *)
Definition getRSAPSSParamsAndSigningAlg
    (a : pss_answers) (this : PK11Signature) (arena : ptr)
    (alg : option aptr) (privk : ptr) : M (SECStatus * option aptr) :=
  match alg with
  | None => mret (SECFailure, alg)
  | Some _ =>
      signAlg ← PORT_ArenaZAlloc (ans_PORT_ArenaZAlloc a) arena;
      match signAlg with
      | None =>
          JSS_throw OUT_OF_MEMORY_ERROR;;
          mret (SECFailure, alg)
      | Some _ =>
          digestAlg ← getDigestAlgorithm (ans_digest a) this;
          sigAlgParams ← SEC_CreateSignatureAlgorithmParameters
                           (ans_SEC_CreateSignatureAlgorithmParameters a)
                           arena SEC_OID_PKCS1_RSA_PSS_SIGNATURE digestAlg
                           privk;
          match sigAlgParams with
          | None =>
              JSS_throwMsg TOKEN_EXCEPTION
                "Unable to create signature algorithm parameters";;
              mret (SECFailure, alg)
          | Some _ =>
              (* *alg = signAlg; *)
              rv ← SECOID_SetAlgorithmID (ans_SECOID_SetAlgorithmID a)
                     arena signAlg SEC_OID_PKCS1_RSA_PSS_SIGNATURE
                     sigAlgParams;
              match rv with
              | SECSuccess => mret (rv, Some signAlg)
              | SECFailure =>
                  JSS_throwMsg TOKEN_EXCEPTION
                    "Unable to set RSA-PSS Algorithm ID";;
                  mret (rv, Some signAlg)
              end
          end
      end
  end.

(** ** Key Resolver *)

Record key_answers := {
  ans_key_GetFieldID : jni_answer;
  ans_getKeyPtr : jni_answer
}.

Inductive key_type := PUBLICKEYTYPE | PRIVATEKEYTYPE.

Definition getSomeKey (a : key_answers) (sig : PK11Signature) (t : key_type)
    : M (PRStatus * ptr) :=
  keyField ← jni (ans_key_GetFieldID a);
  if negb keyField then
    ASSERT_OUTOFMEM "getSomeKey: keyField";;
    mret (PR_FAILURE, None)
  else
    match key sig with
    | None =>
        PR_ASSERT false "getSomeKey: keyProxy";;
        JSS_throw TOKEN_EXCEPTION;;
        mret (PR_FAILURE, None)
    | Some keyProxy =>
        '(st, k) ← match t with
                   | PRIVATEKEYTYPE =>
                       JSS_PK11_getKeyPtr (ans_getKeyPtr a) keyProxy
                   | PUBLICKEYTYPE =>
                       JSS_PK11_getKeyPtr (ans_getKeyPtr a) keyProxy
                   end;
        match st with
        | PR_FAILURE =>
            e ← ExceptionOccurred;
            PR_ASSERT e "getSomeKey: ExceptionOccurred";;
            mret (PR_FAILURE, None)
        | PR_SUCCESS =>
            PR_ASSERT (bool_decide (k ≠ None)) "getSomeKey: *key != NULL";;
            mret (PR_SUCCESS, k)
        end
    end.

Definition getPrivateKey (a : key_answers) (sig : PK11Signature)
    : M (PRStatus * ptr) :=
  getSomeKey a sig PRIVATEKEYTYPE.

Definition getPublicKey (a : key_answers) (sig : PK11Signature)
    : M (PRStatus * ptr) :=
  getSomeKey a sig PUBLICKEYTYPE.

(** ** Context Proxy *)

Definition is_null {A} (p : option A) : bool :=
  match p with None => true | Some _ => false end.

(** Read the SigContextProxy struct behind a pointer. *)
Definition read_proxy (fn : string) (p : loc) : M SigContextProxyStr :=
  c ← hread fn p;
  match c with
  | c_proxy r => mret r
  | _ => fail (wrong_kind fn p)
  end.

(** The result is [None] for PR_FAILURE, and the values stored through
    [pContext] and [pType] for PR_SUCCESS. *)
Definition JSS_PK11_getSigContext (a : jni_answer) (proxy : SigContextProxy)
    : M (option (ptr * SigContextType)) :=
  '(st, ctxtProxy) ← JSS_getPtrFromProxy a proxy;
  match st with
  | PR_FAILURE =>
      ASSERT_OUTOFMEM "JSS_PK11_getSigContext";;
      mret None
  | PR_SUCCESS =>
      match ctxtProxy with
      | None =>
          PR_ASSERT false "JSS_PK11_getSigContext: PR_FALSE";;
          JSS_throw SIGNATURE_EXCEPTION;;
          mret None
      | Some p =>
          r ← read_proxy "JSS_PK11_getSigContext" p;
          if is_null (ctxt r) then
            PR_ASSERT false "JSS_PK11_getSigContext: PR_FALSE";;
            JSS_throw SIGNATURE_EXCEPTION;;
            mret None
          else
            mret (Some (ctxt r, type r))
      end
  end.

Record wrap_answers := {
  ans_PR_Malloc : bool;
  ans_ptrToByteArray : jni_answer;
  ans_FindClass : jni_answer;
  ans_GetMethodID : jni_answer;
  ans_NewObject : jni_answer
}.

(** The [finish:] block of JSS_PK11_wrapSigContextProxy.  The result holds
    the returned object and the caller's [*ctxt] and [*arena] on return. *)
Definition wrapSigContextProxy_finish
    (Context : jobject SigContextProxy) (proxy : ptr)
    (ctxt : ptr) (type : SigContextType) (arena : option ptr)
    : M (jobject SigContextProxy * ptr * option ptr) :=
  (if is_null Context then
     (* didn't work, so free resources *)
     (if negb (is_null proxy) then PR_Free proxy else mret tt);;
     match type with
     | SGN_CONTEXT => SGN_DestroyContext ctxt
     | VFY_CONTEXT => VFY_DestroyContext ctxt
     end;;
     match arena with
     | Some a => PORT_FreeArena a
     | None => mret tt
     end
   else mret tt);;
  (* *ctxt = NULL; if (arena != NULL) *arena = NULL; *)
  mret (Context, None,
        match arena with Some _ => Some None | None => None end).

(** [ctxt] is the value of [*ctxt]; [arena] is [None] when the PRArenaPool**
    argument is NULL and otherwise the value of [*arena]. *)
Definition JSS_PK11_wrapSigContextProxy
    (a : wrap_answers) (ctxt : ptr) (type : SigContextType)
    (arena : option ptr)
    : M (jobject SigContextProxy * ptr * option ptr) :=
  PR_ASSERT (negb (is_null ctxt)) "JSS_PK11_wrapSigContextProxy: *ctxt";;
  proxy ← PR_Malloc (ans_PR_Malloc a);
  match proxy with
  | None =>
      JSS_throw OUT_OF_MEMORY_ERROR;;
      wrapSigContextProxy_finish None proxy ctxt type arena
  | Some p =>
      hwrite p (c_proxy {| ctxt := ctxt; type := type;
                           arena := match arena with
                                    | Some a => a
                                    | None => None
                                    end |});;
      byteArray ← JSS_ptrToByteArray (ans_ptrToByteArray a) proxy;
      proxyClass ← jni (ans_FindClass a);
      if negb proxyClass then
        ASSERT_OUTOFMEM "JSS_PK11_wrapSigContextProxy: proxyClass";;
        wrapSigContextProxy_finish None proxy ctxt type arena
      else
        constructor ← jni (ans_GetMethodID a);
        if negb constructor then
          ASSERT_OUTOFMEM "JSS_PK11_wrapSigContextProxy: constructor";;
          wrapSigContextProxy_finish None proxy ctxt type arena
        else
          (* call the constructor *)
          made ← jni (ans_NewObject a);
          wrapSigContextProxy_finish
            (if made : bool
             then Some {| mPointer := match byteArray with
                                      | Some q => q
                                      | None => None
                                      end |}
             else None)
            proxy ctxt type arena
  end.

(** SigContextProxy.releaseNativeResources *)
Definition Java_org_mozilla_jss_pkcs11_SigContextProxy_releaseNativeResources
    (a : jni_answer) (this : SigContextProxy) : M unit :=
  '(st, proxy) ← JSS_getPtrFromProxy a this;
  match st with
  | PR_FAILURE => mret tt
  | PR_SUCCESS =>
      match proxy with
      | None => mret tt
      | Some p =>
          r ← read_proxy "releaseNativeResources" p;
          match type r with
          | SGN_CONTEXT => SGN_DestroyContext (ctxt r)
          | VFY_CONTEXT => VFY_DestroyContext (ctxt r)
          end;;
          PORT_FreeArena (arena r);;
          hwrite p (c_proxy {| ctxt := ctxt r; type := type r;
                               arena := None |});;
          PR_Free proxy
      end
  end.

(** setSigContext: stores the proxy in the PK11Signature, and says nothing
    when the field cannot be found. *)
Definition setSigContext (a : jni_answer) (sig : PK11Signature)
    (context : jobject SigContextProxy) : M PK11Signature :=
  contextField ← jni a;
  if negb contextField then
    ASSERT_OUTOFMEM "setSigContext";;
    ExceptionClear;;
    mret sig
  else
    mret (set_sigContext context sig).

Record sigctx_answers := {
  ans_ctx_GetFieldID : jni_answer;
  ans_getPtrFromProxy : jni_answer
}.

Definition getSigContext (a : sigctx_answers) (sig : PK11Signature)
    : M (option (ptr * SigContextType)) :=
  contextField ← jni (ans_ctx_GetFieldID a);
  if negb contextField then
    ASSERT_OUTOFMEM "getSigContext";;
    mret None
  else
    match sigContext sig with
    | None =>
        PR_ASSERT false "getSigContext: PR_FALSE";;
        JSS_throw TOKEN_EXCEPTION;;
        mret None
    | Some proxy =>
        r ← JSS_PK11_getSigContext (ans_getPtrFromProxy a) proxy;
        match r with
        | None =>
            e ← ExceptionOccurred;
            PR_ASSERT e "getSigContext: ExceptionOccurred";;
            mret None
        | Some (pContext, pType) =>
            PR_ASSERT (negb (is_null pContext)) "getSigContext: *pContext";;
            mret r
        end
    end.

(** ** Context Factory *)

Record initSig_answers := {
  ans_sig_key : key_answers;
  ans_sig_alg : resolver_answers;
  ans_sig_PORT_NewArena : bool;
  ans_sig_pss : pss_answers;
  ans_SGN_NewContext : bool;
  ans_SGN_Begin : bool;
  ans_sig_wrap : wrap_answers;
  ans_sig_set : jni_answer
}.

(** The local variables of initSigContext that its [finish:] block reads. *)
Record initSig_locals := {
  sig_contextProxy : jobject SigContextProxy;
  sig_ctxt : ptr;
  sig_arena : ptr
}.

(** The [finish:] block of initSigContext. *)
Definition initSigContext_finish (l : initSig_locals) : M unit :=
  (if is_null (sig_contextProxy l) && negb (is_null (sig_ctxt l)) then
     (* we created a context but not the Java wrapper, so we need to
        delete the context here. *)
     SGN_DestroyContext (sig_ctxt l)
   else mret tt);;
  (* When contentProxy is created, arena will be NULLed and contentProxy
     takes ownership of it. Otherwise, when arena still exists, we must
     free it now. *)
  PORT_FreeArena (sig_arena l).

(** initSigContext from [if (ctxt == NULL)] up to [finish:], where the two
    branches on the signing algorithm have met again.  The result is the
    PK11Signature object and the locals on arrival at [finish:]. *)
Definition initSigContext_created
    (a : initSig_answers) (this : PK11Signature) (ctxt arena : ptr)
    : M (PK11Signature * initSig_locals) :=
  match ctxt with
  | None =>
      JSS_throwMsg TOKEN_EXCEPTION "Unable to create signing context";;
      mret (this, Build_initSig_locals None ctxt arena)
  | Some _ =>
      rv ← SGN_Begin (ans_SGN_Begin a) ctxt;
      match rv with
      | SECFailure =>
          JSS_throwMsg TOKEN_EXCEPTION "Unable to begin signing context";;
          mret (this, Build_initSig_locals None ctxt arena)
      | SECSuccess =>
          (* Create a contextProxy and stick it in the PK11Signature
             object *)
          '(contextProxy, ctxt', arena') ←
            JSS_PK11_wrapSigContextProxy (ans_sig_wrap a) ctxt SGN_CONTEXT
              (Some arena);
          let arena' := default arena arena' in
          match contextProxy with
          | None =>
              e ← ExceptionOccurred;
              PR_ASSERT e "initSigContext: ExceptionOccurred";;
              mret (this, Build_initSig_locals contextProxy ctxt' arena')
          | Some _ =>
              this' ← setSigContext (ans_sig_set a) this contextProxy;
              mret (this', Build_initSig_locals contextProxy ctxt' arena')
          end
      end
  end.

(** initSigContext up to [finish:]. *)
Definition initSigContext_body
    (a : initSig_answers) (this : PK11Signature)
    : M (PK11Signature * initSig_locals) :=
  (* Extract the private key from the PK11Signature *)
  '(st, privk) ← getPrivateKey (ans_sig_key a) this;
  match st with
  | PR_FAILURE =>
      e ← ExceptionOccurred;
      PR_ASSERT e "initSigContext: ExceptionOccurred";;
      mret (this, Build_initSig_locals None None None)
  | PR_SUCCESS =>
      signingAlg ← getAlgorithm (ans_sig_alg a) this;
      if SECOidTag_eqb signingAlg SEC_OID_PKCS1_RSA_PSS_SIGNATURE then
        arena ← PORT_NewArena (ans_sig_PORT_NewArena a);
        match arena with
        | None =>
            JSS_throw OUT_OF_MEMORY_ERROR;;
            mret (this, Build_initSig_locals None None arena)
        | Some _ =>
            '(rv, signAlg) ← getRSAPSSParamsAndSigningAlg (ans_sig_pss a)
                               this arena (Some None) privk;
            match rv with
            | SECFailure =>
                mret (this, Build_initSig_locals None None arena)
            | SECSuccess =>
                (* Start the signing operation *)
                ctxt ← SGN_NewContextWithAlgorithmID (ans_SGN_NewContext a)
                         (default None signAlg) privk;
                initSigContext_created a this ctxt arena
            end
        end
      else
        ctxt ← SGN_NewContext (ans_SGN_NewContext a) signingAlg privk;
        initSigContext_created a this ctxt None
  end.

(** PK11Signature.initSigContext; the result is the PK11Signature object as
    the call leaves it. *)
Definition Java_org_mozilla_jss_pkcs11_PK11Signature_initSigContext
    (a : initSig_answers) (this : PK11Signature) : M PK11Signature :=
  '(this', l) ← initSigContext_body a this;
  initSigContext_finish l;;
  mret this'.

Record initVfy_answers := {
  ans_vfy_key : key_answers;
  ans_vfy_alg : resolver_answers;
  ans_SECKEY_CreateRSAPrivateKey : bool;
  ans_vfy_PORT_NewArena : bool;
  ans_vfy_pss : pss_answers;
  ans_vfy_digest : resolver_answers;
  ans_VFY_CreateContext : bool;
  ans_VFY_Begin : bool;
  ans_vfy_wrap : wrap_answers;
  ans_vfy_set : jni_answer
}.

(** The local variables of initVfyContext that its [finish:] block reads. *)
Record initVfy_locals := {
  vfy_contextProxy : jobject SigContextProxy;
  vfy_ctxt : ptr;
  vfy_tempPubKey : ptr;
  vfy_privk : ptr;
  vfy_arena : ptr
}.

(** The [finish:] block of initVfyContext. *)
Definition initVfyContext_finish (l : initVfy_locals) : M unit :=
  (if is_null (vfy_contextProxy l) && negb (is_null (vfy_ctxt l)) then
     (* we created a context but not the Java wrapper, so we need to
        delete the context here *)
     VFY_DestroyContext (vfy_ctxt l)
   else mret tt);;
  SECKEY_DestroyPublicKey (vfy_tempPubKey l);;
  SECKEY_DestroyPrivateKey (vfy_privk l);;
  PORT_FreeArena (vfy_arena l).

(** initVfyContext from [if (ctxt == NULL)] up to [finish:]. *)
Definition initVfyContext_created
    (a : initVfy_answers) (this : PK11Signature)
    (ctxt tempPubKey privk arena : ptr)
    : M (PK11Signature * initVfy_locals) :=
  match ctxt with
  | None =>
      JSS_throwMsg TOKEN_EXCEPTION "Unable to create vfy context";;
      mret (this, Build_initVfy_locals None ctxt tempPubKey privk arena)
  | Some _ =>
      rv ← VFY_Begin (ans_VFY_Begin a) ctxt;
      match rv with
      | SECFailure =>
          JSS_throwMsg TOKEN_EXCEPTION
            "Unable to begin verification context";;
          mret (this, Build_initVfy_locals None ctxt tempPubKey privk arena)
      | SECSuccess =>
          (* create a ContextProxy and stick it in the PK11Signature
             object *)
          '(contextProxy, ctxt', arena') ←
            JSS_PK11_wrapSigContextProxy (ans_vfy_wrap a) ctxt VFY_CONTEXT
              (Some arena);
          let arena' := default arena arena' in
          match contextProxy with
          | None =>
              e ← ExceptionOccurred;
              PR_ASSERT e "initVfyContext: ExceptionOccurred";;
              mret (this, Build_initVfy_locals contextProxy ctxt' tempPubKey
                            privk arena')
          | Some _ =>
              this' ← setSigContext (ans_vfy_set a) this contextProxy;
              mret (this', Build_initVfy_locals contextProxy ctxt' tempPubKey
                             privk arena')
          end
      end
  end.

(** initVfyContext up to [finish:]. *)
Definition initVfyContext_body
    (a : initVfy_answers) (this : PK11Signature)
    : M (PK11Signature * initVfy_locals) :=
  '(st, pubk) ← getPublicKey (ans_vfy_key a) this;
  match st with
  | PR_FAILURE =>
      e ← ExceptionOccurred;
      PR_ASSERT e "initVfyContext: ExceptionOccurred";;
      mret (this, Build_initVfy_locals None None None None None)
  | PR_SUCCESS =>
      signingAlg ← getAlgorithm (ans_vfy_alg a) this;
      if SECOidTag_eqb signingAlg SEC_OID_PKCS1_RSA_PSS_SIGNATURE then
        (* Create place holder private key, just to create the PSS Params. *)
        key_bits ← SECKEY_PublicKeyStrengthInBits pubk;
        '(privk, tempPubKey) ← SECKEY_CreateRSAPrivateKey
                                 (ans_SECKEY_CreateRSAPrivateKey a) key_bits;
        match privk with
        | None =>
            JSS_throwMsg TOKEN_EXCEPTION "Unable to create temporary RSA key";;
            mret (this, Build_initVfy_locals None None tempPubKey privk None)
        | Some _ =>
            arena ← PORT_NewArena (ans_vfy_PORT_NewArena a);
            match arena with
            | None =>
                JSS_throw OUT_OF_MEMORY_ERROR;;
                mret (this,
                      Build_initVfy_locals None None tempPubKey privk arena)
            | Some _ =>
                '(rv, signAlg) ← getRSAPSSParamsAndSigningAlg
                                   (ans_vfy_pss a) this arena (Some None)
                                   privk;
                match rv with
                | SECFailure =>
                    e ← ExceptionOccurred;
                    PR_ASSERT e "initVfyContext: ExceptionOccurred";;
                    mret (this, Build_initVfy_locals None None tempPubKey
                                  privk arena)
                | SECSuccess =>
                    digestAlg ← getDigestAlgorithm (ans_vfy_digest a) this;
                    ctxt ← VFY_CreateContextWithAlgorithmID
                             (ans_VFY_CreateContext a) pubk
                             (default None signAlg) digestAlg;
                    initVfyContext_created a this ctxt tempPubKey privk arena
                end
            end
        end
      else
        ctxt ← VFY_CreateContext (ans_VFY_CreateContext a) pubk signingAlg;
        initVfyContext_created a this ctxt None None None
  end.

(** PK11Signature.initVfyContext *)
Definition Java_org_mozilla_jss_pkcs11_PK11Signature_initVfyContext
    (a : initVfy_answers) (this : PK11Signature) : M PK11Signature :=
  '(this', l) ← initVfyContext_body a this;
  initVfyContext_finish l;;
  mret this'.

(** ** Byte arrays across the boundary *)

(** A jint is C's int: 32 bits, signed. *)
Definition jint_min : Z := (- 2 ^ 31)%Z.
Definition jint_max : Z := (2 ^ 31 - 1)%Z.
Definition is_jint (z : Z) : Prop := (jint_min <= z <= jint_max)%Z.

(** The sum of two jints, in C's int: when it does not fit, C leaves the
    behaviour undefined (a compiler may drop a test made on the sum), which
    the test double reports as a fault. *)
Definition jint_add (fn : string) (a b : Z) : M Z :=
  if ((jint_min <=? a + b) && (a + b <=? jint_max))%Z then mret (a + b)%Z
  else fail (signed_overflow fn).

(** Modelled from the spec: JSS_RefByteArray and JSS_DerefByteArray
    (jssutil.h) are outside these sources ("marshalling of byte buffers
    between runtime and native heap, treated as a provided primitive"); they
    are taken as JNI's GetByteArrayElements and ReleaseByteArrayElements: the
    first lends a native buffer with the array's bytes and tells its length,
    or fails with an exception pending; the second gives the buffer back,
    copying it into the array unless the mode is JNI_ABORT, and does nothing
    for a NULL buffer. *)
Definition JSS_RefByteArray (a : jni_answer) (array : nat)
    : M (bool * ptr * Z) :=
  ok ← jni a;
  w ← (fun w => Ok w w);
  match ok, jarrays w !! array with
  | true, Some bytes =>
      p ← halloc (c_bytes bytes);
      log (call_JSS_RefByteArray array (Some p));;
      mret (true, Some p, Z.of_nat (length bytes))
  | _, _ =>
      log (call_JSS_RefByteArray array None);;
      mret (false, None, 0%Z)
  end.

Definition JSS_DerefByteArray (array : nat) (data : ptr) (mode : release_mode)
    : M unit :=
  log (call_JSS_DerefByteArray array data mode);;
  match data with
  | None => mret tt
  | Some p =>
      c ← hread "JSS_DerefByteArray" p;
      match c with
      | c_bytes bytes =>
          (match mode with
           | JNI_ABORT => mret tt
           | _ => fun w => Ok tt (set_jarrays (<[array := bytes]> (jarrays w)) w)
           end);;
          match mode with
          | JNI_COMMIT => mret tt
          | _ => hfree "JSS_DerefByteArray" is_malloced p
          end
      | _ => fail (wrong_kind "JSS_DerefByteArray" p)
      end
  end.

(** The [len] bytes at [data + off], as the native library reads them;
    reading past the buffer is a fault. *)
Definition read_bytes (fn : string) (data : ptr) (off len : Z)
    : M (list Byte.byte) :=
  match data with
  | None => fail (null_dereference fn)
  | Some p =>
      c ← hread fn p;
      match c with
      | c_bytes bytes =>
          if ((0 <=? off) && (0 <=? len)
              && (off + len <=? Z.of_nat (length bytes)))%Z
          then mret (take (Z.to_nat len) (drop (Z.to_nat off) bytes))
          else fail (out_of_bounds fn p)
      | _ => fail (wrong_kind fn p)
      end
  end.

(** ** Streaming Engine *)

(** The test of engineUpdateNative on its arguments,
    [offset < 0 || offset >= numBytes || length < 0 ||
     (offset+length) > numBytes || (offset+length) < 0],
    evaluated from left to right as [||] does: the sum is computed only
    when the first three tests are false. *)
Definition update_bounds_test (offset length numBytes : Z) : M bool :=
  if ((offset <? 0) || (offset >=? numBytes) || (length <? 0))%Z
  then mret true
  else
    sum ← jint_add "engineUpdateNative" offset length;
    if (sum >? numBytes)%Z then mret true
    else
      sum' ← jint_add "engineUpdateNative" offset length;
      mret (sum' <? 0)%Z.

Record update_answers := {
  ans_upd_ctx : sigctx_answers;
  ans_upd_RefByteArray : jni_answer;
  ans_Update : bool
}.

(** PK11Signature.engineUpdateNative *)
Definition Java_org_mozilla_jss_pkcs11_PK11Signature_engineUpdateNative
    (a : update_answers) (this : PK11Signature) (bArray : nat)
    (offset length : Z) : M unit :=
  r ← getSigContext (ans_upd_ctx a) this;
  match r with
  | None =>
      e ← ExceptionOccurred;
      PR_ASSERT e "engineUpdateNative: ExceptionOccurred";;
      JSS_DerefByteArray bArray None JNI_ABORT
  | Some (ctxt, type) =>
      PR_ASSERT (negb (is_null ctxt)) "engineUpdateNative: ctxt != NULL";;
      (* Get the bytes to be updated *)
      '(ok, bytes, numBytes) ← JSS_RefByteArray (ans_upd_RefByteArray a)
                                 bArray;
      if negb ok then
        ASSERT_OUTOFMEM "engineUpdateNative: JSS_RefByteArray";;
        JSS_DerefByteArray bArray bytes JNI_ABORT
      else
        rejected ← update_bounds_test offset length numBytes;
        if rejected : bool then
          JSS_throw ARRAY_INDEX_OUT_OF_BOUNDS_EXCEPTION;;
          JSS_DerefByteArray bArray bytes JNI_ABORT
        else
          (* Update the context *)
          input ← read_bytes "engineUpdateNative" bytes offset length;
          match type with
          | SGN_CONTEXT =>
              rv ← SGN_Update (ans_Update a) ctxt input;
              match rv with
              | SECSuccess => mret tt
              | SECFailure => JSS_throwMsg SIGNATURE_EXCEPTION "update failed"
              end
          | VFY_CONTEXT =>
              rv ← VFY_Update (ans_Update a) ctxt input;
              match rv with
              | SECSuccess => mret tt
              | SECFailure => JSS_throwMsg SIGNATURE_EXCEPTION "update failed"
              end
          end;;
          JSS_DerefByteArray bArray bytes JNI_ABORT
  end.

Record sign_answers := {
  ans_sign_ctx : sigctx_answers;
  ans_SGN_End : option (list Byte.byte);
  ans_ToByteArray : jni_answer
}.

(** Modelled from the spec: JSS_ToByteArray (jssutil.h) is outside these
    sources; it copies [len] native bytes into a new Java byte array, or
    returns null with an exception pending. *)
Definition JSS_ToByteArray (a : jni_answer) (data : ptr) (len : Z)
    : M (jobject (list Byte.byte)) :=
  ok ← jni a;
  if ok : bool then
    bytes ← read_bytes "JSS_ToByteArray" data 0 len;
    mret (Some bytes)
  else mret None.

(** PK11Signature.engineSignNative.  JSS_throwMsgPrErr raises the exception
    with the NSPR error text appended to the message; the text is left
    out. *)
Definition Java_org_mozilla_jss_pkcs11_PK11Signature_engineSignNative
    (a : sign_answers) (this : PK11Signature)
    : M (jobject (list Byte.byte)) :=
  r ← getSigContext (ans_sign_ctx a) this;
  match r with
  | None =>
      e ← ExceptionOccurred;
      PR_ASSERT e "engineSignNative: ExceptionOccurred";;
      mret None
  | Some (ctxt, type) =>
      PR_ASSERT (negb (is_null ctxt) && SigContextType_eqb type SGN_CONTEXT)
        "engineSignNative: ctxt!=NULL && type==SGN_CONTEXT";;
      (* Finish the signing operation. *)
      '(rv, signature_data, signature_len) ← SGN_End (ans_SGN_End a) ctxt;
      match rv with
      | SECFailure =>
          JSS_throwMsg SIGNATURE_EXCEPTION "Signing operation failed";;
          (if negb (is_null signature_data) then PR_Free signature_data
           else mret tt);;
          mret None
      | SECSuccess =>
          sigArray ← JSS_ToByteArray (ans_ToByteArray a) signature_data
                       signature_len;
          (if is_null sigArray
           then ASSERT_OUTOFMEM "engineSignNative: sigArray"
           else mret tt);;
          (if negb (is_null signature_data) then PR_Free signature_data
           else mret tt);;
          mret sigArray
      end
  end.

Record verify_answers := {
  ans_vfy_ctx : sigctx_answers;
  ans_vfy_RefByteArray : jni_answer;
  ans_VFY_EndWithSignature : nss_answer
}.

(** PK11Signature.engineVerifyNative *)
Definition Java_org_mozilla_jss_pkcs11_PK11Signature_engineVerifyNative
    (a : verify_answers) (this : PK11Signature) (sigArray : nat) : M bool :=
  r ← getSigContext (ans_vfy_ctx a) this;
  match r with
  | None =>
      PR_ASSERT false "engineVerifyNative: PR_FALSE";;
      JSS_throwMsg SIGNATURE_EXCEPTION
        "Unable to retrieve verification context";;
      JSS_DerefByteArray sigArray None JNI_ABORT;;
      mret false
  | Some (ctxt, type) =>
      if negb (SigContextType_eqb type VFY_CONTEXT) then
        PR_ASSERT false "engineVerifyNative: PR_FALSE";;
        JSS_throwMsg SIGNATURE_EXCEPTION
          "Verification engine has signature context";;
        JSS_DerefByteArray sigArray None JNI_ABORT;;
        mret false
      else
        (* Convert signature to SECItem *)
        '(ok, data, len) ← JSS_RefByteArray (ans_vfy_RefByteArray a) sigArray;
        if negb ok then
          ASSERT_OUTOFMEM "engineVerifyNative: JSS_RefByteArray";;
          JSS_DerefByteArray sigArray data JNI_ABORT;;
          mret false
        else
          (* Finish the verification operation *)
          sig ← read_bytes "engineVerifyNative" data 0 len;
          rv ← VFY_EndWithSignature (ans_VFY_EndWithSignature a) ctxt sig;
          match rv with
          | SECSuccess =>
              JSS_DerefByteArray sigArray data JNI_ABORT;;
              mret true
          | SECFailure =>
              err ← PR_GetError;
              if negb (err =? SEC_ERROR_BAD_SIGNATURE)%Z then
                PR_ASSERT false "engineVerifyNative: PR_FALSE";;
                JSS_throwMsg SIGNATURE_EXCEPTION
                  "Failed to complete verification operation";;
                JSS_DerefByteArray sigArray data JNI_ABORT;;
                mret false
              else
                JSS_DerefByteArray sigArray data JNI_ABORT;;
                mret false
          end
  end.

(** ** Raw verification *)

(** Modelled from the spec: JSS_ByteArrayToSECItem (jssutil.h) is outside
    these sources; it copies a Java byte array into a fresh SECItem, or
    returns NULL with an exception pending. *)
Definition JSS_ByteArrayToSECItem (a : jni_answer) (array : nat) : M ptr :=
  ok ← jni a;
  w ← (fun w => Ok w w);
  match ok, jarrays w !! array with
  | true, Some bytes => p ← halloc (c_bytes bytes); mret (Some p)
  | _, _ => mret None
  end.

(** SECITEM_FreeItem(item, freeit) *)
Definition SECITEM_FreeItem (item : ptr) : M unit :=
  match item with
  | None => mret tt
  | Some p => hfree "SECITEM_FreeItem" is_malloced p
  end.

Definition item_bytes (fn : string) (item : ptr) : M (list Byte.byte) :=
  match item with
  | None => fail (null_dereference fn)
  | Some p =>
      c ← hread fn p;
      match c with
      | c_bytes bytes => mret bytes
      | _ => fail (wrong_kind fn p)
      end
  end.

(** PK11_Verify(key, sig, hash, wincx) *)
Definition PK11_Verify (a : nss_answer) (key sig hash : ptr) : M SECStatus :=
  s ← item_bytes "PK11_Verify" sig;
  h ← item_bytes "PK11_Verify" hash;
  rv ← nss a;
  log (call_PK11_Verify key s h rv);;
  mret rv.

Record rawVerify_answers := {
  ans_raw_sig : jni_answer;
  ans_raw_hash : jni_answer;
  ans_raw_getPubKeyPtr : jni_answer;
  ans_PK11_Verify : nss_answer
}.

(** The [finish:] block of engineRawVerifyNative. *)
Definition engineRawVerifyNative_finish (sig hash : ptr) (verified : bool)
    : M bool :=
  (if negb (is_null sig) then SECITEM_FreeItem sig else mret tt);;
  (if negb (is_null hash) then SECITEM_FreeItem hash else mret tt);;
  mret verified.

(** PK11Signature.engineRawVerifyNative *)
Definition Java_org_mozilla_jss_pkcs11_PK11Signature_engineRawVerifyNative
    (a : rawVerify_answers) (keyObj : PK11Key) (hashBA sigBA : nat)
    : M bool :=
  sig ← JSS_ByteArrayToSECItem (ans_raw_sig a) sigBA;
  if is_null sig then engineRawVerifyNative_finish sig None false
  else
    hash ← JSS_ByteArrayToSECItem (ans_raw_hash a) hashBA;
    if is_null hash then engineRawVerifyNative_finish sig hash false
    else
      '(st, key) ← JSS_PK11_getKeyPtr (ans_raw_getPubKeyPtr a) keyObj;
      match st with
      | PR_FAILURE => engineRawVerifyNative_finish sig hash false
      | PR_SUCCESS =>
          (* perform the operation *)
          status ← PK11_Verify (ans_PK11_Verify a) key sig hash;
          match status with
          | SECSuccess => engineRawVerifyNative_finish sig hash true
          | SECFailure =>
              err ← PR_GetError;
              if negb (err =? SEC_ERROR_BAD_SIGNATURE)%Z then
                JSS_throwMsg SIGNATURE_EXCEPTION
                  "Verification operation failed on token";;
                engineRawVerifyNative_finish sig hash false
              else engineRawVerifyNative_finish sig hash false
          end
      end.

(** * Specification vocabulary

    The predicates in which the properties of the bridge are stated, and the
    concrete worlds and answers on which they are run. *)

(** The heap after the cell behind [q] is released (nothing for NULL). *)
Definition released (q : ptr) (h : list cell) : list cell :=
  match q with
  | Some l => <[l := c_freed]> h
  | None => h
  end.

(** [q] is NULL or points to a live cell of the given kind. *)
Definition live_as (kind : cell -> bool) (q : ptr) (h : list cell) : Prop :=
  match q with
  | Some l => exists c, h !! l = Some c /\ kind c = true
  | None => True
  end.

Definition context_kind (t : SigContextType) : cell -> bool :=
  match t with
  | SGN_CONTEXT => is_SGNContext
  | VFY_CONTEXT => is_VFYContext
  end.

(** Nothing native has changed between two worlds: only exceptions and
    assertions may have been added. *)
Definition native_same (w w' : world) : Prop :=
  heap w' = heap w /\ jarrays w' = jarrays w /\ calls w' = calls w /\
  pr_error w' = pr_error w.

(** The keys a call into the library is given or gives back. *)
Definition call_keys (c : call) : list ptr :=
  match c with
  | call_SEC_CreateSignatureAlgorithmParameters _ _ _ k _ => [k]
  | call_SGN_NewContext _ k _ => [k]
  | call_SGN_NewContextWithAlgorithmID _ k _ => [k]
  | call_VFY_CreateContext k _ _ => [k]
  | call_VFY_CreateContextWithAlgorithmID k _ _ _ => [k]
  | call_SECKEY_PublicKeyStrengthInBits k _ => [k]
  | call_SECKEY_CreateRSAPrivateKey _ k k' => [k; k']
  | call_SECKEY_DestroyPublicKey k => [k]
  | call_SECKEY_DestroyPrivateKey k => [k]
  | call_PK11_Verify k _ _ _ => [k]
  | _ => []
  end.

Definition wrap_post (a : wrap_answers) (c : loc) (t : SigContextType)
    (ar : option ptr) (w : world)
    (r : jobject SigContextProxy * ptr * option ptr) (w' : world) : Prop :=
  let '(Context, ctxt', arena') := r in
  ctxt' = None /\ arena' = (fun _ => None) <$> ar /\
  jarrays w' = jarrays w /\
  (exists new, calls w' = calls w ++ new /\
               Forall (fun c => call_keys c = []) new) /\
  match Context with
  | Some proxy =>
      heap w' = heap w ++ [c_proxy {| ctxt := Some c; type := t;
                                      arena := default None ar |}] /\
      (mPointer proxy = Some (length (heap w)) \/
       mPointer proxy = None /\ ans_ptrToByteArray a <> jni_ok)
  | None =>
      heap w' = released (default None ar) (released (Some c) (heap w))
                ++ (if ans_PR_Malloc a then [c_freed] else [])
  end.

(** The tag getDigestAlgorithm returns and the exceptions it leaves pending
    do not depend on the world, and nothing native changes. *)
Definition digest_resolves (a : resolver_answers) (sig : PK11Signature)
    (digest : SECOidTag) (raised : list jthrowable) : Prop :=
  forall w, ensures (getDigestAlgorithm a sig w)
              (fun d w' => d = digest /\ pending w' = pending w ++ raised /\
                           native_same w w').

(** The four ways through getRSAPSSParamsAndSigningAlg once [alg] is not
    NULL, told by the calls made, the blocks added to the arena, the
    exceptions raised, and what is handed back. *)
Definition pss_post (a : pss_answers) (this : PK11Signature) (ar : loc)
    (blocks : list ablock) (alg0 : aptr) (privk : ptr) (w : world)
    (r : SECStatus * option aptr) (w' : world) : Prop :=
  let '(rv, alg') := r in
  let id := in_arena ar (length blocks) in
  let item := in_arena ar (length blocks + 1) in
  jarrays w' = jarrays w /\ pr_error w' = pr_error w /\
  exists digest raised added new,
    digest_resolves (ans_digest a) this digest raised /\
    heap w' = <[ar := c_arena (blocks ++ added)]> (heap w) /\
    calls w' = calls w ++ new /\
    let params := {| p_sigOid := SEC_OID_PKCS1_RSA_PSS_SIGNATURE;
                     p_hashOid := digest; p_key := privk |} in
    let zalloc := call_PORT_ArenaZAlloc (Some ar) in
    let create := call_SEC_CreateSignatureAlgorithmParameters (Some ar)
                    SEC_OID_PKCS1_RSA_PSS_SIGNATURE digest privk in
    let set := call_SECOID_SetAlgorithmID (Some ar) (Some id)
                 SEC_OID_PKCS1_RSA_PSS_SIGNATURE (Some item) in
    (rv = SECFailure /\ alg' = Some alg0 /\
     added = [] /\ new = [zalloc None] /\
     pending w' = pending w ++ [(OUT_OF_MEMORY_ERROR, None)])
    \/
    (rv = SECFailure /\ alg' = Some alg0 /\
     added = [blk_SECAlgorithmID SEC_OID_UNKNOWN None] /\
     new = [zalloc (Some id); create None] /\
     pending w' =
       pending w ++ raised ++
       [(TOKEN_EXCEPTION,
         Some "Unable to create signature algorithm parameters")])
    \/
    (rv = SECFailure /\ alg' = Some (Some id) /\
     added = [blk_SECAlgorithmID SEC_OID_UNKNOWN None; blk_SECItem params] /\
     new = [zalloc (Some id); create (Some item); set SECFailure] /\
     pending w' =
       pending w ++ raised ++
       [(TOKEN_EXCEPTION, Some "Unable to set RSA-PSS Algorithm ID")])
    \/
    (rv = SECSuccess /\ alg' = Some (Some id) /\
     added = [blk_SECAlgorithmID SEC_OID_PKCS1_RSA_PSS_SIGNATURE (Some params);
              blk_SECItem params] /\
     new = [zalloc (Some id); create (Some item); set SECSuccess] /\
     pending w' = pending w ++ raised).

(** Every cell of [s] has been released. *)
Definition all_released (s : list cell) : Prop :=
  Forall (fun c => c = c_freed) s.

(** Among the cells [s], allocated from address [base] on, what has not been
    released is one proxy record of kind [t], the live context it points to
    and, when it has one, the live arena it points to. *)
Definition held_by_proxy (t : SigContextType) (base : nat) (s : list cell)
    : Prop :=
  exists p cx r,
    s !! p = Some (c_proxy r) /\ type r = t /\ ctxt r = Some (base + cx) /\
    (exists c, s !! cx = Some c /\ context_kind t c = true) /\
    match arena r with
    | Some a => exists i blocks, a = base + i /\ s !! i = Some (c_arena blocks)
    | None => True
    end /\
    forall j c, s !! j = Some c ->
      c = c_freed \/ j = p \/ j = cx \/ arena r = Some (base + j).

(** What the heap may look like when a factory returns: the cells allocated
    by the call follow those that were there, which are untouched. *)
Definition factory_post (t : SigContextType)
    (contextProxy : jobject SigContextProxy) (w w' : world) : Prop :=
  exists s, heap w' = heap w ++ s /\
            match contextProxy with
            | None => all_released s
            | Some _ => held_by_proxy t (length (heap w)) s
            end.

(** The key a PK11Signature holds is a live public key. *)
Definition holds_public_key (this : PK11Signature) (h : list cell) : Prop :=
  forall l, key this = Some {| keyPointer := Some l |} ->
            exists bits, h !! l = Some (c_public_key bits).

(** The calls in which the library may be given the placeholder key pair:
    its creation, the construction of the PSS parameters, its
    destruction. *)
Definition placeholder_call (c : call) : Prop :=
  match c with
  | call_SECKEY_CreateRSAPrivateKey _ _ _
  | call_SEC_CreateSignatureAlgorithmParameters _ _ _ _ _
  | call_SECKEY_DestroyPrivateKey _
  | call_SECKEY_DestroyPublicKey _ => True
  | _ => False
  end.

(** The calls that create a verification context. *)
Definition creates_VFYContext (c : call) : Prop :=
  match c with
  | call_VFY_CreateContext _ _ _
  | call_VFY_CreateContextWithAlgorithmID _ _ _ _ => True
  | _ => False
  end.

Definition placeholder_post (pubk : loc) (bits : N) (w w' : world) : Prop :=
  exists new,
    calls w' = calls w ++ new /\
    heap w' !! pubk = Some (c_public_key bits) /\
    Forall (fun c => creates_VFYContext c -> call_keys c = [Some pubk]) new /\
    forall n k kp,
      call_SECKEY_CreateRSAPrivateKey n (Some k) (Some kp) ∈ new ->
      n = bits /\
      heap w' !! k = Some c_freed /\ heap w' !! kp = Some c_freed /\
      Forall (fun c => Some k ∈ call_keys c \/ Some kp ∈ call_keys c ->
                       placeholder_call c) new.

(** The library makes the placeholder key pair, the arena and every step of
    the PSS parameter builder. *)
Definition pss_steps_ok (a : initVfy_answers) : Prop :=
  ans_SECKEY_CreateRSAPrivateKey a = true /\
  ans_vfy_PORT_NewArena a = true /\
  ans_PORT_ArenaZAlloc (ans_vfy_pss a) = true /\
  ans_SEC_CreateSignatureAlgorithmParameters (ans_vfy_pss a) = true /\
  ans_SECOID_SetAlgorithmID (ans_vfy_pss a) = true.

(** The calls of initVfyContext for RSA-PSS, [pubk] being the real key, of
    strength [bits].  The first two ask for the strength of the real key
    and for a key pair of that strength, the placeholder; the last three
    destroy the two halves of the placeholder and free the arena that is
    left.  When the library makes the placeholder, the arena and the PSS
    parameters, the calls that follow the first two build the parameters
    with the private half of the placeholder, bind them to the
    SECAlgorithmID, and create the verification context from the real key
    and that SECAlgorithmID. *)
Definition placeholder_made (a : initVfy_answers) (pubk : loc) (bits : N)
    (w w' : world) : Prop :=
  let n := length (heap w) in
  let made := ans_SECKEY_CreateRSAPrivateKey a in
  let privk : ptr := if made then Some n else None in
  let tempPubKey : ptr := if made then Some (n + 1) else None in
  let arena : ptr := Some (n + 2) in
  let signAlg : aptr := Some (in_arena (n + 2) 0) in
  let params : aptr := Some (in_arena (n + 2) 1) in
  let strength := call_SECKEY_PublicKeyStrengthInBits (Some pubk) bits in
  let create := call_SECKEY_CreateRSAPrivateKey bits privk tempPubKey in
  (exists rest freed,
     calls w' = calls w ++ [strength; create] ++ rest ++
                [call_SECKEY_DestroyPublicKey tempPubKey;
                 call_SECKEY_DestroyPrivateKey privk;
                 call_PORT_FreeArena freed]) /\
  (pss_steps_ok a ->
   exists hash digest cx rest,
     calls w' = calls w ++
                [strength; create;
                 call_PORT_NewArena arena;
                 call_PORT_ArenaZAlloc arena signAlg;
                 call_SEC_CreateSignatureAlgorithmParameters arena
                   SEC_OID_PKCS1_RSA_PSS_SIGNATURE hash privk params;
                 call_SECOID_SetAlgorithmID arena signAlg
                   SEC_OID_PKCS1_RSA_PSS_SIGNATURE params SECSuccess;
                 call_VFY_CreateContextWithAlgorithmID (Some pubk) signAlg
                   digest cx] ++ rest).

(** The PK11Signature holds a managed proxy whose stored reference is [p],
    and the record at [p] is [r]. *)
Definition holds_proxy (this : PK11Signature) (h : list cell)
    (p : loc) (r : SigContextProxyStr) : Prop :=
  sigContext this = Some {| mPointer := Some p |} /\
  h !! p = Some (c_proxy r).

Definition sigctx_ok : sigctx_answers :=
  {| ans_ctx_GetFieldID := jni_ok; ans_getPtrFromProxy := jni_ok |}.

(** The call ends without fault and [e] is the one exception it raised. *)
Definition raises (r : result unit) (w : world) (e : jthrowable) : Prop :=
  exists w', r = Ok tt w' /\ pending w' = pending w ++ [e].

(** The bounds the specification gives for update: offset and length not
    negative, offset + length within the array, and no overflow of the
    sum. *)
Definition update_bounds_as_specified (offset length size : Z) : Prop :=
  (0 <= offset /\ 0 <= length /\ offset + length <= size /\
   offset + length <= jint_max)%Z.

(** The bounds the code enforces: as specified, and offset strictly inside
    the array. *)
Definition update_bounds_as_coded (offset length size : Z) : Prop :=
  (0 <= offset /\ offset < size /\ 0 <= length /\ offset + length <= size)%Z.

(** The sum offset + length, which the bounds test computes when neither
    is negative, fits in a jint. *)
Definition sum_fits (offset length : Z) : Prop :=
  (0 <= offset -> 0 <= length -> offset + length <= jint_max)%Z.

Definition update_ok (a : update_answers) : Prop :=
  ans_upd_ctx a = sigctx_ok /\ ans_upd_RefByteArray a = jni_ok.

(** The rule of finalizeVerify and rawVerify: true on success, false and no
    exception on the bad-signature code, false and a SignatureException with
    message [msg] on any other failure. *)
Definition verify_rule (a : nss_answer) (msg : string) (w : world)
    (verified : bool) (w' : world) : Prop :=
  match a with
  | nss_ok => verified = true /\ pending w' = pending w
  | nss_fails e =>
      verified = false /\
      pending w' = pending w ++
                   (if (e =? SEC_ERROR_BAD_SIGNATURE)%Z then []
                    else [(SIGNATURE_EXCEPTION, Some msg)])
  end.

Definition verify_ok (a : verify_answers) : Prop :=
  ans_vfy_ctx a = sigctx_ok /\ ans_vfy_RefByteArray a = jni_ok.

Definition rawVerify_ok (a : rawVerify_answers) : Prop :=
  ans_raw_sig a = jni_ok /\ ans_raw_hash a = jni_ok /\
  ans_raw_getPubKeyPtr a = jni_ok.

(** A call that gives a borrowed buffer back does so in JNI_ABORT mode. *)
Definition abort_only (c : call) : Prop :=
  match c with
  | call_JSS_DerefByteArray _ _ mode => mode = JNI_ABORT
  | _ => True
  end.

(** Among the calls [new], the last one gives back, in JNI_ABORT mode, the
    buffer borrowed for [array] (NULL if none was). *)
Definition borrowed_and_returned (array : nat) (new : list call) : Prop :=
  exists data,
    last new = Some (call_JSS_DerefByteArray array data JNI_ABORT) /\
    forall p, call_JSS_RefByteArray array (Some p) ∈ new -> data = Some p.

Definition array_untouched {A} (array : nat) (w : world) (r : result A)
    : Prop :=
  match r with
  | Ok _ w' =>
      jarrays w' = jarrays w /\
      exists new, calls w' = calls w ++ new /\ Forall abort_only new /\
                  borrowed_and_returned array new
  | Fault _ w' =>
      jarrays w' = jarrays w /\
      exists new, calls w' = calls w ++ new /\ Forall abort_only new
  end.

(** An OutOfMemoryError is the exception pending in [w]. *)
Definition out_of_memory_pending (w : world) : bool :=
  match last (pending w) with
  | Some t => is_OUT_OF_MEMORY t
  | None => false
  end.

Definition lookups_ok (a : resolver_answers) : Prop :=
  ans_GetObjectClass a = jni_ok /\ ans_GetFieldID a = jni_ok.

Definition release := Java_org_mozilla_jss_pkcs11_SigContextProxy_releaseNativeResources.

(** A managed proxy whose stored reference has been cleared. *)
Definition cleared : SigContextProxy := {| mPointer := None |}.

(** A proxy that has been wrapped around a signing context, and the world
    it lives in. *)
Definition example_proxy : SigContextProxy := {| mPointer := Some 1 |}.

Definition example_world : world :=
  {| heap := [c_SGNContext (by_tag (SEC_OID_other 1)) None true;
              c_proxy {| ctxt := Some 0; type := SGN_CONTEXT; arena := None |}];
     jarrays := [[Byte.x00]];
     pending := [];
     pr_error := 0%Z;
     calls := [];
     violated := [] |}.

Definition example_signature : PK11Signature :=
  {| key := None; algorithm := None; digestAlgorithm := None;
     sigContext := Some example_proxy |}.

Definition example_verify_world : world :=
  {| heap := [c_VFYContext (by_tag (SEC_OID_other 1)) (Some 2) None true;
              c_proxy {| ctxt := Some 0; type := VFY_CONTEXT; arena := None |};
              c_public_key 2048;
              c_arena []];
     jarrays := [[Byte.x00]; [Byte.x01]];
     pending := [];
     pr_error := 0%Z;
     calls := [];
     violated := [] |}.

Definition example_pss_signature : PK11Signature :=
  {| key := Some {| keyPointer := Some 2 |};
     algorithm := Some {| oidTag := SEC_OID_PKCS1_RSA_PSS_SIGNATURE |};
     digestAlgorithm := None;
     sigContext := Some example_proxy |}.

Definition resolver_ok : resolver_answers :=
  {| ans_GetObjectClass := jni_ok; ans_GetFieldID := jni_ok;
     ans_getOidTagFromAlg := jni_ok |}.

Definition pss_ok : pss_answers :=
  {| ans_PORT_ArenaZAlloc := true; ans_digest := resolver_ok;
     ans_SEC_CreateSignatureAlgorithmParameters := true;
     ans_SECOID_SetAlgorithmID := true |}.

Definition wrap_ok : wrap_answers :=
  {| ans_PR_Malloc := true; ans_ptrToByteArray := jni_ok;
     ans_FindClass := jni_ok; ans_GetMethodID := jni_ok;
     ans_NewObject := jni_ok |}.

Definition initVfy_ok : initVfy_answers :=
  {| ans_vfy_key := {| ans_key_GetFieldID := jni_ok; ans_getKeyPtr := jni_ok |};
     ans_vfy_alg := resolver_ok;
     ans_SECKEY_CreateRSAPrivateKey := true;
     ans_vfy_PORT_NewArena := true;
     ans_vfy_pss := pss_ok;
     ans_vfy_digest := resolver_ok;
     ans_VFY_CreateContext := true;
     ans_VFY_Begin := true;
     ans_vfy_wrap := wrap_ok;
     ans_vfy_set := jni_ok |}.

(** Answers of wrap with which the reference to the proxy record cannot be
    encoded (JSS_ptrToByteArray returns NULL, an OutOfMemoryError pending)
    and the constructor still makes the managed object. *)
Definition wrap_lost_reference : wrap_answers :=
  {| ans_PR_Malloc := true;
     ans_ptrToByteArray := jni_fails (OUT_OF_MEMORY_ERROR, None);
     ans_FindClass := jni_ok; ans_GetMethodID := jni_ok;
     ans_NewObject := jni_ok |}.

Definition initSig_lost_reference : initSig_answers :=
  {| ans_sig_key := {| ans_key_GetFieldID := jni_ok; ans_getKeyPtr := jni_ok |};
     ans_sig_alg := resolver_ok;
     ans_sig_PORT_NewArena := true;
     ans_sig_pss := pss_ok;
     ans_SGN_NewContext := true;
     ans_SGN_Begin := true;
     ans_sig_wrap := wrap_lost_reference;
     ans_sig_set := jni_ok |}.

Definition initVfy_lost_reference : initVfy_answers :=
  {| ans_vfy_key := {| ans_key_GetFieldID := jni_ok; ans_getKeyPtr := jni_ok |};
     ans_vfy_alg := resolver_ok;
     ans_SECKEY_CreateRSAPrivateKey := true;
     ans_vfy_PORT_NewArena := true;
     ans_vfy_pss := pss_ok;
     ans_vfy_digest := resolver_ok;
     ans_VFY_CreateContext := true;
     ans_VFY_Begin := true;
     ans_vfy_wrap := wrap_lost_reference;
     ans_vfy_set := jni_ok |}.

(** A world that holds an RSA key pair and nothing else, and two
    PK11Signature objects for RSA-PSS that have no context yet: one holds
    the private key, the other the public key. *)
Definition example_keys_world : world :=
  {| heap := [c_private_key 2048; c_public_key 2048];
     jarrays := [];
     pending := [];
     pr_error := 0%Z;
     calls := [];
     violated := [] |}.

Definition example_pss_signer : PK11Signature :=
  {| key := Some {| keyPointer := Some 0 |};
     algorithm := Some {| oidTag := SEC_OID_PKCS1_RSA_PSS_SIGNATURE |};
     digestAlgorithm := None;
     sigContext := None |}.

Definition example_pss_verifier : PK11Signature :=
  {| key := Some {| keyPointer := Some 1 |};
     algorithm := Some {| oidTag := SEC_OID_PKCS1_RSA_PSS_SIGNATURE |};
     digestAlgorithm := None;
     sigContext := None |}.

Definition update_answers_ok : update_answers :=
  {| ans_upd_ctx := sigctx_ok; ans_upd_RefByteArray := jni_ok;
     ans_Update := true |}.

Definition verify_answers_bad_signature : verify_answers :=
  {| ans_vfy_ctx := sigctx_ok; ans_vfy_RefByteArray := jni_ok;
     ans_VFY_EndWithSignature := nss_fails SEC_ERROR_BAD_SIGNATURE |}.

Definition sign_answers_ok : sign_answers :=
  {| ans_sign_ctx := sigctx_ok; ans_SGN_End := Some [Byte.x2a];
     ans_ToByteArray := jni_ok |}.

(** ** Vocabulary of the further properties *)

(** What getSigContext leaves behind, whatever the answers and the heap. *)
Definition getSigContext_post (sig : PK11Signature) (w : world)
    (r : result (option (ptr * SigContextType))) : Prop :=
  match r with
  | Ok (Some (cx, t)) w' =>
      w' = w /\
      exists p rec c,
        sigContext sig = Some {| mPointer := Some p |} /\
        heap w !! p = Some (c_proxy rec) /\
        ctxt rec = Some c /\ cx = Some c /\ t = type rec
  | Ok None w' =>
      native_same w w' /\ exists e, pending w' = pending w ++ [e]
  | Fault _ w' =>
      w' = w /\
      exists p, sigContext sig = Some {| mPointer := Some p |} /\
                forall rec, heap w !! p <> Some (c_proxy rec)
  end.

(** The proxy a PK11Signature refers to, if it refers to one, is a live
    proxy record whose context is NULL or a live context of the record's
    kind. *)
Definition proxy_well_formed (this : PK11Signature) (h : list cell) : Prop :=
  forall p, sigContext this = Some {| mPointer := Some p |} ->
    exists r, h !! p = Some (c_proxy r) /\
              live_as (context_kind (type r)) (ctxt r) h.

(** The Java arrays of the world are no longer than a jint can tell. *)
Definition arrays_fit (w : world) : Prop :=
  forall i b, jarrays w !! i = Some b ->
              (Z.of_nat (length b) <= jint_max)%Z.

Definition leaves_released (w w' : world) : Prop :=
  exists s, heap w' = heap w ++ s /\ all_released s.

(** The library call by which a context of kind [t] is fed. *)
Definition update_call (t : SigContextType) :
    ptr -> list Byte.byte -> SECStatus -> call :=
  match t with
  | SGN_CONTEXT => call_SGN_Update
  | VFY_CONTEXT => call_VFY_Update
  end.

(** What engineUpdateNative has done when it returns: the calls it made, in
    order, and the exception it raised, if any. *)
Definition update_post (a : update_answers) (bArray : nat)
    (b : list Byte.byte) (offset length : Z) (t : SigContextType) (c : loc)
    (w w' : world) : Prop :=
  let buffer := Some (List.length (heap w)) in
  let borrow := call_JSS_RefByteArray bArray buffer in
  let give_back := call_JSS_DerefByteArray bArray buffer JNI_ABORT in
  heap w' = heap w ++ [c_freed] /\
  if decide (update_bounds_as_coded offset length (Z.of_nat (List.length b)))
  then
    calls w' = calls w ++
               [borrow;
                update_call t (Some c)
                  (take (Z.to_nat length) (drop (Z.to_nat offset) b))
                  (status_of (ans_Update a));
                give_back] /\
    pending w' = pending w ++
                 (if ans_Update a then []
                  else [(SIGNATURE_EXCEPTION, Some "update failed")])
  else
    calls w' = calls w ++ [borrow; give_back] /\
    pending w' = pending w ++ [(ARRAY_INDEX_OUT_OF_BOUNDS_EXCEPTION, None)].

(** What engineSignNative has done when it returns from a live signing
    context [c]. *)
Definition sign_post (a : sign_answers) (c : loc) (w : world)
    (r : jobject (list Byte.byte)) (w' : world) : Prop :=
  let buffer := Some (List.length (heap w)) in
  match ans_SGN_End a with
  | Some s =>
      heap w' = heap w ++ [c_freed] /\
      calls w' = calls w ++ [call_SGN_End (Some c) buffer SECSuccess;
                             call_PR_Free buffer] /\
      match ans_ToByteArray a with
      | jni_ok => r = Some s /\ pending w' = pending w
      | jni_fails t => r = None /\ pending w' = pending w ++ [t]
      end
  | None =>
      heap w' = heap w /\
      calls w' = calls w ++ [call_SGN_End (Some c) None SECFailure] /\
      r = None /\
      pending w' = pending w ++
                   [(SIGNATURE_EXCEPTION, Some "Signing operation failed")]
  end.

(** What engineVerifyNative has done when it returns from a live
    verification context [c], given the signature array [sig]. *)
Definition verify_post (a : verify_answers) (sigArray : nat)
    (sig : list Byte.byte) (c : loc) (w : world) (verified : bool)
    (w' : world) : Prop :=
  let buffer := Some (List.length (heap w)) in
  heap w' = heap w ++ [c_freed] /\
  calls w' = calls w ++
             [call_JSS_RefByteArray sigArray buffer;
              call_VFY_EndWithSignature (Some c) sig
                (match ans_VFY_EndWithSignature a with
                 | nss_ok => SECSuccess
                 | nss_fails _ => SECFailure
                 end);
              call_JSS_DerefByteArray sigArray buffer JNI_ABORT] /\
  verified = match ans_VFY_EndWithSignature a with
             | nss_ok => true
             | nss_fails _ => false
             end.

(** The PK11Signature has no context to work with, and [e] is the exception
    getSigContext raises for it: its sigContext field is null, or the proxy
    in it stores no reference, or the record the proxy refers to has a
    NULL context. *)
Definition context_missing (this : PK11Signature) (h : list cell)
    (e : jthrowable) : Prop :=
  (sigContext this = None /\ e = (TOKEN_EXCEPTION, None)) \/
  (sigContext this = Some cleared /\ e = (SIGNATURE_EXCEPTION, None)) \/
  (exists p r, holds_proxy this h p r /\ ctxt r = None /\
               e = (SIGNATURE_EXCEPTION, None)).

(** Between [w] and [w'] only the exceptions [es] were raised and the calls
    [cs] made: heap and arrays are as they were. *)
Definition only_raised (es : list jthrowable) (cs : list call)
    (w w' : world) : Prop :=
  heap w' = heap w /\ jarrays w' = jarrays w /\
  pending w' = pending w ++ es /\ calls w' = calls w ++ cs.

(** What can be done with the object wrap returned: reading it gives back
    the context and the kind that were wrapped, and releasing it releases
    the context, the arena and the record. *)
Definition wrapped_usable (c : loc) (t : SigContextType) (ar : option ptr)
    (w : world) (proxy : SigContextProxy) (w' : world) : Prop :=
  JSS_PK11_getSigContext jni_ok proxy w' = Ok (Some (Some c, t)) w' /\
  ensures (release jni_ok proxy w')
    (fun _ w'' =>
       heap w'' = released (default None ar) (released (Some c) (heap w))
                  ++ [c_freed] /\
       pending w'' = pending w').

(** Answers with which nothing fails. *)
Definition key_ok : key_answers :=
  {| ans_key_GetFieldID := jni_ok; ans_getKeyPtr := jni_ok |}.

Definition initSig_ok : initSig_answers :=
  {| ans_sig_key := key_ok;
     ans_sig_alg := resolver_ok;
     ans_sig_PORT_NewArena := true;
     ans_sig_pss := pss_ok;
     ans_SGN_NewContext := true;
     ans_SGN_Begin := true;
     ans_sig_wrap := wrap_ok;
     ans_sig_set := jni_ok |}.

(** The digest tag getDigestAlgorithm resolves when nothing fails. *)
Definition digest_of (this : PK11Signature) : SECOidTag :=
  match digestAlgorithm this with
  | Some alg => oidTag alg
  | None => SEC_OID_UNKNOWN
  end.

(** The arena getRSAPSSParamsAndSigningAlg fills: the SECAlgorithmID, bound
    to the parameters, and the SECItem of the parameters. *)
Definition pss_arena (digest : SECOidTag) (privk : ptr) : cell :=
  let params := {| p_sigOid := SEC_OID_PKCS1_RSA_PSS_SIGNATURE;
                   p_hashOid := digest; p_key := privk |} in
  c_arena [blk_SECAlgorithmID SEC_OID_PKCS1_RSA_PSS_SIGNATURE (Some params);
           blk_SECItem params].

(** The cells initSigContext adds to a heap of [n] cells when nothing
    fails. *)
Definition signing_cells (tag digest : SECOidTag) (k : loc) (n : nat)
    : list cell :=
  if SECOidTag_eqb tag SEC_OID_PKCS1_RSA_PSS_SIGNATURE then
    [pss_arena digest (Some k);
     c_SGNContext (by_algorithm_id (Some (in_arena n 0))) (Some k) true;
     c_proxy {| ctxt := Some (n + 1); type := SGN_CONTEXT;
                arena := Some n |}]
  else
    [c_SGNContext (by_tag tag) (Some k) true;
     c_proxy {| ctxt := Some n; type := SGN_CONTEXT; arena := None |}].

(** The cells initVfyContext adds to a heap of [n] cells when nothing fails:
    for RSA-PSS the first two are the released halves of the placeholder
    key. *)
Definition verifying_cells (tag digest : SECOidTag) (k : loc) (n : nat)
    : list cell :=
  if SECOidTag_eqb tag SEC_OID_PKCS1_RSA_PSS_SIGNATURE then
    [c_freed; c_freed;
     pss_arena digest (Some n);
     c_VFYContext (by_algorithm_id (Some (in_arena (n + 2) 0))) (Some k)
       (Some digest) true;
     c_proxy {| ctxt := Some (n + 3); type := VFY_CONTEXT;
                arena := Some (n + 2) |}]
  else
    [c_VFYContext (by_tag tag) (Some k) None true;
     c_proxy {| ctxt := Some n; type := VFY_CONTEXT; arena := None |}].

(** The factory has added the cells [s] and stored in the PK11Signature a
    proxy that refers to the last of them; nothing was raised. *)
Definition factory_made (s : list cell) (this : PK11Signature) (w : world)
    (this' : PK11Signature) (w' : world) : Prop :=
  heap w' = heap w ++ s /\
  this' = set_sigContext
            (Some {| mPointer := Some (length (heap w) + length s - 1) |})
            this /\
  pending w' = pending w /\ jarrays w' = jarrays w /\
  violated w' = violated w.


(** The managed proxy a PK11Signature refers to (a cleared one if it refers
    to none). *)
Definition proxy_of (this : PK11Signature) : SigContextProxy :=
  default cleared (sigContext this).



(** The PK11Signature refers to the proxy record [r] at [p], of kind [t],
    whose context [c] and arena (if any) are live. *)
Definition session (t : SigContextType) (this : PK11Signature)
    (h : list cell) (p c : loc) (r : SigContextProxyStr) : Prop :=
  holds_proxy this h p r /\ ctxt r = Some c /\ type r = t /\
  live_as (context_kind t) (Some c) h /\ live_as is_arena (arena r) h.





(** How a factory can end: it stored in the PK11Signature a proxy that
    refers to a proxy record made by this call (the record is at an address
    the heap did not have, and is live); or at least one new exception is
    pending, the PK11Signature being as it was or, when the reference could
    not be encoded, holding a proxy without reference; or setSigContext
    could not find the field, in which case the PK11Signature is as it was
    and no exception at all is pending. *)
Definition factory_outcome (set : jni_answer) (this : PK11Signature)
    (w : world) (this' : PK11Signature) (w' : world) : Prop :=
  (exists p r,
     this' = set_sigContext (Some {| mPointer := Some p |}) this /\
     length (heap w) <= p /\ heap w' !! p = Some (c_proxy r)) \/
  ((this' = this \/ this' = set_sigContext (Some cleared) this) /\
   exists e es, pending w' = pending w ++ e :: es) \/
  (this' = this /\ set <> jni_ok /\ pending w' = []).

(** What the key resolver has done: nothing native; on success the key
    field holds a key proxy with the pointer returned and nothing was
    raised; on failure the pointer is NULL and one exception was raised,
    which is TokenException when the field could be read and was null. *)
Definition key_outcome (a : key_answers) (sig : PK11Signature) (w : world)
    (r : PRStatus * ptr) (w' : world) : Prop :=
  native_same w w' /\
  match fst r with
  | PR_SUCCESS =>
      pending w' = pending w /\
      exists l, key sig = Some {| keyPointer := Some l |} /\ snd r = Some l
  | PR_FAILURE =>
      snd r = None /\
      exists e, pending w' = pending w ++ [e] /\
                (ans_key_GetFieldID a = jni_ok -> key sig = None ->
                 e = (TOKEN_EXCEPTION, None))
  end.

(** The calls JSS_PK11_wrapSigContextProxy makes into NSPR and NSS. *)
Definition wrap_call (c : call) : Prop :=
  match c with
  | call_PR_Malloc _ | call_PR_Free _ | call_SGN_DestroyContext _
  | call_VFY_DestroyContext _ | call_PORT_FreeArena _ => True
  | _ => False
  end.

(** The calls that are made for RSA-PSS alone: the arena and what is
    allocated in it, the placeholder key, the contexts made from a
    SECAlgorithmID. *)
Definition pss_only_call (c : call) : Prop :=
  match c with
  | call_PORT_NewArena _
  | call_PORT_ArenaZAlloc _ _
  | call_SEC_CreateSignatureAlgorithmParameters _ _ _ _ _
  | call_SECOID_SetAlgorithmID _ _ _ _ _
  | call_SECKEY_PublicKeyStrengthInBits _ _
  | call_SECKEY_CreateRSAPrivateKey _ _ _
  | call_SGN_NewContextWithAlgorithmID _ _ _
  | call_VFY_CreateContextWithAlgorithmID _ _ _ _ => True
  | _ => False
  end.

(** The algorithm of the PK11Signature, if it has one, is not RSA-PSS. *)
Definition not_pss (this : PK11Signature) : Prop :=
  forall alg, algorithm this = Some alg ->
              oidTag alg <> SEC_OID_PKCS1_RSA_PSS_SIGNATURE.

(** Between [w] and [w'] no call was made that is made for RSA-PSS
    alone. *)
Definition without_pss (w w' : world) : Prop :=
  exists new, calls w' = calls w ++ new /\
              Forall (fun c => ~ pss_only_call c) new.

(** The algorithm of the PK11Signature cannot be resolved: the field is
    null, or one of the lookups fails. *)
Definition algorithm_unresolved (a : resolver_answers)
    (this : PK11Signature) : Prop :=
  algorithm this = None \/ ans_GetObjectClass a <> jni_ok \/
  ans_GetFieldID a <> jni_ok \/ ans_getOidTagFromAlg a <> jni_ok.

(** The first call logged between [w] and [w'] is [first], for some result
    [r] of it. *)
Definition first_call {R} (first : R -> call) (w w' : world) : Prop :=
  exists r rest, calls w' = calls w ++ first r :: rest.

(** Every entry point that reads the proxy of [this] stops at the read of
    the record at [p], which has been released. *)
Definition reads_released (this : PK11Signature) (p : loc) (w : world)
    : Prop :=
  let stop {A} (r : result A) :=
    faults r (use_after_free "JSS_PK11_getSigContext" p) (fun w' => w' = w) in
  (forall a bArray offset length,
     ans_upd_ctx a = sigctx_ok ->
     stop (Java_org_mozilla_jss_pkcs11_PK11Signature_engineUpdateNative
             a this bArray offset length w)) /\
  (forall a,
     ans_sign_ctx a = sigctx_ok ->
     stop (Java_org_mozilla_jss_pkcs11_PK11Signature_engineSignNative
             a this w)) /\
  (forall a sigArray,
     ans_vfy_ctx a = sigctx_ok ->
     stop (Java_org_mozilla_jss_pkcs11_PK11Signature_engineVerifyNative
             a this sigArray w)).

(** What engineRawVerifyNative has done when it returns: the SECItems it
    made are released, the arrays are as they were, and PK11_Verify was
    called at most once, with the key stored in [keyObj] and the contents
    of the two arrays; the result is true only if that call succeeded. *)
Definition rawVerify_post (a : rawVerify_answers) (keyObj : PK11Key)
    (hashBA sigBA : nat) (w : world) (verified : bool) (w' : world) : Prop :=
  leaves_released w w' /\ jarrays w' = jarrays w /\
  exists new,
    calls w' = calls w ++ new /\
    match new with
    | [] => verified = false
    | [call_PK11_Verify k s h rv] =>
        keyPointer keyObj = k /\ k <> None /\
        jarrays w !! sigBA = Some s /\ jarrays w !! hashBA = Some h /\
        rv = match ans_PK11_Verify a with
             | nss_ok => SECSuccess
             | nss_fails _ => SECFailure
             end /\
        verified = match rv with
                   | SECSuccess => true
                   | SECFailure => false
                   end
    | _ => False
    end.

(** The call by which a context of kind [t] is destroyed. *)
Definition destroy_call (t : SigContextType) : ptr -> call :=
  match t with
  | SGN_CONTEXT => call_SGN_DestroyContext
  | VFY_CONTEXT => call_VFY_DestroyContext
  end.

(** Answers with which nothing fails but the lookup of the sigContext field
    in setSigContext. *)
Definition initSig_set_fails (t : jthrowable) : initSig_answers :=
  {| ans_sig_key := key_ok;
     ans_sig_alg := resolver_ok;
     ans_sig_PORT_NewArena := true;
     ans_sig_pss := pss_ok;
     ans_SGN_NewContext := true;
     ans_SGN_Begin := true;
     ans_sig_wrap := wrap_ok;
     ans_sig_set := jni_fails t |}.

Definition initVfy_set_fails (t : jthrowable) : initVfy_answers :=
  {| ans_vfy_key := key_ok;
     ans_vfy_alg := resolver_ok;
     ans_SECKEY_CreateRSAPrivateKey := true;
     ans_vfy_PORT_NewArena := true;
     ans_vfy_pss := pss_ok;
     ans_vfy_digest := resolver_ok;
     ans_VFY_CreateContext := true;
     ans_VFY_Begin := true;
     ans_vfy_wrap := wrap_ok;
     ans_vfy_set := jni_fails t |}.

(** The factory has added the cells [s], live as when nothing fails, and
    returns with the PK11Signature as it was and no exception pending,
    whatever was pending before. *)
Definition made_and_dropped (s : list cell) (this : PK11Signature)
    (w : world) (this' : PK11Signature) (w' : world) : Prop :=
  heap w' = heap w ++ s /\ this' = this /\ pending w' = [].

(** A PK11Signature that has a key and an algorithm and no context yet. *)
Definition example_fresh_signature : PK11Signature :=
  {| key := Some {| keyPointer := Some 2 |};
     algorithm := Some {| oidTag := SEC_OID_other 1 |};
     digestAlgorithm := None;
     sigContext := None |}.


(** The world of the signing proxy, with an array of two bytes. *)
Definition example_two_bytes_world : world :=
  set_jarrays [[Byte.x00; Byte.x01]] example_world.

(** Answers with which the lookup of the algorithm field fails and the
    library refuses to make a signing context. *)
Definition resolver_no_field : resolver_answers :=
  {| ans_GetObjectClass := jni_ok;
     ans_GetFieldID := jni_fails (JVM_THROWABLE 0, None);
     ans_getOidTagFromAlg := jni_ok |}.

Definition initSig_no_algorithm : initSig_answers :=
  {| ans_sig_key := key_ok;
     ans_sig_alg := resolver_no_field;
     ans_sig_PORT_NewArena := true;
     ans_sig_pss := pss_ok;
     ans_SGN_NewContext := false;
     ans_SGN_Begin := true;
     ans_sig_wrap := wrap_ok;
     ans_sig_set := jni_ok |}.

(** * Verification *)

(** ** Running the embedding on a heap of which only a prefix is unknown *)

Section base_heap.
Context {A : Type}.
Implicit Types (h s t : list A).

Lemma lookup_base h s i : (h ++ s) !! (length h + i) = s !! i.
Proof. rewrite lookup_app_r by lia. f_equal. lia. Qed.

Lemma lookup_base0 h s : (h ++ s) !! length h = s !! 0.
Proof. rewrite <- (lookup_base h s 0). f_equal. lia. Qed.

Lemma insert_base h s i (c : A) :
  <[length h + i := c]> (h ++ s) = h ++ <[i := c]> s.
Proof. apply insert_app_r. Qed.

Lemma insert_base0 h s (c : A) :
  <[length h := c]> (h ++ s) = h ++ <[0 := c]> s.
Proof. rewrite <- insert_base. f_equal. lia. Qed.

Lemma app_base h s t : (h ++ s) ++ t = h ++ (s ++ t).
Proof. symmetry. apply app_assoc. Qed.

Lemma length_base h s : length (h ++ s) = length h + length s.
Proof. apply length_app. Qed.

Lemma lookup_old h s i (c : A) : h !! i = Some c -> (h ++ s) !! i = Some c.
Proof. apply lookup_app_l_Some. Qed.

Lemma insert_old h s i (c d : A) :
  h !! i = Some c -> <[i := d]> (h ++ s) = <[i := d]> h ++ s.
Proof. intros H. apply insert_app_l. eapply lookup_lt_Some; eauto. Qed.
End base_heap.

(** Unfold the embedding down to the world, leaving list operations alone.
    [mcbv] unfolds everything; [mcbv_calls] leaves standing the calls to the
    functions that have a specification below. *)
Ltac mcbv_calls := cbv beta iota zeta delta [
  ensures always faults mbind M_bind bind mret M_ret ret fail log jni nss status_of
  JSS_throw JSS_throwMsg ExceptionOccurred ExceptionClear PR_ASSERT
  ASSERT_OUTOFMEM halloc hread hwrite hfree PR_Malloc PR_Free PORT_NewArena
  PORT_FreeArena arena_alloc block_read block_write PORT_ArenaZAlloc
  SEC_CreateSignatureAlgorithmParameters SECOID_SetAlgorithmID PR_GetError
  use_context SGN_NewContext SGN_NewContextWithAlgorithmID SGN_Begin
  SGN_Update SGN_End SGN_DestroyContext VFY_CreateContext
  VFY_CreateContextWithAlgorithmID VFY_Begin VFY_Update VFY_EndWithSignature
  VFY_DestroyContext SECKEY_PublicKeyStrengthInBits
  SECKEY_CreateRSAPrivateKey SECKEY_DestroyPublicKey
  SECKEY_DestroyPrivateKey JSS_getOidTagFromAlg JSS_PK11_getKeyPtr
  JSS_getPtrFromProxy JSS_ptrToByteArray getPrivateKey getPublicKey
  read_proxy JSS_PK11_getSigContext
  Java_org_mozilla_jss_pkcs11_SigContextProxy_releaseNativeResources
  initSigContext_finish initSigContext_created initSigContext_body
  Java_org_mozilla_jss_pkcs11_PK11Signature_initSigContext
  initVfyContext_finish initVfyContext_created initVfyContext_body
  Java_org_mozilla_jss_pkcs11_PK11Signature_initVfyContext
  JSS_RefByteArray JSS_DerefByteArray read_bytes JSS_ToByteArray jint_add
  Java_org_mozilla_jss_pkcs11_PK11Signature_engineUpdateNative
  Java_org_mozilla_jss_pkcs11_PK11Signature_engineSignNative
  Java_org_mozilla_jss_pkcs11_PK11Signature_engineVerifyNative
  JSS_ByteArrayToSECItem SECITEM_FreeItem item_bytes PK11_Verify
  engineRawVerifyNative_finish
  Java_org_mozilla_jss_pkcs11_PK11Signature_engineRawVerifyNative
  set_heap set_jarrays set_pending set_pr_error set_calls set_violated
  heap jarrays pending pr_error calls violated
  is_null is_SGNContext is_VFYContext is_arena is_private_key
  is_public_key is_malloced is_OUT_OF_MEMORY SigContextType_eqb
  ctxt type arena mPointer keyPointer oidTag key algorithm digestAlgorithm
  sigContext set_sigContext from_option id fst snd
  sig_contextProxy sig_ctxt sig_arena
  vfy_contextProxy vfy_ctxt vfy_tempPubKey vfy_privk vfy_arena
  ans_FindClass ans_GetFieldID ans_GetMethodID
  ans_GetObjectClass ans_NewObject ans_PK11_Verify
  ans_PORT_ArenaZAlloc ans_PR_Malloc ans_SECKEY_CreateRSAPrivateKey
  ans_SECOID_SetAlgorithmID ans_SEC_CreateSignatureAlgorithmParameters ans_SGN_Begin
  ans_SGN_End ans_SGN_NewContext ans_ToByteArray
  ans_Update ans_VFY_Begin ans_VFY_CreateContext
  ans_VFY_EndWithSignature ans_ctx_GetFieldID ans_digest
  ans_getKeyPtr ans_getOidTagFromAlg ans_getPtrFromProxy
  ans_key_GetFieldID ans_ptrToByteArray ans_raw_getPubKeyPtr
  ans_raw_hash ans_raw_sig ans_sig_PORT_NewArena
  ans_sig_alg ans_sig_key ans_sig_pss
  ans_sig_set ans_sig_wrap ans_sign_ctx
  ans_upd_RefByteArray ans_upd_ctx ans_vfy_PORT_NewArena
  ans_vfy_RefByteArray ans_vfy_alg ans_vfy_ctx
  ans_vfy_digest ans_vfy_key ans_vfy_pss
  ans_vfy_set ans_vfy_wrap ].

Ltac mcbv :=
  mcbv_calls;
  cbv beta iota zeta delta [
    getAlgorithm getDigestAlgorithm getRSAPSSParamsAndSigningAlg getSomeKey
    wrapSigContextProxy_finish JSS_PK11_wrapSigContextProxy setSigContext
    getSigContext ];
  mcbv_calls.

(** Bring the heap back to the form [h ++ s] with [s] explicit, and
    addresses to the form [length h + i]. *)
Ltac lists :=
  cbn [length app insert list_insert lookup list_lookup Nat.add fmap
       option_fmap option_map negb andb orb].

Ltac hnorm1 :=
  match goal with
  | |- context [(?h ++ ?s) ++ ?t] => rewrite (app_base h s t)
  | |- context [length (?h ++ ?s)] => rewrite (length_base h s)
  | |- context [<[length ?h + ?i := ?c]> (?h ++ ?s)] =>
      rewrite (insert_base h s i c)
  | |- context [<[length ?h := ?c]> (?h ++ ?s)] =>
      rewrite (insert_base0 h s c)
  | |- context [(?h ++ ?s) !! (length ?h + ?i)] => rewrite (lookup_base h s i)
  | |- context [(?h ++ ?s) !! length ?h] => rewrite (lookup_base0 h s)
  | |- context [last (_ ++ [_])] => rewrite last_snoc
  end.

Ltac hnorm := lists; repeat (hnorm1; lists).

(** The scrutinee on which a run is waiting. *)
Ltac head_scrutinee t :=
  lazymatch t with
  | match ?x with _ => _ end => head_scrutinee x
  | (match ?x with _ => _ end) _ => head_scrutinee x
  | _ => t
  end.

(** ** Live and released cells *)

Lemma context_kind_freed t : context_kind t c_freed = false.
Proof. destruct t; reflexivity. Qed.

(** Releasing a live cell of the right kind. *)
Lemma hfree_live fn kind l c w :
  heap w !! l = Some c -> kind c = true -> kind c_freed = false ->
  hfree fn kind l w = Ok tt (set_heap (<[l := c_freed]> (heap w)) w).
Proof.
  intros Hl Hk Hf. unfold hfree. rewrite Hl.
  destruct c; try reflexivity; try (rewrite Hk; reflexivity). congruence.
Qed.

Lemma hread_live fn kind l c w :
  heap w !! l = Some c -> kind c = true -> kind c_freed = false ->
  hread fn l w = Ok c w.
Proof.
  intros Hl Hk Hf. unfold hread. rewrite Hl.
  destruct c; try reflexivity. congruence.
Qed.

Lemma ensures_Ok {A} (r : result A) (P : A -> world -> Prop) :
  ensures r P <-> exists a w, r = Ok a w /\ P a w.
Proof.
  destruct r as [a w|f w]; simpl; split.
  - eauto.
  - by intros (? & ? & [= -> ->] & ?).
  - done.
  - by intros (? & ? & ? & _).
Qed.

Lemma ensures_World {A} (r : result A) (P : A -> world -> Prop) :
  ensures r P ->
  exists a h ja pe er ca vi,
    r = Ok a (World h ja pe er ca vi) /\ P a (World h ja pe er ca vi).
Proof.
  destruct r as [a [h ja pe er ca vi]|f w]; simpl; [|done].
  intros HP. by exists a, h, ja, pe, er, ca, vi.
Qed.

Lemma ensures_impl {A} (r : result A) (P Q : A -> world -> Prop) :
  ensures r P -> (forall a w, P a w -> Q a w) -> ensures r Q.
Proof. destruct r; simpl; auto. Qed.

(** One step of a run: unfold, tidy the heap, and decide the scrutinee the
    run waits on, from a hypothesis when there is one. *)
Ltac run1_with unfolding specs :=
  unfolding; hnorm;
  repeat match goal with
         | H : ?h !! ?i = Some _ |- context [<[?i := ?d]> (?h ++ ?s)] =>
             rewrite (insert_old h s i _ d H)
         end;
  lazymatch goal with
  | |- match ?R with Ok _ _ => _ | Fault _ _ => _ end =>
      let x := head_scrutinee R in
      first
        [ is_var x; destruct x;
          try match goal with H : _ = true |- _ => discriminate H end
        | match goal with H : x = _ |- _ => rewrite H end
        | lazymatch x with
          | (?h ++ ?s) !! ?i =>
              match goal with
              | H : h !! i = Some _ |- _ => rewrite (lookup_old h s i _ H)
              end
          end
        | specs x
        | lazymatch x with
          | _ !! _ => fail
          | _ ?w => lazymatch type of w with
                    | world => fail
                    | _ => destruct x eqn:?
                    end
          | _ => destruct x eqn:?
          end ]
  end.

Ltac no_spec x := fail.

(** Decide a lookup of which nothing is known by cases. *)
Ltac any_lookup x :=
  lazymatch x with
  | _ !! _ => destruct x eqn:?
  end.

Ltac run := repeat run1_with mcbv no_spec; mcbv; hnorm.

Ltac run_any := repeat run1_with mcbv any_lookup; mcbv; hnorm.

(** ** What stays the same *)

Lemma getSomeKey_spec a sig t w :
  ensures (getSomeKey a sig t w)
    (fun '(st, k) w' =>
       native_same w w' /\
       match st with
       | PR_SUCCESS => exists l, key sig = Some {| keyPointer := Some l |}
                                 /\ k = Some l
       | PR_FAILURE => k = None
       end).
Proof.
  destruct w, a, sig as [[[[l|]]|] ? ? ?], t; run; unfold native_same; eauto 10.
Qed.

Lemma getAlgorithm_spec a sig w :
  ensures (getAlgorithm a sig w) (fun _ w' => native_same w w').
Proof.
  destruct w, a, sig as [? [[?]|] ? ?]; run; unfold native_same; eauto 10.
Qed.

Lemma getDigestAlgorithm_spec a sig w :
  ensures (getDigestAlgorithm a sig w) (fun _ w' => native_same w w').
Proof.
  destruct w, a, sig as [? ? [[?]|] ?]; run; unfold native_same; eauto 10.
Qed.

Lemma setSigContext_spec a sig context w :
  ensures (setSigContext a sig context w)
    (fun sig' w' =>
       native_same w w' /\
       (sig' = sig \/ sig' = set_sigContext context sig)).
Proof.
  destruct w, a, sig; run; unfold native_same; eauto 10.
Qed.

(** ** Context Proxy: wrap *)

Lemma context_not_arena t c : context_kind t c = true -> is_arena c = false.
Proof. destruct t, c; simpl; congruence. Qed.

(** Cells of different kinds sit at different addresses. *)
Lemma kinds_apart (h : list cell) t c a cc ca :
  h !! c = Some cc -> context_kind t cc = true ->
  h !! a = Some ca -> is_arena ca = true -> a <> c.
Proof.
  intros Hc Hk Ha Hka ->. rewrite Hc in Ha. injection Ha as ->.
  apply context_not_arena in Hk. congruence.
Qed.

Lemma wrap_spec a c t (ar : option ptr) w :
  live_as (context_kind t) (Some c) (heap w) ->
  live_as is_arena (default None ar) (heap w) ->
  ensures (JSS_PK11_wrapSigContextProxy a (Some c) t ar w)
          (wrap_post a c t ar w).
Proof.
  destruct w as [h ja pe er ca vi]. simpl.
  intros (cc & Hc & Hk) Ha.
  destruct a as [m b f g n]. unfold wrap_post. simpl.
  destruct ar as [[ar|]|]; simpl in Ha.
  - destruct Ha as (ac & Ha & Hka).
    assert (ar <> c) as Hne by eauto using kinds_apart.
    assert (<[c := c_freed]> h !! ar = Some ac) as Ha'
      by (by rewrite list_lookup_insert_ne by congruence).
    destruct t; run; repeat split; unfold released;
      rewrite ?app_nil_r; auto;
      first [ right; (split; [done | congruence])
            | eexists; split; [reflexivity|]; repeat constructor ].
  - destruct t; run; repeat split; unfold released;
      rewrite ?app_nil_r; auto;
      first [ right; (split; [done | congruence])
            | eexists; split; [reflexivity|]; repeat constructor ].
  - destruct t; run; repeat split; unfold released;
      rewrite ?app_nil_r; auto;
      first [ right; (split; [done | congruence])
            | eexists; split; [reflexivity|]; repeat constructor ].
Qed.

(** ** RSA-PSS Parameter Builder *)

Lemma getDigestAlgorithm_value a sig :
  exists digest raised, digest_resolves a sig digest raised.
Proof.
  destruct a as [[] [] []], sig as [? ? [[?]|] ?];
    do 2 eexists; intros []; run; unfold native_same; simpl;
    repeat split; try reflexivity; try (symmetry; apply app_nil_r).
Qed.

(** Use the specification [L] of the call the run waits on: the call is
    replaced by its result, and what the specification says of it is added
    to the hypotheses. *)
Ltac tidy_spec :=
  repeat match goal with
         | H : _ /\ _ |- _ => destruct H
         | H : exists _, _ |- _ => destruct H
         | H : _ \/ _ |- _ => destruct H
         | p : _ * _ |- _ => destruct p
         | H : match ?x with _ => _ end |- _ => is_var x; destruct x
         | H : False |- _ => destruct H
         | H : True |- _ => clear H
         | _ => progress simplify_eq
         end.

Ltac apply_spec L :=
  let E := fresh "E" in
  let HP := fresh "HP" in
  pose proof L as E; apply ensures_World in E;
  destruct E as (? & ? & ? & ? & ? & ? & ? & E & HP);
  repeat match goal with p : _ * _ |- _ => destruct p end;
  rewrite E; clear E;
  hnf in HP; unfold native_same in HP; simpl in HP; tidy_spec.

Ltac live_cell :=
  simpl; hnorm; first [ exact I | eexists; split; [reflexivity | reflexivity] ].

Ltac leaf_spec x :=
  lazymatch x with
  | getAlgorithm ?a ?s ?w => apply_spec (getAlgorithm_spec a s w)
  | getDigestAlgorithm ?a ?s ?w =>
      match goal with
      | H : digest_resolves a s _ _ |- _ => apply_spec (H w)
      end
  | getSomeKey ?a ?s ?t ?w => apply_spec (getSomeKey_spec a s t w)
  | setSigContext ?a ?s ?c ?w => apply_spec (setSigContext_spec a s c w)
  end.

Ltac run_leaf := repeat run1_with mcbv_calls leaf_spec; mcbv_calls; hnorm.

(** Choose the alternative that holds by computation. *)
Ltac pick :=
  first [ solve [repeat split; reflexivity] | left; pick | right; pick ].

Lemma insert_twice (h : list cell) i c d :
  <[i := d]> (<[i := c]> h) = <[i := d]> h.
Proof. apply list_insert_insert_eq. Qed.

Lemma lookup_inserted (h : list cell) i c d :
  h !! i = Some c -> <[i := d]> h !! i = Some d.
Proof. intros H. apply list_lookup_insert_eq. eapply lookup_lt_Some; eauto. Qed.

Lemma pss_spec a this ar blocks alg0 privk w :
  heap w !! ar = Some (c_arena blocks) ->
  ensures (getRSAPSSParamsAndSigningAlg a this (Some ar) (Some alg0) privk w)
          (pss_post a this ar blocks alg0 privk w).
Proof.
  destruct w as [h ja pe er ca vi]. simpl. intros Ha.
  pose proof (fun d => lookup_inserted h ar _ d Ha) as Hi.
  destruct a as [z d c s]. unfold pss_post.
  destruct (getDigestAlgorithm_value d this) as (digest & raised & Hd).
  unfold getRSAPSSParamsAndSigningAlg.
  repeat (run_leaf; rewrite ?insert_twice, ?Hi).
  all: split; [done|]; split; [done|]; exists digest, raised.
  all: first
         [ do 2 eexists; split; [exact Hd|]; split; [reflexivity|];
           split; [reflexivity|]; pick
         | exists [], [call_PORT_ArenaZAlloc (Some ar) None];
           split; [exact Hd|];
           split; [by rewrite app_nil_r, list_insert_id|];
           split; [reflexivity|]; pick ].
Qed.

Ltac call_spec x :=
  lazymatch x with
  | getRSAPSSParamsAndSigningAlg ?a ?t (Some ?ar) (Some ?alg0) ?k ?w =>
      let H := fresh in
      eassert (heap w !! ar = Some (c_arena _)) as H
        by (simpl; hnorm; reflexivity);
      apply_spec (pss_spec a t ar _ alg0 k w H); clear H
  | JSS_PK11_wrapSigContextProxy ?a (Some ?c) ?t ?ar ?w =>
      let H1 := fresh in
      let H2 := fresh in
      assert (live_as (context_kind t) (Some c) (heap w)) as H1
        by live_cell;
      assert (live_as is_arena (default None ar) (heap w)) as H2
        by live_cell;
      apply_spec (wrap_spec a c t ar w H1 H2); clear H1 H2
  | _ => leaf_spec x
  end.

Ltac run_calls := repeat run1_with mcbv_calls call_spec; mcbv_calls; hnorm.

(** ** Context Factory *)

Ltac try_nat tac :=
  first [ tac 0 | tac 1 | tac 2 | tac 3 | tac 4 | tac 5 | tac 6 ].

Ltac cell_cases :=
  let j := fresh "j" in
  let c := fresh "c" in
  let H := fresh "H" in
  intros j c H;
  repeat (destruct j as [|j]; simpl in H;
          [ injection H as <-;
            first [ left; reflexivity
                  | right; left; reflexivity
                  | right; right; left; reflexivity
                  | right; right; right; simpl; f_equal; lia ] | ]);
  discriminate H.

Ltac held_with p cx :=
  exists p, cx; eexists;
  split; [reflexivity|];
  split; [reflexivity|];
  split; [simpl; f_equal; lia|];
  split; [eexists; split; reflexivity|];
  split; [simpl;
          first [ exact I
                | try_nat ltac:(fun i => exists i; eexists;
                                         split; [lia | reflexivity]) ]|];
  cell_cases.

Ltac held :=
  try_nat ltac:(fun p => try_nat ltac:(fun cx => held_with p cx)).

Ltac factory_done :=
  unfold factory_post; simpl;
  repeat match goal with
         | |- context [if ?b then _ else _] => is_var b; destruct b
         end;
  first [ eexists; split; [reflexivity|]
        | exists []; split; [symmetry; apply app_nil_r|] ];
  first [ solve [repeat constructor] | held ].

Lemma initSigContext_releases_or_hands_over a this w :
  ensures (initSigContext_body a this w)
    (fun '(this', l) w1 =>
       ensures (initSigContext_finish l w1)
         (fun _ w' => factory_post SGN_CONTEXT (sig_contextProxy l) w w')).
Proof.
  destruct w as [h ja pe er ca vi].
  destruct a as [ka aa na [z d c s] nc nb [m b f g n] sa].
  destruct (getDigestAlgorithm_value d this) as (digest & raised & Hd).
  run_calls; factory_done.
Qed.

Lemma initVfyContext_releases_or_hands_over a this w :
  holds_public_key this (heap w) ->
  ensures (initVfyContext_body a this w)
    (fun '(this', l) w1 =>
       ensures (initVfyContext_finish l w1)
         (fun _ w' => factory_post VFY_CONTEXT (vfy_contextProxy l) w w')).
Proof.
  destruct w as [h ja pe er ca vi]. simpl. intros Hkey.
  destruct a as [ka aa ck na [z d c s] d2 nc nb [m b f g n] sa].
  destruct (getDigestAlgorithm_value d2 this) as (digest & raised & Hd).
  destruct this as [[[[l|]]|] al dl sc];
    try (destruct (Hkey l eq_refl) as (bits & Hl)); clear Hkey;
    run_calls; factory_done.
Qed.

(** ** The placeholder key of initVfyContext *)

Ltac in_cases H :=
  repeat first
    [ apply elem_of_nil in H; destruct H
    | apply elem_of_cons in H as [H|H]
    | apply elem_of_app in H as [H|H] ].

Lemma no_key_not_in (l : list call) c k :
  Forall (fun c => call_keys c = []) l -> c ∈ l -> k ∈ call_keys c -> False.
Proof.
  rewrite Forall_forall. intros Hl Hc Hk. rewrite (Hl _ Hc) in Hk.
  by apply elem_of_nil in Hk.
Qed.

Lemma initVfyContext_placeholder a this w pubk bits :
  key this = Some {| keyPointer := Some pubk |} ->
  heap w !! pubk = Some (c_public_key bits) ->
  ensures (Java_org_mozilla_jss_pkcs11_PK11Signature_initVfyContext a this w)
          (fun _ w' => placeholder_post pubk bits w w').
Proof.
  destruct w as [h ja pe er ca vi]. simpl. intros Hkey Hl.
  destruct a as [ka aa ck na [z d c s] d2 nc nb [m b f g n] sa].
  destruct (getDigestAlgorithm_value d2 this) as (digest & raised & Hd).
  destruct this as [k0 al dl sc]. simpl in Hkey. subst k0.
  pose proof (lookup_lt_Some _ _ _ Hl) as Hlt.
  run_calls.
  all: unfold placeholder_post; simpl.
  all: repeat match goal with
              | |- context [if ?b then _ else _] => is_var b; destruct b
              end.
  all: eexists; split; [reflexivity|];
       split; [first [exact Hl | by apply lookup_old]|]; split.
  all: try (intros n0 k kp Hin; in_cases Hin; simplify_eq;
            try (exfalso; eapply no_key_not_in; [eassumption..|]; simpl;
                 constructor);
            (split; [reflexivity|]); (split; [hnorm; reflexivity|]);
            (split; [hnorm; reflexivity|])).
  all: repeat first
         [ apply Forall_nil_2
         | apply Forall_cons_2;
           [ simpl;
             first [ intros []; fail
                   | intros _; reflexivity
                   | intros _; exact I
                   | intros [Hk|Hk]; in_cases Hk; simplify_eq; lia ] | ]
         | apply Forall_app_2;
           [ eapply Forall_impl; [eassumption|];
             let c := fresh in
             let Hc := fresh in
             intros c Hc; simpl in Hc;
             first [ destruct c; simpl in *; solve [intros []] || discriminate
                   | rewrite Hc;
                     intros [Hk|Hk]; apply elem_of_nil in Hk; destruct Hk ] | ] ].
Qed.

(** The run for RSA-PSS, the digest lookups taken by what they resolve. *)
Ltac mcbv_digest :=
  mcbv_calls;
  cbv beta iota zeta delta [
    getAlgorithm getRSAPSSParamsAndSigningAlg getSomeKey
    wrapSigContextProxy_finish JSS_PK11_wrapSigContextProxy setSigContext ];
  mcbv_calls.

Ltac digest_spec x :=
  lazymatch x with
  | getDigestAlgorithm ?a ?s ?w =>
      match goal with
      | H : digest_resolves a s _ _ |- _ => apply_spec (H w)
      end
  end.

Ltac run_digest :=
  repeat run1_with mcbv_digest digest_spec; mcbv_digest; hnorm.

Lemma initVfyContext_pss a this w pubk bits :
  key this = Some {| keyPointer := Some pubk |} ->
  heap w !! pubk = Some (c_public_key bits) ->
  ans_vfy_key a = key_ok -> ans_vfy_alg a = resolver_ok ->
  algorithm this = Some {| oidTag := SEC_OID_PKCS1_RSA_PSS_SIGNATURE |} ->
  ensures (Java_org_mozilla_jss_pkcs11_PK11Signature_initVfyContext a this w)
          (fun _ w' => placeholder_made a pubk bits w w').
Proof.
  destruct w as [h ja pe er ca vi]. simpl. intros Hkey Hl.
  destruct a as [ka aa ck na [z d c s] d2 nc nb [m b f g n] sa].
  simpl. intros -> -> Hal.
  destruct (getDigestAlgorithm_value d this) as (hash & raised & Hd).
  destruct (getDigestAlgorithm_value d2 this) as (digest & raised2 & Hd2).
  destruct this as [k0 al dl sc]. simpl in Hkey, Hal. subst k0 al.
  pose proof (lookup_lt_Some _ _ _ Hl) as Hlt.
  assert (SECOidTag_eqb SEC_OID_PKCS1_RSA_PSS_SIGNATURE
            SEC_OID_PKCS1_RSA_PSS_SIGNATURE = true) as E1 by reflexivity.
  unfold key_ok, resolver_ok.
  run_digest.
  all: unfold placeholder_made, pss_steps_ok; simpl.
  all: split;
    [ lazymatch goal with
      | |- exists rest freed, _ ++ ?l = _ =>
          let r := eval lazy [take drop firstn skipn length Nat.sub] in
                     (take (length l - 5) (drop 2 l)) in
          exists r; eexists; reflexivity
      end
    | first [ intros (? & ? & ? & ? & ?); discriminate
            | intros _; do 4 eexists; reflexivity ] ].
Qed.

(** ** Streaming Engine *)

Lemma getSigContext_ok this w p r c :
  holds_proxy this (heap w) p r -> ctxt r = Some c ->
  getSigContext sigctx_ok this w = Ok (Some (Some c, type r)) w.
Proof.
  destruct w as [h ja pe er ca vi], this as [k al dl sc], r as [cx t ar].
  unfold holds_proxy. simpl. intros [-> Hp] ->.
  unfold sigctx_ok. mcbv; hnorm; mcbv. rewrite Hp. mcbv; hnorm. reflexivity.
Qed.

(** The bounds test of engineUpdateNative changes nothing: it gives its
    verdict, or stops at the sum that does not fit. *)
Lemma update_bounds_test_cases offset length n w :
  (exists rejected, update_bounds_test offset length n w = Ok rejected w) \/
  update_bounds_test offset length n w
  = Fault (signed_overflow "engineUpdateNative") w.
Proof.
  unfold update_bounds_test, jint_add.
  destruct ((offset <? 0) || (offset >=? n) || (length <? 0))%Z;
    [left; by eexists|].
  cbv [mbind M_bind bind mret M_ret ret fail].
  destruct ((jint_min <=? offset + length) && (offset + length <=? jint_max))%Z.
  - destruct (offset + length >? n)%Z; left; by eexists.
  - by right.
Qed.

Lemma jint_add_fits fn a b w :
  (0 <= a)%Z -> (0 <= b)%Z -> sum_fits a b ->
  jint_add fn a b w = Ok (a + b)%Z w.
Proof.
  intros Ha Hb Hf. specialize (Hf Ha Hb). unfold jint_add.
  replace ((jint_min <=? a + b) && (a + b <=? jint_max))%Z with true;
    [done|].
  symmetry. rewrite andb_true_iff, !Z.leb_le. unfold jint_min. lia.
Qed.

Lemma update_bounds_test_accepts offset length n w :
  (n <= jint_max)%Z ->
  update_bounds_as_coded offset length n ->
  update_bounds_test offset length n w = Ok false w.
Proof.
  unfold update_bounds_as_coded. intros Hn (Ho & Hon & Hl & Hs).
  unfold update_bounds_test.
  replace ((offset <? 0) || (offset >=? n) || (length <? 0))%Z with false.
  2: { symmetry. rewrite !orb_false_iff, !Z.ltb_ge, Z.geb_leb, Z.leb_gt. lia. }
  cbv [mbind M_bind bind].
  rewrite jint_add_fits by (unfold sum_fits; lia).
  replace (offset + length >? n)%Z with false
    by (symmetry; rewrite Z.gtb_ltb, Z.ltb_ge; lia).
  rewrite jint_add_fits by (unfold sum_fits; lia).
  cbv [mret M_ret ret].
  replace (offset + length <? 0)%Z with false
    by (symmetry; rewrite Z.ltb_ge; lia).
  reflexivity.
Qed.

Lemma update_bounds_test_rejects offset length n w :
  sum_fits offset length ->
  ~ update_bounds_as_coded offset length n ->
  update_bounds_test offset length n w = Ok true w.
Proof.
  unfold update_bounds_as_coded. intros Hf Hout. unfold update_bounds_test.
  destruct ((offset <? 0) || (offset >=? n) || (length <? 0))%Z eqn:E;
    [done|].
  rewrite !orb_false_iff, !Z.ltb_ge, Z.geb_leb, Z.leb_gt in E.
  destruct E as [[Ho Hon] Hl].
  cbv [mbind M_bind bind].
  rewrite jint_add_fits by done.
  replace (offset + length >? n)%Z with true
    by (symmetry; rewrite Z.gtb_ltb, Z.ltb_lt; lia).
  reflexivity.
Qed.

(** The sum the test computes does not fit: C leaves what follows
    undefined. *)
Lemma update_bounds_test_overflow offset length n w :
  (0 <= offset < n)%Z -> (0 <= length)%Z ->
  (offset + length > jint_max)%Z ->
  update_bounds_test offset length n w
  = Fault (signed_overflow "engineUpdateNative") w.
Proof.
  intros [Ho Hon] Hl Hs. unfold update_bounds_test, jint_add.
  replace ((offset <? 0) || (offset >=? n) || (length <? 0))%Z with false.
  2: { symmetry. rewrite !orb_false_iff, !Z.ltb_ge, Z.geb_leb, Z.leb_gt. lia. }
  cbv [mbind M_bind bind].
  replace ((jint_min <=? offset + length) && (offset + length <=? jint_max))%Z
    with false; [done|].
  symmetry. rewrite andb_false_iff, !Z.leb_gt. lia.
Qed.

(** Run the bounds test by what is known of the arguments, or else by its
    cases. *)
Ltac bounds_spec x :=
  lazymatch x with
  | update_bounds_test ?o ?l ?n ?w =>
      first [ rewrite (update_bounds_test_accepts o l n w) by assumption
            | rewrite (update_bounds_test_rejects o l n w) by assumption
            | rewrite (update_bounds_test_overflow o l n w) by assumption
            | let E := fresh "E" in
              destruct (update_bounds_test_cases o l n w) as [[? E]|E];
              rewrite E; clear E ]
  end.

Ltac any_spec x := first [ any_lookup x | bounds_spec x ].

Ltac run_bounds := repeat run1_with mcbv bounds_spec; mcbv; hnorm.
Ltac run_all := repeat run1_with mcbv any_spec; mcbv; hnorm.

Lemma snoc_ne {A} (l : list A) x : l <> l ++ [x].
Proof.
  intros H. apply (f_equal length) in H. rewrite length_app in H.
  simpl in H. lia.
Qed.

Lemma snoc_inj {A} (l : list A) x y : l ++ [x] = l ++ [y] -> x = y.
Proof. intros H. apply app_inv_head in H. by injection H. Qed.

(** What engineUpdateNative does on a live proxy, told by its bounds test
    and by the answer of the library. *)
Lemma engineUpdateNative_run a this bArray b offset length w p r c :
  is_jint offset -> is_jint length -> sum_fits offset length ->
  (Z.of_nat (List.length b) <= jint_max)%Z ->
  update_ok a ->
  holds_proxy this (heap w) p r -> ctxt r = Some c ->
  live_as (context_kind (type r)) (Some c) (heap w) ->
  jarrays w !! bArray = Some b ->
  ensures (Java_org_mozilla_jss_pkcs11_PK11Signature_engineUpdateNative
             a this bArray offset length w)
    (fun _ w' =>
       (update_bounds_as_coded offset length (Z.of_nat (List.length b)) ->
        pending w' = pending w ++
                     (if ans_Update a then []
                      else [(SIGNATURE_EXCEPTION, Some "update failed")])) /\
       (~ update_bounds_as_coded offset length (Z.of_nat (List.length b)) ->
        pending w' = pending w ++
                     [(ARRAY_INDEX_OUT_OF_BOUNDS_EXCEPTION, None)])).
Proof.
  intros Ho Hl Hf Hb [Hctx Href] [Hs Hp] Hc Hlive Harr.
  destruct a as [actx aref aupd]. simpl in *. subst actx aref.
  destruct w as [h ja pe er ca vi], this as [k al dl sc], r as [cx t ar].
  simpl in *. subst sc cx.
  destruct Hlive as (cc & Hcc & Hk).
  destruct (decide (update_bounds_as_coded offset length
                      (Z.of_nat (List.length b)))) as [Hin|Hout].
  - assert (((0 <=? offset) && (0 <=? length)
             && (offset + length <=? Z.of_nat (List.length b)))%Z = true)
      as Hread.
    { unfold update_bounds_as_coded in Hin.
      rewrite !andb_true_iff, !Z.leb_le. lia. }
    unfold sigctx_ok. destruct t; run_bounds.
    all: split; intros Hx; [try rewrite app_nil_r; done | contradiction].
  - unfold sigctx_ok. run_bounds.
    all: split; intros Hin; [contradiction | done].
Qed.

Lemma engineUpdateNative_bounds a this bArray b offset length w p r c :
  is_jint offset -> is_jint length -> sum_fits offset length ->
  (Z.of_nat (List.length b) <= jint_max)%Z ->
  update_ok a ->
  holds_proxy this (heap w) p r -> ctxt r = Some c ->
  live_as (context_kind (type r)) (Some c) (heap w) ->
  jarrays w !! bArray = Some b ->
  raises (Java_org_mozilla_jss_pkcs11_PK11Signature_engineUpdateNative
            a this bArray offset length w)
         w (ARRAY_INDEX_OUT_OF_BOUNDS_EXCEPTION, None)
  <-> ~ update_bounds_as_coded offset length (Z.of_nat (List.length b)).
Proof.
  intros Ho Hl Hf Hb Ha Hp Hc Hlive Harr.
  pose proof (engineUpdateNative_run a this bArray b offset length w p r c
                Ho Hl Hf Hb Ha Hp Hc Hlive Harr) as Hrun.
  apply ensures_Ok in Hrun as ([] & w' & E & Hin & Hout).
  unfold raises. rewrite E. split.
  - intros (w'' & [= <-] & Hpend) Hcoded.
    rewrite (Hin Hcoded) in Hpend. apply app_inv_head in Hpend.
    destruct (ans_Update a); discriminate.
  - intros Hn. exists w'. auto.
Qed.

(** ** Verification outcome *)

Lemma engineVerifyNative_rule a this sigArray sig w p r c :
  verify_ok a ->
  holds_proxy this (heap w) p r -> ctxt r = Some c -> type r = VFY_CONTEXT ->
  live_as is_VFYContext (Some c) (heap w) ->
  jarrays w !! sigArray = Some sig ->
  ensures (Java_org_mozilla_jss_pkcs11_PK11Signature_engineVerifyNative
             a this sigArray w)
          (verify_rule (ans_VFY_EndWithSignature a)
             "Failed to complete verification operation" w).
Proof.
  intros [Hctx Href] [Hs Hp] Hc Ht (cc & Hcc & Hk) Harr.
  destruct a as [actx aref aend]. simpl in *. subst actx aref.
  destruct w as [h ja pe er ca vi], this as [k al dl sc], r as [cx t ar].
  simpl in *. subst sc cx t.
  assert ((0 <=? 0) && (0 <=? Z.of_nat (List.length sig))
          && (0 + Z.of_nat (List.length sig) <=? Z.of_nat (List.length sig))
          = true)%Z as Hread.
  { rewrite !andb_true_iff, !Z.leb_le. lia. }
  unfold sigctx_ok, verify_rule. run;
    try match goal with
        | H : negb ?b = _ |- _ => destruct b; simpl in H; try discriminate H
        end;
    rewrite ?app_nil_r; auto.
Qed.

Lemma engineRawVerifyNative_rule a keyObj hashBA sigBA k sig hash w :
  rawVerify_ok a ->
  keyPointer keyObj = Some k ->
  jarrays w !! sigBA = Some sig -> jarrays w !! hashBA = Some hash ->
  ensures (Java_org_mozilla_jss_pkcs11_PK11Signature_engineRawVerifyNative
             a keyObj hashBA sigBA w)
          (verify_rule (ans_PK11_Verify a)
             "Verification operation failed on token" w).
Proof.
  intros (Hsig & Hhash & Hkey) Hk Hs Hh.
  destruct a as [asig ahash akey aver]. simpl in *. subst asig ahash akey.
  destruct w as [h ja pe er ca vi], keyObj as [kp].
  simpl in *. subst kp.
  unfold verify_rule. run;
    try match goal with
        | H : negb ?b = _ |- _ => destruct b; simpl in H; try discriminate H
        end;
    rewrite ?app_nil_r; auto.
Qed.

(** ** The caller's byte array *)

Ltac array_done :=
  split; [reflexivity|];
  first [ eexists; split; [reflexivity|]
        | exists []; split; [symmetry; apply app_nil_r|] ];
  repeat split; try (repeat constructor; fail);
  try (eexists; split; [reflexivity|];
       let p := fresh in
       let H := fresh in
       intros p H; in_cases H; simplify_eq; reflexivity).

Lemma engineUpdateNative_array a this bArray offset length w :
  array_untouched bArray w
    (Java_org_mozilla_jss_pkcs11_PK11Signature_engineUpdateNative
       a this bArray offset length w).
Proof.
  destruct w as [h ja pe er ca vi], this as [k al dl [[[p|]]|]],
    a as [[a1 a2] a3 a4].
  all: unfold array_untouched; run_all.
  all: array_done.
Qed.

Lemma engineVerifyNative_array a this sigArray w :
  array_untouched sigArray w
    (Java_org_mozilla_jss_pkcs11_PK11Signature_engineVerifyNative
       a this sigArray w).
Proof.
  destruct w as [h ja pe er ca vi], this as [k al dl [[[p|]]|]],
    a as [[a1 a2] a3 a4].
  all: unfold array_untouched; run_any.
  all: array_done.
Qed.

(** ** Kind enforcement at finalize *)

Lemma engineVerifyNative_on_sign_proxy a this sigArray w p r :
  ans_vfy_ctx a = sigctx_ok ->
  holds_proxy this (heap w) p r -> ctxt r <> None -> type r = SGN_CONTEXT ->
  ensures (Java_org_mozilla_jss_pkcs11_PK11Signature_engineVerifyNative
             a this sigArray w)
    (fun verified w' =>
       verified = false /\
       pending w' = pending w ++
                    [(SIGNATURE_EXCEPTION,
                      Some "Verification engine has signature context")] /\
       calls w' = calls w ++ [call_JSS_DerefByteArray sigArray None JNI_ABORT]
       /\ heap w' = heap w).
Proof.
  intros Hctx [Hs Hp] Hc Ht.
  destruct a as [actx aref aend]. simpl in *. subst actx.
  destruct w as [h ja pe er ca vi], this as [k al dl sc], r as [[c|] t ar];
    [|done].
  simpl in *. subst sc t.
  unfold sigctx_ok. run. auto.
Qed.

Lemma engineSignNative_on_verify_proxy a this w p r c :
  ans_sign_ctx a = sigctx_ok ->
  holds_proxy this (heap w) p r -> ctxt r = Some c -> type r = VFY_CONTEXT ->
  live_as is_VFYContext (Some c) (heap w) ->
  faults (Java_org_mozilla_jss_pkcs11_PK11Signature_engineSignNative a this w)
    (wrong_kind "SGN_End" c)
    (fun w' =>
       pending w' = pending w /\ calls w' = calls w /\ heap w' = heap w /\
       violated w' =
         violated w ++ ["engineSignNative: ctxt!=NULL && type==SGN_CONTEXT"]).
Proof.
  intros Hctx [Hs Hp] Hc Ht (cc & Hcc & Hk).
  destruct a as [actx aend aba]. simpl in *. subst actx.
  destruct w as [h ja pe er ca vi], this as [k al dl sc], r as [cx t ar].
  simpl in *. subst sc t cx.
  unfold sigctx_ok. run. all: auto.
Qed.

(** ** Algorithm Resolver: a field that is not set *)

Lemma getDigestAlgorithm_unset a sig w :
  lookups_ok a -> digestAlgorithm sig = None ->
  getDigestAlgorithm a sig w = Ok SEC_OID_UNKNOWN w.
Proof.
  intros [Hc Hf] Hd. destruct a as [ac af ao], sig as [k al dl sc], w.
  simpl in *. subst. mcbv; hnorm; mcbv. reflexivity.
Qed.

Lemma getAlgorithm_unset a sig w :
  lookups_ok a -> algorithm sig = None ->
  getAlgorithm a sig w
  = Ok SEC_OID_UNKNOWN
      (if out_of_memory_pending w then w
       else set_violated (violated w ++ ["getAlgorithm: alg"]) w).
Proof.
  intros [Hc Hf] Hd.
  destruct a as [ac af ao], sig as [k al dl sc], w as [h ja pe er ca vi].
  simpl in *. subst. unfold out_of_memory_pending.
  mcbv; hnorm; mcbv.
  destruct (last pe) as [[[] ?]|]; reflexivity.
Qed.

(** A failed class or field lookup is asserted to be an out-of-memory
    condition in both resolvers. *)
Lemma resolver_lookup_fails a sig w t :
  ans_GetObjectClass a = jni_fails t \/
  ans_GetObjectClass a = jni_ok /\ ans_GetFieldID a = jni_fails t ->
  exists what_alg what_digest,
    let w1 := set_pending (pending w ++ [t]) w in
    getAlgorithm a sig w
    = Ok SEC_OID_UNKNOWN
        (if is_OUT_OF_MEMORY t then w1
         else set_violated (violated w ++ [what_alg]) w1) /\
    getDigestAlgorithm a sig w
    = Ok SEC_OID_UNKNOWN
        (if is_OUT_OF_MEMORY t then w1
         else set_violated (violated w ++ [what_digest]) w1).
Proof.
  destruct a as [ac af ao], sig as [k al dl sc], w as [h ja pe er ca vi],
    t as [[] ?].
  all: simpl; intros [->|[-> ->]];
    [ exists "getAlgorithm: sigClass", "getDigestAlgorithm: sigClass"
    | exists "getAlgorithm: algField", "getDigestAlgorithm: algField" ].
  all: cbv zeta; split; do 3 (mcbv; hnorm); reflexivity.
Qed.

(** ** Context Proxy: release *)

Lemma release_cleared w : release jni_ok cleared w = Ok tt w.
Proof. destruct w. reflexivity. Qed.

Lemma release_unreadable t this w :
  release (jni_fails t) this w = Ok tt (set_pending (pending w ++ [t]) w).
Proof. destruct w. reflexivity. Qed.

(** Decide a lookup in a heap that is the given one with some cells
    replaced, from the hypotheses on the given one. *)
Ltac insert_lookup x :=
  lazymatch x with
  | <[?i := ?d]> ?l !! ?i =>
      rewrite (list_lookup_insert_eq l i d)
        by (rewrite ?length_insert; eapply lookup_lt_Some; eassumption)
  | <[?j := ?d]> ?l !! ?i =>
      rewrite (list_lookup_insert_ne l j i d) by congruence
  end.

Ltac run_inserts := repeat run1_with mcbv insert_lookup; mcbv; hnorm.

Lemma proxy_apart (h : list cell) p r q c (kind : cell -> bool) :
  h !! p = Some (c_proxy r) -> h !! q = Some c -> kind c = true ->
  kind (c_proxy r) = false -> q <> p.
Proof. intros Hp Hq Hk Hf ->. rewrite Hp in Hq. injection Hq as <-. congruence. Qed.

Lemma release_live this w p r :
  mPointer this = Some p ->
  heap w !! p = Some (c_proxy r) ->
  live_as (context_kind (type r)) (ctxt r) (heap w) ->
  live_as is_arena (arena r) (heap w) ->
  ensures (release jni_ok this w)
    (fun _ w' =>
       heap w' = released (Some p) (released (arena r)
                                      (released (ctxt r) (heap w))) /\
       jarrays w' = jarrays w /\ pending w' = pending w /\
       faults (release jni_ok this w')
         (use_after_free "releaseNativeResources" p) (fun w'' => w'' = w')).
Proof.
  destruct w as [h ja pe er ca vi], this as [mp], r as [cx t ar].
  simpl. intros -> Hp Hc Ha. unfold release.
  destruct cx as [c|], ar as [a|]; simpl in Hc, Ha;
    try destruct Hc as (cc & Hcc & Hkc); try destruct Ha as (ac & Hac & Hka);
    try assert (a <> c) as Hne by (destruct t; eauto using kinds_apart);
    try assert (c <> p) as Hcp
      by (eapply proxy_apart; [exact Hp|exact Hcc|exact Hkc|by destruct t]);
    try assert (a <> p) as Hap
      by (eapply proxy_apart; [exact Hp|exact Hac|exact Hka|done]).
  all: destruct t; run_inserts.
  all: repeat split; try reflexivity.
  all: try (unfold released; by rewrite list_insert_insert_eq).
  all: run_inserts; auto.
Qed.

(** * The claims *)

(** ** C1: release *)

(** C1, as stated, fails: release frees the context and the proxy record
    but leaves the reference stored in the managed proxy as it was, so a
    second call on the same proxy reads the released record. *)
Lemma release_twice_faults :
  exists w',
    release jni_ok example_proxy example_world = Ok tt w' /\
    release jni_ok example_proxy w'
    = Fault (use_after_free "releaseNativeResources" 1) w'.
Proof. eexists. split; reflexivity. Qed.

(** C1, amended: on a proxy whose stored reference is cleared release does
    nothing; on a proxy that refers to a live record it releases the
    context, the arena and the record, each once, and nothing else; after
    it, a call on a cleared proxy still does nothing, while a call on the
    same proxy, whose reference release has not cleared, is a use of the
    released record. *)
Theorem release_frees_once_and_needs_clearing this w p r :
  mPointer this = Some p ->
  heap w !! p = Some (c_proxy r) ->
  live_as (context_kind (type r)) (ctxt r) (heap w) ->
  live_as is_arena (arena r) (heap w) ->
  release jni_ok cleared w = Ok tt w /\
  ensures (release jni_ok this w)
    (fun _ w' =>
       heap w' = released (Some p) (released (arena r)
                                      (released (ctxt r) (heap w))) /\
       jarrays w' = jarrays w /\ pending w' = pending w /\
       release jni_ok cleared w' = Ok tt w' /\
       faults (release jni_ok this w')
         (use_after_free "releaseNativeResources" p) (fun w'' => w'' = w')).
Proof.
  intros Hm Hp Hc Ha. split; [apply release_cleared|].
  eapply ensures_impl; [by apply release_live|].
  intros _ w' (Hh & Hj & Hpe & Hf). auto using release_cleared.
Qed.

Lemma release_frees_once_witness :
  mPointer example_proxy = Some 1 /\
  release jni_ok cleared example_world = Ok tt example_world /\
  ensures (release jni_ok example_proxy example_world)
    (fun _ w' =>
       heap w' = [c_freed; c_freed] /\
       jarrays w' = jarrays example_world /\
       pending w' = pending example_world /\
       release jni_ok cleared w' = Ok tt w' /\
       faults (release jni_ok example_proxy w')
         (use_after_free "releaseNativeResources" 1) (fun w'' => w'' = w')).
Proof.
  split; [reflexivity|].
  apply (release_frees_once_and_needs_clearing example_proxy example_world 1
           {| ctxt := Some 0; type := SGN_CONTEXT; arena := None |}).
  - reflexivity.
  - reflexivity.
  - simpl. eexists. split; reflexivity.
  - exact I.
Defined.

(** ** C2: the bounds of update *)

(** C2, as stated, fails: the update with offset = size and length = 0
    meets every bound the claim lists, and raises the bounds error. *)
Lemma update_at_end_of_array_rejected :
  update_bounds_as_specified 1 0 1 /\
  raises (Java_org_mozilla_jss_pkcs11_PK11Signature_engineUpdateNative
            update_answers_ok example_signature 0 1 0 example_world)
         example_world (ARRAY_INDEX_OUT_OF_BOUNDS_EXCEPTION, None).
Proof.
  split.
  - unfold update_bounds_as_specified, jint_max. lia.
  - eexists. split; reflexivity.
Qed.

(** C2, amended: on a live proxy, and for an offset and a length whose sum,
    where the test computes it (neither being negative), fits in a jint,
    update raises the bounds error if and only if offset < 0, or
    offset >= size, or length < 0, or offset + length > size; in particular
    offset = size with length = 0 is rejected, as is offset = size with
    length = 1.  Nothing is said of a sum that does not fit. *)
Theorem update_bounds_error_iff a this bArray b offset length w p r c :
  is_jint offset -> is_jint length -> sum_fits offset length ->
  (Z.of_nat (List.length b) <= jint_max)%Z ->
  update_ok a ->
  holds_proxy this (heap w) p r -> ctxt r = Some c ->
  live_as (context_kind (type r)) (Some c) (heap w) ->
  jarrays w !! bArray = Some b ->
  let size := Z.of_nat (List.length b) in
  (raises (Java_org_mozilla_jss_pkcs11_PK11Signature_engineUpdateNative
             a this bArray offset length w)
          w (ARRAY_INDEX_OUT_OF_BOUNDS_EXCEPTION, None)
   <-> (offset < 0 \/ offset >= size \/ length < 0
        \/ offset + length > size)%Z) /\
  ((offset = size /\ (length = 0 \/ length = 1))%Z ->
   raises (Java_org_mozilla_jss_pkcs11_PK11Signature_engineUpdateNative
             a this bArray offset length w)
          w (ARRAY_INDEX_OUT_OF_BOUNDS_EXCEPTION, None)).
Proof.
  intros Ho Hl Hf Hb Ha Hp Hc Hlive Harr size.
  pose proof (engineUpdateNative_bounds a this bArray b offset length w p r c
                Ho Hl Hf Hb Ha Hp Hc Hlive Harr) as Hiff.
  fold size in Hiff. unfold update_bounds_as_coded in Hiff.
  split.
  - rewrite Hiff. lia.
  - intros [-> _]. apply Hiff. lia.
Qed.

Lemma update_bounds_error_witness :
  is_jint 1 /\ is_jint 0 /\ sum_fits 1 0 /\
  (raises (Java_org_mozilla_jss_pkcs11_PK11Signature_engineUpdateNative
             update_answers_ok example_signature 0 1 0 example_world)
          example_world (ARRAY_INDEX_OUT_OF_BOUNDS_EXCEPTION, None)
   <-> (1 < 0 \/ 1 >= 1 \/ 0 < 0 \/ 1 + 0 > 1)%Z).
Proof.
  assert (is_jint 1 /\ is_jint 0) as [H1 H0]
    by (unfold is_jint, jint_min, jint_max; lia).
  assert (sum_fits 1 0) as Hf by (unfold sum_fits, jint_max; lia).
  split; [exact H1|]. split; [exact H0|]. split; [exact Hf|].
  apply (update_bounds_error_iff update_answers_ok example_signature 0
           [Byte.x00] 1 0 example_world 1
           {| ctxt := Some 0; type := SGN_CONTEXT; arena := None |} 0).
  - exact H1.
  - exact H0.
  - exact Hf.
  - unfold jint_max. simpl. lia.
  - split; reflexivity.
  - split; reflexivity.
  - reflexivity.
  - simpl. eexists. split; reflexivity.
  - reflexivity.
Defined.

(** ** C3: a bad signature is not an error *)

Lemma verify_rule_exactly a msg w verified w' :
  verify_rule a msg w verified w' ->
  (verified = false /\ pending w' = pending w
   <-> a = nss_fails SEC_ERROR_BAD_SIGNATURE) /\
  (forall e, a = nss_fails e -> e <> SEC_ERROR_BAD_SIGNATURE ->
             verified = false /\
             pending w' = pending w ++ [(SIGNATURE_EXCEPTION, Some msg)]).
Proof.
  unfold verify_rule. destruct a as [|e].
  - intros [-> Hp]. split; [|discriminate].
    split; [intros [? _]; discriminate | discriminate].
  - intros [-> Hp]. destruct (Z.eqb_spec e SEC_ERROR_BAD_SIGNATURE) as [->|Hne].
    + rewrite app_nil_r in Hp. split; [by split|].
      intros e' [= <-] Hne. done.
    + split.
      * split; [|intros [= ->]; done].
        intros [_ Hp']. rewrite Hp' in Hp. by apply snoc_ne in Hp.
      * intros e' [= <-] _. by split.
Qed.

(** C3: finalizeVerify on a live verify-kind proxy, and rawVerify, return
    false without raising exactly when the library fails with the
    bad-signature code, and raise SignatureException on every other failure
    of the library (on success they return true and raise nothing). *)
Theorem verification_mismatch_is_not_an_error :
  (forall a this sigArray sig w p r c,
     verify_ok a ->
     holds_proxy this (heap w) p r -> ctxt r = Some c ->
     type r = VFY_CONTEXT ->
     live_as is_VFYContext (Some c) (heap w) ->
     jarrays w !! sigArray = Some sig ->
     ensures (Java_org_mozilla_jss_pkcs11_PK11Signature_engineVerifyNative
                a this sigArray w)
       (fun verified w' =>
          (ans_VFY_EndWithSignature a = nss_ok ->
           verified = true /\ pending w' = pending w) /\
          (verified = false /\ pending w' = pending w
           <-> ans_VFY_EndWithSignature a
               = nss_fails SEC_ERROR_BAD_SIGNATURE) /\
          (forall e, ans_VFY_EndWithSignature a = nss_fails e ->
                     e <> SEC_ERROR_BAD_SIGNATURE ->
                     verified = false /\
                     pending w' =
                       pending w ++
                       [(SIGNATURE_EXCEPTION,
                         Some "Failed to complete verification operation")])))
  /\
  (forall a keyObj hashBA sigBA k sig hash w,
     rawVerify_ok a ->
     keyPointer keyObj = Some k ->
     jarrays w !! sigBA = Some sig -> jarrays w !! hashBA = Some hash ->
     ensures (Java_org_mozilla_jss_pkcs11_PK11Signature_engineRawVerifyNative
                a keyObj hashBA sigBA w)
       (fun verified w' =>
          (ans_PK11_Verify a = nss_ok ->
           verified = true /\ pending w' = pending w) /\
          (verified = false /\ pending w' = pending w
           <-> ans_PK11_Verify a = nss_fails SEC_ERROR_BAD_SIGNATURE) /\
          (forall e, ans_PK11_Verify a = nss_fails e ->
                     e <> SEC_ERROR_BAD_SIGNATURE ->
                     verified = false /\
                     pending w' =
                       pending w ++
                       [(SIGNATURE_EXCEPTION,
                         Some "Verification operation failed on token")]))).
Proof.
  split.
  - intros a this sigArray sig w p r c Ha Hp Hc Ht Hl Hs.
    eapply ensures_impl;
      [eapply engineVerifyNative_rule; eassumption|].
    intros v w' Hrule. split; [|by apply verify_rule_exactly].
    intros Hok. unfold verify_rule in Hrule. by rewrite Hok in Hrule.
  - intros a keyObj hashBA sigBA k sig hash w Ha Hk Hs Hh.
    eapply ensures_impl;
      [eapply engineRawVerifyNative_rule; eassumption|].
    intros v w' Hrule. split; [|by apply verify_rule_exactly].
    intros Hok. unfold verify_rule in Hrule. by rewrite Hok in Hrule.
Qed.

Lemma verification_mismatch_witness :
  verify_ok verify_answers_bad_signature /\
  ensures (Java_org_mozilla_jss_pkcs11_PK11Signature_engineVerifyNative
             verify_answers_bad_signature example_signature 0
             example_verify_world)
    (fun verified w' =>
       verified = false /\ pending w' = pending example_verify_world).
Proof.
  split; [split; reflexivity|].
  eapply ensures_impl.
  - apply (proj1 verification_mismatch_is_not_an_error
             verify_answers_bad_signature example_signature 0 [Byte.x00]
             example_verify_world 1
             {| ctxt := Some 0; type := VFY_CONTEXT; arena := None |} 0).
    + split; reflexivity.
    + split; reflexivity.
    + reflexivity.
    + reflexivity.
    + simpl. eexists. split; reflexivity.
    + reflexivity.
  - intros v w' (_ & Hiff & _). apply Hiff. reflexivity.
Defined.

(** ** C4: what the factories do not release *)

(** C4: not every path that ends without a usable proxy releases what it
    allocated.  JSS_PK11_wrapSigContextProxy does not check what
    JSS_ptrToByteArray returns: when the reference to the proxy record
    cannot be encoded and the constructor still makes the managed object,
    wrap returns that object with an exception pending.  On a PK11Signature
    for RSA-PSS with a live key and no context, every other answer being a
    success, initSigContext and initVfyContext then return with an
    OutOfMemoryError pending and with a proxy stored that holds no
    reference; the context, the arena and the proxy record they allocated
    are live in the heap they leave, and releasing the stored proxy
    releases none of them. *)
Theorem factories_leak_when_the_reference_is_lost :
  ensures (Java_org_mozilla_jss_pkcs11_PK11Signature_initSigContext
             initSig_lost_reference example_pss_signer example_keys_world)
    (fun this' w' =>
       this' = set_sigContext (Some cleared) example_pss_signer /\
       pending w' = [(OUT_OF_MEMORY_ERROR, None)] /\
       (exists blocks,
          heap w' = heap example_keys_world ++
                    [c_arena blocks;
                     c_SGNContext (by_algorithm_id (Some (in_arena 2 0)))
                       (Some 0) true;
                     c_proxy {| ctxt := Some 3; type := SGN_CONTEXT;
                                arena := Some 2 |}]) /\
       release jni_ok cleared w' = Ok tt w') /\
  ensures (Java_org_mozilla_jss_pkcs11_PK11Signature_initVfyContext
             initVfy_lost_reference example_pss_verifier example_keys_world)
    (fun this' w' =>
       this' = set_sigContext (Some cleared) example_pss_verifier /\
       pending w' = [(OUT_OF_MEMORY_ERROR, None)] /\
       (exists blocks,
          heap w' = heap example_keys_world ++
                    [c_freed; c_freed;
                     c_arena blocks;
                     c_VFYContext (by_algorithm_id (Some (in_arena 4 0)))
                       (Some 1) (Some SEC_OID_UNKNOWN) true;
                     c_proxy {| ctxt := Some 5; type := VFY_CONTEXT;
                                arena := Some 4 |}]) /\
       release jni_ok cleared w' = Ok tt w').
Proof.
  split; vm_compute; (repeat split); eexists; reflexivity.
Qed.

(** ** C5: wrap adopts and nulls *)

(** C5: given a live context of the stated kind and an arena that is NULL
    or live, wrap returns without fault with the caller's context pointer
    NULL and the caller's arena pointer (when one was passed) NULL; when it
    returns an object, one new proxy record holds the context and the
    arena, which are as they were; when it returns NULL, the context and
    the arena have been released (and the record, if it was allocated). *)
Theorem wrap_adopts_and_nulls a c t (ar : option ptr) w :
  live_as (context_kind t) (Some c) (heap w) ->
  live_as is_arena (default None ar) (heap w) ->
  ensures (JSS_PK11_wrapSigContextProxy a (Some c) t ar w)
    (fun '(Context, ctxt', arena') w' =>
       ctxt' = None /\ arena' = (fun _ => None) <$> ar /\
       match Context with
       | Some proxy =>
           heap w' = heap w ++ [c_proxy {| ctxt := Some c; type := t;
                                           arena := default None ar |}] /\
           (mPointer proxy = Some (length (heap w)) \/
            mPointer proxy = None /\ ans_ptrToByteArray a <> jni_ok)
       | None =>
           heap w' = released (default None ar) (released (Some c) (heap w))
                     ++ (if ans_PR_Malloc a then [c_freed] else [])
       end).
Proof.
  intros Hc Ha. eapply ensures_impl; [by apply wrap_spec|].
  intros [[Context ctxt'] arena'] w'. unfold wrap_post. tauto.
Qed.

Lemma wrap_adopts_and_nulls_witness :
  live_as (context_kind SGN_CONTEXT) (Some 0) (heap example_world) /\
  ensures (JSS_PK11_wrapSigContextProxy wrap_ok (Some 0) SGN_CONTEXT
             (Some None) example_world)
    (fun '(Context, ctxt', arena') w' =>
       ctxt' = None /\ arena' = Some None).
Proof.
  assert (live_as (context_kind SGN_CONTEXT) (Some 0) (heap example_world))
    as H by (simpl; eexists; split; reflexivity).
  split; [exact H|].
  eapply ensures_impl.
  - exact (wrap_adopts_and_nulls wrap_ok 0 SGN_CONTEXT (Some None)
             example_world H I).
  - intros [[Context ctxt'] arena'] w' (Hc & Ha & _). by split.
Defined.

(** ** C6: the steps of the PSS parameter builder *)



(** ** C7: the placeholder key *)

(** C7: in initVfyContext on a PK11Signature that holds a live public key,
    whatever the JVM and the library answer, the run has no fault and the
    real key is untouched; every call that creates a verification context
    is given the real public key; and when a placeholder key pair was
    created, it was asked for with the bit strength of the real key, both
    its halves are released when the call returns, and the only calls given
    either half are its creation, the construction of the PSS parameters
    and its destruction.  When the key and the algorithm are read and the
    algorithm is RSA-PSS, the placeholder is asked for: the first calls are
    SECKEY_PublicKeyStrengthInBits on the real key and
    SECKEY_CreateRSAPrivateKey with the strength it gave, and the last
    calls destroy the two halves of the pair and free the arena that is
    left; and when the library makes the pair, the arena and the
    parameters, the parameters are built with the private half of the
    placeholder and bound to the SECAlgorithmID, and the context is created
    by VFY_CreateContextWithAlgorithmID from the real public key and that
    SECAlgorithmID. *)
Theorem placeholder_key_is_temporary a this w pubk bits :
  key this = Some {| keyPointer := Some pubk |} ->
  heap w !! pubk = Some (c_public_key bits) ->
  ensures (Java_org_mozilla_jss_pkcs11_PK11Signature_initVfyContext a this w)
          (fun _ w' => placeholder_post pubk bits w w') /\
  (ans_vfy_key a = key_ok -> ans_vfy_alg a = resolver_ok ->
   algorithm this = Some {| oidTag := SEC_OID_PKCS1_RSA_PSS_SIGNATURE |} ->
   ensures (Java_org_mozilla_jss_pkcs11_PK11Signature_initVfyContext
              a this w)
           (fun _ w' => placeholder_made a pubk bits w w')).
Proof.
  intros Hkey Hl. split.
  - by apply initVfyContext_placeholder.
  - intros Hk Ha Halg. by apply initVfyContext_pss.
Qed.

Lemma placeholder_key_is_temporary_witness :
  heap example_verify_world !! 2 = Some (c_public_key 2048) /\
  ensures (Java_org_mozilla_jss_pkcs11_PK11Signature_initVfyContext
             initVfy_ok example_pss_signature example_verify_world)
          (fun _ w' => placeholder_post 2 2048 example_verify_world w') /\
  ensures (Java_org_mozilla_jss_pkcs11_PK11Signature_initVfyContext
             initVfy_ok example_pss_signature example_verify_world)
          (fun _ w' =>
             placeholder_made initVfy_ok 2 2048 example_verify_world w').
Proof.
  split; [reflexivity|].
  destruct (placeholder_key_is_temporary initVfy_ok example_pss_signature
              example_verify_world 2 2048 eq_refl eq_refl) as [H1 H2].
  split; [exact H1 | exact (H2 eq_refl eq_refl eq_refl)].
Defined.

(** ** C8: an unset digest is not a failure *)

(** C8: when the class and field lookups succeed and the digestAlgorithm
    field is null, getDigestAlgorithm returns SEC_OID_UNKNOWN and the world
    is as it was: nothing raised, nothing asserted.  When the algorithm
    field is null, getAlgorithm returns SEC_OID_UNKNOWN through its error
    path: it asserts that an OutOfMemoryError is pending, an assertion that
    does not hold unless one was pending before.  In both resolvers a
    failed class or field lookup goes through the same assertion, so the
    null digest field is the one absence that is not treated as an
    error. *)
Theorem absent_digest_is_not_a_failure a sig w :
  lookups_ok a ->
  (digestAlgorithm sig = None ->
   getDigestAlgorithm a sig w = Ok SEC_OID_UNKNOWN w) /\
  (algorithm sig = None ->
   getAlgorithm a sig w
   = Ok SEC_OID_UNKNOWN
       (if out_of_memory_pending w then w
        else set_violated (violated w ++ ["getAlgorithm: alg"]) w)) /\
  (forall a' t,
     ans_GetObjectClass a' = jni_fails t \/
     ans_GetObjectClass a' = jni_ok /\ ans_GetFieldID a' = jni_fails t ->
     exists what_alg what_digest,
       let w1 := set_pending (pending w ++ [t]) w in
       getAlgorithm a' sig w
       = Ok SEC_OID_UNKNOWN
           (if is_OUT_OF_MEMORY t then w1
            else set_violated (violated w ++ [what_alg]) w1) /\
       getDigestAlgorithm a' sig w
       = Ok SEC_OID_UNKNOWN
           (if is_OUT_OF_MEMORY t then w1
            else set_violated (violated w ++ [what_digest]) w1)).
Proof.
  intros Ha. split; [|split].
  - by apply getDigestAlgorithm_unset.
  - by apply getAlgorithm_unset.
  - intros a' t. apply resolver_lookup_fails.
Qed.

Lemma absent_digest_witness :
  lookups_ok resolver_ok /\
  getDigestAlgorithm resolver_ok example_signature example_world
  = Ok SEC_OID_UNKNOWN example_world /\
  getAlgorithm resolver_ok example_signature example_world
  = Ok SEC_OID_UNKNOWN
      (set_violated ["getAlgorithm: alg"] example_world).
Proof.
  assert (lookups_ok resolver_ok) as H by (split; reflexivity).
  split; [exact H|].
  destruct (absent_digest_is_not_a_failure resolver_ok example_signature
              example_world H) as (Hd & Hal & _).
  split; [exact (Hd eq_refl) | exact (Hal eq_refl)].
Defined.

(** ** C9: kind enforcement at finalize *)

(** C9: on a proxy that holds a signing context, engineVerifyNative
    returns false, raises SignatureException("Verification engine has
    signature context") and calls nothing in the library but the release of
    a NULL buffer: no finalize is reached.  On a proxy that holds a live
    verification context, engineSignNative raises nothing: the kind is
    looked at by the PR_ASSERT alone, which is noted as violated, and
    SGN_End is entered with the verification context, which the test
    double reports as a use at the wrong kind. *)
Theorem finalize_kind_check_is_asymmetric this w p r c :
  holds_proxy this (heap w) p r -> ctxt r = Some c ->
  (type r = SGN_CONTEXT ->
   forall a sigArray,
     ans_vfy_ctx a = sigctx_ok ->
     ensures (Java_org_mozilla_jss_pkcs11_PK11Signature_engineVerifyNative
                a this sigArray w)
       (fun verified w' =>
          verified = false /\
          pending w' = pending w ++
                       [(SIGNATURE_EXCEPTION,
                         Some "Verification engine has signature context")] /\
          calls w' = calls w ++
                     [call_JSS_DerefByteArray sigArray None JNI_ABORT] /\
          heap w' = heap w)) /\
  (type r = VFY_CONTEXT ->
   live_as is_VFYContext (Some c) (heap w) ->
   forall a,
     ans_sign_ctx a = sigctx_ok ->
     faults (Java_org_mozilla_jss_pkcs11_PK11Signature_engineSignNative
               a this w)
       (wrong_kind "SGN_End" c)
       (fun w' =>
          pending w' = pending w /\ calls w' = calls w /\
          heap w' = heap w /\
          violated w' =
            violated w ++
            ["engineSignNative: ctxt!=NULL && type==SGN_CONTEXT"])).
Proof.
  intros Hp Hc. split.
  - intros Ht a sigArray Ha.
    eapply engineVerifyNative_on_sign_proxy; eauto. by rewrite Hc.
  - intros Ht Hl a Ha. eapply engineSignNative_on_verify_proxy; eauto.
Qed.

Lemma finalize_kind_check_witness :
  holds_proxy example_signature (heap example_verify_world) 1
    {| ctxt := Some 0; type := VFY_CONTEXT; arena := None |} /\
  faults (Java_org_mozilla_jss_pkcs11_PK11Signature_engineSignNative
            sign_answers_ok example_signature example_verify_world)
    (wrong_kind "SGN_End" 0)
    (fun w' =>
       pending w' = [] /\ calls w' = [] /\
       heap w' = heap example_verify_world /\
       violated w' = ["engineSignNative: ctxt!=NULL && type==SGN_CONTEXT"]).
Proof.
  assert (holds_proxy example_signature (heap example_verify_world) 1
            {| ctxt := Some 0; type := VFY_CONTEXT; arena := None |}) as H
    by (split; reflexivity).
  split; [exact H|].
  apply (proj2 (finalize_kind_check_is_asymmetric example_signature
                  example_verify_world 1 _ 0 H eq_refl) eq_refl).
  - simpl. eexists. split; reflexivity.
  - reflexivity.
Defined.

(** ** C10: the caller's byte array *)

(** C10: whatever the heap, the proxy, the arguments and the answers, and
    whether the call returns or stops at a fault, engineUpdateNative and
    engineVerifyNative leave every Java byte array as it was, and every
    release of a borrowed buffer they make is in JNI_ABORT mode; when they
    return, their last call gives back, in JNI_ABORT mode, the buffer they
    borrowed (NULL when they borrowed none). *)
Theorem byte_array_is_never_modified :
  (forall a this bArray offset length w,
     array_untouched bArray w
       (Java_org_mozilla_jss_pkcs11_PK11Signature_engineUpdateNative
          a this bArray offset length w)) /\
  (forall a this sigArray w,
     array_untouched sigArray w
       (Java_org_mozilla_jss_pkcs11_PK11Signature_engineVerifyNative
          a this sigArray w)).
Proof.
  split.
  - apply engineUpdateNative_array.
  - apply engineVerifyNative_array.
Qed.

(** * Further properties: lemmas *)

(** ** The engine returns and releases what it borrowed *)

Ltac clean_done :=
  unfold all_released;
  first [ exact I
        | eexists; split; [reflexivity | repeat constructor]
        | exists []; split; [symmetry; apply app_nil_r | constructor] ].

Lemma engineUpdateNative_total a this bArray offset length w :
  is_jint offset -> is_jint length -> sum_fits offset length ->
  arrays_fit w -> proxy_well_formed this (heap w) ->
  ensures (Java_org_mozilla_jss_pkcs11_PK11Signature_engineUpdateNative
             a this bArray offset length w)
    (fun _ w' => leaves_released w w').
Proof.
  intros Ho Hl Hf Hfit Hwf.
  destruct w as [h ja pe er ca vi], this as [k al dl [[[p|]]|]],
    a as [[a1 a2] a3 a4].
  all: unfold leaves_released, proxy_well_formed, arrays_fit in *;
    simpl in *.
  2,3: run_any; clean_done.
  destruct (Hwf p eq_refl) as ([[c|] t ar] & Hp & Hlive); simpl in Hlive.
  2: run; clean_done.
  destruct Hlive as (cc & Hcc & Hk).
  destruct (ja !! bArray) as [b|] eqn:Hb.
  2: destruct t; run; clean_done.
  pose proof (Hfit _ _ Hb) as Hn.
  destruct (decide (update_bounds_as_coded offset length
                      (Z.of_nat (List.length b)))) as [Hin|Hout].
  - assert (((0 <=? offset) && (0 <=? length)
             && (offset + length <=? Z.of_nat (List.length b)))%Z = true)
      as Hread.
    { unfold update_bounds_as_coded in Hin.
      rewrite !andb_true_iff, !Z.leb_le. lia. }
    destruct t; run_bounds; clean_done.
  - destruct t; run_bounds; clean_done.
Qed.

Lemma read_all_ok (s : list Byte.byte) :
  ((0 <=? 0) && (0 <=? Z.of_nat (length s))
   && (0 + Z.of_nat (length s) <=? Z.of_nat (length s)))%Z = true.
Proof. rewrite !andb_true_iff, !Z.leb_le. lia. Qed.

Lemma engineSignNative_total a this w :
  proxy_well_formed this (heap w) ->
  (forall p r, holds_proxy this (heap w) p r -> type r = SGN_CONTEXT) ->
  ensures (Java_org_mozilla_jss_pkcs11_PK11Signature_engineSignNative a this w)
    (fun _ w' => leaves_released w w').
Proof.
  intros Hwf Hkind.
  destruct w as [h ja pe er ca vi], this as [k al dl [[[p|]]|]],
    a as [[a1 a2] [s|] a4].
  all: unfold leaves_released, proxy_well_formed, holds_proxy in *;
    simpl in *.
  3-6: run_any; clean_done.
  all: destruct (Hwf p eq_refl) as ([[c|] t ar] & Hp & Hlive);
    simpl in Hlive;
    [ destruct Hlive as (cc & Hcc & Hk);
      specialize (Hkind p _ (conj eq_refl Hp)); simpl in Hkind; subst t
    | ].
  all: try pose proof (read_all_ok s) as Hread.
  all: run; clean_done.
Qed.

Lemma engineVerifyNative_total a this sigArray w :
  proxy_well_formed this (heap w) ->
  ensures (Java_org_mozilla_jss_pkcs11_PK11Signature_engineVerifyNative
             a this sigArray w)
    (fun _ w' => leaves_released w w').
Proof.
  intros Hwf.
  destruct w as [h ja pe er ca vi], this as [k al dl [[[p|]]|]],
    a as [[a1 a2] a3 a4].
  all: unfold leaves_released, proxy_well_formed in *; simpl in *.
  2,3: run_any; clean_done.
  destruct (Hwf p eq_refl) as ([[c|] t ar] & Hp & Hlive); simpl in Hlive.
  2: run; clean_done.
  destruct Hlive as (cc & Hcc & Hk).
  destruct (ja !! sigArray) as [b|] eqn:Hb.
  2: destruct t; run; clean_done.
  pose proof (read_all_ok b) as Hread.
  destruct t; run; clean_done.
Qed.

(** ** Reading a whole buffer *)

Lemma read_all_eq (s : list Byte.byte) :
  take (Z.to_nat (Z.of_nat (length s))) (drop (Z.to_nat 0) s) = s.
Proof. rewrite Nat2Z.id. simpl. apply firstn_all. Qed.

(** ** A PK11Signature without a context *)

Lemma getSigContext_missing this w e :
  context_missing this (heap w) e ->
  ensures (getSigContext sigctx_ok this w)
    (fun r w' => r = None /\ only_raised [e] [] w w').
Proof.
  destruct w as [h ja pe er ca vi], this as [k al dl sc].
  unfold context_missing, holds_proxy, only_raised, cleared, sigctx_ok.
  simpl.
  intros [[-> ->]|[[-> ->]|(p & [cx t ar] & [-> Hp] & Hc & ->)]].
  all: simpl in *; subst; run.
  all: rewrite ?app_nil_r; auto.
Qed.

Lemma engineUpdateNative_missing a this bArray offset length w e :
  ans_upd_ctx a = sigctx_ok ->
  context_missing this (heap w) e ->
  ensures (Java_org_mozilla_jss_pkcs11_PK11Signature_engineUpdateNative
             a this bArray offset length w)
    (fun _ w' =>
       only_raised [e] [call_JSS_DerefByteArray bArray None JNI_ABORT] w w').
Proof.
  destruct w as [h ja pe er ca vi], this as [k al dl sc], a as [actx a2 a3].
  unfold context_missing, holds_proxy, only_raised, cleared, sigctx_ok.
  simpl.
  intros -> [[-> ->]|[[-> ->]|(p & [cx t ar] & [-> Hp] & Hc & ->)]].
  all: simpl in *; subst; run.
  all: rewrite ?app_nil_r; auto.
Qed.

Lemma engineSignNative_missing a this w e :
  ans_sign_ctx a = sigctx_ok ->
  context_missing this (heap w) e ->
  ensures (Java_org_mozilla_jss_pkcs11_PK11Signature_engineSignNative a this w)
    (fun r w' => r = None /\ only_raised [e] [] w w').
Proof.
  destruct w as [h ja pe er ca vi], this as [k al dl sc], a as [actx a2 a3].
  unfold context_missing, holds_proxy, only_raised, cleared, sigctx_ok.
  simpl.
  intros -> [[-> ->]|[[-> ->]|(p & [cx t ar] & [-> Hp] & Hc & ->)]].
  all: simpl in *; subst; run.
  all: rewrite ?app_nil_r; auto.
Qed.

Lemma engineVerifyNative_missing a this sigArray w e :
  ans_vfy_ctx a = sigctx_ok ->
  context_missing this (heap w) e ->
  ensures (Java_org_mozilla_jss_pkcs11_PK11Signature_engineVerifyNative
             a this sigArray w)
    (fun verified w' =>
       verified = false /\
       only_raised
         [e; (SIGNATURE_EXCEPTION,
              Some "Unable to retrieve verification context")]
         [call_JSS_DerefByteArray sigArray None JNI_ABORT] w w').
Proof.
  destruct w as [h ja pe er ca vi], this as [k al dl sc], a as [actx a2 a3].
  unfold context_missing, holds_proxy, only_raised, cleared, sigctx_ok.
  simpl.
  intros -> [[-> ->]|[[-> ->]|(p & [cx t ar] & [-> Hp] & Hc & ->)]].
  all: simpl in *; subst; run.
  all: rewrite <- ?app_assoc; simpl; auto.
Qed.

(** ** The factories when nothing fails *)

Lemma initSigContext_success this w k tag :
  key this = Some {| keyPointer := Some k |} ->
  algorithm this = Some {| oidTag := tag |} ->
  ensures (Java_org_mozilla_jss_pkcs11_PK11Signature_initSigContext
             initSig_ok this w)
    (factory_made
       (signing_cells tag (digest_of this) k (length (heap w))) this w).
Proof.
  destruct w as [h ja pe er ca vi], this as [ky al dl sc].
  simpl. intros -> ->.
  unfold factory_made, signing_cells, digest_of, pss_arena, initSig_ok,
    key_ok, pss_ok, resolver_ok, wrap_ok.
  assert (SECOidTag_eqb SEC_OID_UNKNOWN SEC_OID_PKCS1_RSA_PSS_SIGNATURE
          = false) as E0 by reflexivity.
  assert (SECOidTag_eqb SEC_OID_PKCS1_RSA_PSS_SIGNATURE
            SEC_OID_PKCS1_RSA_PSS_SIGNATURE = true) as E1 by reflexivity.
  destruct tag as [| |n]; destruct dl as [[d]|]; simpl.
  all: try assert (SECOidTag_eqb (SEC_OID_other n)
                     SEC_OID_PKCS1_RSA_PSS_SIGNATURE = false) as E2
         by reflexivity.
  all: run.
  all: simpl; repeat split; try reflexivity.
  all: repeat (f_equal; try lia).
Qed.

Lemma initVfyContext_success this w k bits tag :
  key this = Some {| keyPointer := Some k |} ->
  algorithm this = Some {| oidTag := tag |} ->
  heap w !! k = Some (c_public_key bits) ->
  ensures (Java_org_mozilla_jss_pkcs11_PK11Signature_initVfyContext
             initVfy_ok this w)
    (factory_made
       (verifying_cells tag (digest_of this) k (length (heap w))) this w).
Proof.
  destruct w as [h ja pe er ca vi], this as [ky al dl sc].
  simpl. intros -> -> Hk.
  unfold factory_made, verifying_cells, digest_of, pss_arena, initVfy_ok,
    key_ok, pss_ok, resolver_ok, wrap_ok.
  assert (SECOidTag_eqb SEC_OID_UNKNOWN SEC_OID_PKCS1_RSA_PSS_SIGNATURE
          = false) as E0 by reflexivity.
  assert (SECOidTag_eqb SEC_OID_PKCS1_RSA_PSS_SIGNATURE
            SEC_OID_PKCS1_RSA_PSS_SIGNATURE = true) as E1 by reflexivity.
  destruct tag as [| |n]; destruct dl as [[d]|]; simpl.
  all: try assert (SECOidTag_eqb (SEC_OID_other n)
                     SEC_OID_PKCS1_RSA_PSS_SIGNATURE = false) as E2
         by reflexivity.
  all: run.
  all: simpl; repeat split; try reflexivity.
  all: repeat (f_equal; try lia).
Qed.

(** ** Sessions *)








Lemma released_length q (h : list cell) : length (released q h) = length h.
Proof. destruct q; simpl; [apply length_insert | done]. Qed.


Lemma live_as_lt kind l (h : list cell) :
  live_as kind (Some l) h -> l < length h.
Proof. intros (c & Hc & _). eapply lookup_lt_Some; eauto. Qed.









(** ** The exceptions the factories raise *)

Lemma getSomeKey_outcome a sig t w :
  ensures (getSomeKey a sig t w) (key_outcome a sig w).
Proof.
  destruct w as [h ja pe er ca vi], sig as [[[[l|]]|] al dl sc],
    a as [a1 a2], t.
  all: unfold key_outcome, native_same; run.
  all: simpl; repeat split; eauto.
  all: eexists; split; [reflexivity|]; try done.
Qed.

Lemma getAlgorithm_pending a sig w :
  ensures (getAlgorithm a sig w)
    (fun _ w' => native_same w w' /\
                 exists es, pending w' = pending w ++ es).
Proof.
  destruct w as [h ja pe er ca vi], sig as [k [[tag]|] dl sc],
    a as [a1 a2 a3].
  all: unfold native_same; run.
  all: simpl; repeat split;
    first [ eexists; reflexivity | exists []; by rewrite app_nil_r ].
Qed.

Lemma setSigContext_outcome a sig context w :
  ensures (setSigContext a sig context w)
    (fun sig' w' =>
       native_same w w' /\
       (sig' = set_sigContext context sig /\ pending w' = pending w \/
        sig' = sig /\ a <> jni_ok /\ pending w' = [])).
Proof.
  destruct w as [h ja pe er ca vi], a as [|t].
  all: unfold native_same; run.
  all: simpl; repeat split; auto.
Qed.

Lemma ensures_and {A} (r : result A) (P Q : A -> world -> Prop) :
  ensures r P -> ensures r Q -> ensures r (fun a w => P a w /\ Q a w).
Proof. destruct r; simpl; auto. Qed.

Ltac raised_done :=
  simpl; rewrite <- ?app_assoc; simpl;
  first [ do 2 eexists; reflexivity | eexists; reflexivity
        | exists []; by rewrite app_nil_r ].

Ltac wrap_calls_done :=
  eexists; split; [reflexivity|]; repeat (constructor; simpl; try exact I).

Lemma wrap_raises a c t (ar : option ptr) w :
  live_as (context_kind t) (Some c) (heap w) ->
  live_as is_arena (default None ar) (heap w) ->
  ensures (JSS_PK11_wrapSigContextProxy a (Some c) t ar w)
    (fun r w' =>
       match fst (fst r) with
       | Some {| mPointer := Some _ |} =>
           exists es, pending w' = pending w ++ es
       | _ => exists e es, pending w' = pending w ++ e :: es
       end /\
       exists new, calls w' = calls w ++ new /\ Forall wrap_call new).
Proof.
  destruct w as [h ja pe er ca vi]. simpl.
  intros (cc & Hc & Hk) Ha.
  destruct a as [m b f g n]. simpl.
  destruct ar as [[ar|]|]; simpl in Ha.
  - destruct Ha as (ac & Ha & Hka).
    assert (ar <> c) as Hne by eauto using kinds_apart.
    assert (<[c := c_freed]> h !! ar = Some ac) as Ha'
      by (by rewrite list_lookup_insert_ne by congruence).
    destruct t; run; (split; [raised_done | wrap_calls_done]).
  - destruct t; run; (split; [raised_done | wrap_calls_done]).
  - destruct t; run; (split; [raised_done | wrap_calls_done]).
Qed.

(** The calls of the factories, by their specifications with the
    exceptions raised. *)
Ltac raising_spec x :=
  lazymatch x with
  | getAlgorithm ?a ?s ?w => apply_spec (getAlgorithm_pending a s w)
  | getDigestAlgorithm ?a ?s ?w =>
      match goal with
      | H : digest_resolves a s _ _ |- _ => apply_spec (H w)
      end
  | getSomeKey ?a ?s ?t ?w =>
      apply_spec (getSomeKey_outcome a s t w); unfold key_outcome in *
  | setSigContext ?a ?s ?c ?w => apply_spec (setSigContext_outcome a s c w)
  | getRSAPSSParamsAndSigningAlg ?a ?t (Some ?ar) (Some ?alg0) ?k ?w =>
      let H := fresh in
      eassert (heap w !! ar = Some (c_arena _)) as H
        by (simpl; hnorm; reflexivity);
      apply_spec (pss_spec a t ar _ alg0 k w H); clear H
  | JSS_PK11_wrapSigContextProxy ?a (Some ?c) ?t ?ar ?w =>
      let H1 := fresh in
      let H2 := fresh in
      assert (live_as (context_kind t) (Some c) (heap w)) as H1
        by live_cell;
      assert (live_as is_arena (default None ar) (heap w)) as H2
        by live_cell;
      apply_spec (ensures_and _ _ _ (wrap_spec a c t ar w H1 H2)
                    (wrap_raises a c t ar w H1 H2));
      clear H1 H2
  end.

Ltac run_raising :=
  repeat run1_with mcbv_calls raising_spec; mcbv_calls; hnorm.

Lemma raised_some {A} (pe l : list A) :
  l <> [] -> exists e es, pe ++ l = pe ++ e :: es.
Proof. destruct l as [|e es]; [done|]. by exists e, es. Qed.

Ltac outcome_done :=
  unfold factory_outcome, cleared; simpl in *; tidy_spec;
  rewrite ?length_app; simpl; hnorm;
  first [ left; do 2 eexists; split; [reflexivity|];
          split; [lia | hnorm; reflexivity]
        | right; left;
          split; [first [left; reflexivity | right; reflexivity]|];
          apply raised_some;
          let H := fresh in
          intros H; apply (f_equal length) in H;
          rewrite ?length_app in H; simpl in H; lia
        | right; right; split; [reflexivity|]; split; [assumption|];
          reflexivity ].

Lemma initSigContext_outcome a this w :
  ensures (Java_org_mozilla_jss_pkcs11_PK11Signature_initSigContext a this w)
          (factory_outcome (ans_sig_set a) this w).
Proof.
  destruct w as [h ja pe er ca vi].
  destruct a as [ka aa na [z d c s] nc nb [m b f g n] sa].
  destruct (getDigestAlgorithm_value d this) as (digest & raised & Hd).
  run_raising.
  all: outcome_done.
Qed.

Lemma initVfyContext_outcome a this w :
  holds_public_key this (heap w) ->
  ensures (Java_org_mozilla_jss_pkcs11_PK11Signature_initVfyContext a this w)
          (factory_outcome (ans_vfy_set a) this w).
Proof.
  destruct w as [h ja pe er ca vi]. simpl. intros Hkey.
  destruct a as [ka aa ck na [z d c s] d2 nc nb [m b f g n] sa].
  destruct (getDigestAlgorithm_value d this) as (digest & raised & Hd).
  destruct (getDigestAlgorithm_value d2 this) as (digest2 & raised2 & Hd2).
  destruct this as [[[[l|]]|] al dl sc];
    try (destruct (Hkey l eq_refl) as (bits & Hl)); clear Hkey;
    run_raising.
  all: outcome_done.
Qed.

(** ** The calls made for RSA-PSS alone *)

Lemma getAlgorithm_outcome a sig w :
  ensures (getAlgorithm a sig w)
    (fun tag w' =>
       native_same w w' /\
       (exists es, pending w' = pending w ++ es) /\
       (tag = SEC_OID_UNKNOWN \/
        exists alg, algorithm sig = Some alg /\ tag = oidTag alg)).
Proof.
  destruct w as [h ja pe er ca vi], sig as [k [[tag]|] dl sc],
    a as [a1 a2 a3].
  all: unfold native_same; run.
  all: simpl; repeat split;
    first [ eexists; reflexivity | exists []; by rewrite app_nil_r
          | by left | right; by eexists ].
Qed.

Lemma SECOidTag_eqb_eq a b : SECOidTag_eqb a b = true -> a = b.
Proof.
  destruct a, b; simpl; try discriminate; try reflexivity.
  intros H. apply Pos.eqb_eq in H. by subst.
Qed.

Ltac valued_spec x :=
  lazymatch x with
  | getAlgorithm ?a ?s ?w => apply_spec (getAlgorithm_outcome a s w)
  | _ => raising_spec x
  end.

Ltac run_valued :=
  repeat run1_with mcbv_calls valued_spec; mcbv_calls; hnorm.

Lemma wrap_call_not_pss c : wrap_call c -> ~ pss_only_call c.
Proof. destruct c; simpl; tauto. Qed.

Ltac without_pss_done :=
  unfold without_pss; simpl;
  first [ exists []; split; [by rewrite app_nil_r | constructor]
        | eexists; split; [reflexivity|];
          repeat first
            [ apply Forall_nil_2
            | apply Forall_cons; split; [simpl; tauto|]
            | apply Forall_app; split
            | eapply Forall_impl;
                [eassumption | apply wrap_call_not_pss] ] ].

Lemma initSigContext_without_pss a this w :
  not_pss this ->
  ensures (Java_org_mozilla_jss_pkcs11_PK11Signature_initSigContext a this w)
          (fun _ w' => without_pss w w').
Proof.
  destruct w as [h ja pe er ca vi]. intros Hn.
  destruct a as [ka aa na [z d c s] nc nb [m b f g n] sa].
  destruct this as [ky [[tag]|] dl sc].
  - assert (SECOidTag_eqb tag SEC_OID_PKCS1_RSA_PSS_SIGNATURE = false) as E.
    { apply not_true_is_false. intros E. apply SECOidTag_eqb_eq in E.
      by apply (Hn _ eq_refl). }
    assert (SECOidTag_eqb SEC_OID_UNKNOWN SEC_OID_PKCS1_RSA_PSS_SIGNATURE
            = false) as E0 by reflexivity.
    clear Hn. run_valued. all: without_pss_done.
  - assert (SECOidTag_eqb SEC_OID_UNKNOWN SEC_OID_PKCS1_RSA_PSS_SIGNATURE
            = false) as E0 by reflexivity.
    clear Hn. run_valued. all: without_pss_done.
Qed.

Lemma initVfyContext_without_pss a this w :
  not_pss this ->
  ensures (Java_org_mozilla_jss_pkcs11_PK11Signature_initVfyContext a this w)
          (fun _ w' => without_pss w w').
Proof.
  destruct w as [h ja pe er ca vi]. intros Hn.
  destruct a as [ka aa ck na [z d c s] d2 nc nb [m b f g n] sa].
  destruct this as [ky [[tag]|] dl sc].
  - assert (SECOidTag_eqb tag SEC_OID_PKCS1_RSA_PSS_SIGNATURE = false) as E.
    { apply not_true_is_false. intros E. apply SECOidTag_eqb_eq in E.
      by apply (Hn _ eq_refl). }
    assert (SECOidTag_eqb SEC_OID_UNKNOWN SEC_OID_PKCS1_RSA_PSS_SIGNATURE
            = false) as E0 by reflexivity.
    clear Hn. run_valued. all: without_pss_done.
  - assert (SECOidTag_eqb SEC_OID_UNKNOWN SEC_OID_PKCS1_RSA_PSS_SIGNATURE
            = false) as E0 by reflexivity.
    clear Hn. run_valued. all: without_pss_done.
Qed.

(** ** An algorithm that cannot be resolved *)

Lemma getAlgorithm_unresolved a sig w :
  algorithm_unresolved a sig ->
  ensures (getAlgorithm a sig w)
    (fun tag w' => tag = SEC_OID_UNKNOWN /\ native_same w w').
Proof.
  destruct w as [h ja pe er ca vi], sig as [k [[tag]|] dl sc],
    a as [[|t1] [|t2] [|t3]].
  all: unfold algorithm_unresolved, native_same; simpl.
  all: intros Hu; run; try done.
  destruct Hu as [?|[?|[?|?]]]; done.
Qed.

Ltac unresolved_spec x :=
  lazymatch x with
  | getAlgorithm ?a ?s ?w =>
      match goal with
      | H : algorithm_unresolved a s |- _ =>
          apply_spec (getAlgorithm_unresolved a s w H)
      end
  | _ => raising_spec x
  end.

Ltac run_unresolved :=
  repeat run1_with mcbv_calls unresolved_spec; mcbv_calls; hnorm.

Ltac first_call_done :=
  unfold first_call; simpl; do 2 eexists;
  rewrite <- ?app_assoc; simpl; reflexivity.

Lemma getSomeKey_ok sig t w k :
  key sig = Some {| keyPointer := Some k |} ->
  getSomeKey key_ok sig t w = Ok (PR_SUCCESS, Some k) w.
Proof.
  destruct w as [h ja pe er ca vi], sig as [ky al dl sc], t.
  all: simpl; intros ->; unfold key_ok; by run.
Qed.

Lemma initSigContext_unresolved a this w k :
  ans_sig_key a = key_ok ->
  key this = Some {| keyPointer := Some k |} ->
  algorithm_unresolved (ans_sig_alg a) this ->
  ensures (Java_org_mozilla_jss_pkcs11_PK11Signature_initSigContext a this w)
    (fun _ w' =>
       first_call (call_SGN_NewContext SEC_OID_UNKNOWN (Some k)) w w').
Proof.
  destruct w as [h ja pe er ca vi].
  destruct a as [ka aa na [z d c s] nc nb [m b f g n] sa].
  simpl. intros -> Hk Hu.
  assert (SECOidTag_eqb SEC_OID_UNKNOWN SEC_OID_PKCS1_RSA_PSS_SIGNATURE
          = false) as E0 by reflexivity.
  pose proof (getSomeKey_ok this PRIVATEKEYTYPE (World h ja pe er ca vi) k Hk)
    as Hkey.
  run_unresolved.
  all: first_call_done.
Qed.

Lemma initVfyContext_unresolved a this w k :
  ans_vfy_key a = key_ok ->
  key this = Some {| keyPointer := Some k |} ->
  algorithm_unresolved (ans_vfy_alg a) this ->
  ensures (Java_org_mozilla_jss_pkcs11_PK11Signature_initVfyContext a this w)
    (fun _ w' =>
       first_call (call_VFY_CreateContext (Some k) SEC_OID_UNKNOWN) w w').
Proof.
  destruct w as [h ja pe er ca vi].
  destruct a as [ka aa ck na [z d c s] d2 nc nb [m b f g n] sa].
  simpl. intros -> Hk Hu.
  assert (SECOidTag_eqb SEC_OID_UNKNOWN SEC_OID_PKCS1_RSA_PSS_SIGNATURE
          = false) as E0 by reflexivity.
  pose proof (getSomeKey_ok this PUBLICKEYTYPE (World h ja pe er ca vi) k Hk)
    as Hkey.
  run_unresolved.
  all: first_call_done.
Qed.

(** ** After release *)

Lemma released_record this w p :
  sigContext this = Some {| mPointer := Some p |} ->
  heap w !! p = Some c_freed ->
  reads_released this p w.
Proof.
  destruct w as [h ja pe er ca vi], this as [k al dl sc].
  simpl. intros -> Hp. unfold reads_released. repeat split.
  - intros [actx a2 a3] bArray offset length. simpl. intros ->.
    unfold sigctx_ok. by run.
  - intros [actx a2 a3]. simpl. intros ->. unfold sigctx_ok. by run.
  - intros [actx a2 a3] sigArray. simpl. intros ->.
    unfold sigctx_ok. by run.
Qed.

(** ** The calls of release *)

Lemma release_calls this w p r :
  mPointer this = Some p ->
  heap w !! p = Some (c_proxy r) ->
  live_as (context_kind (type r)) (ctxt r) (heap w) ->
  live_as is_arena (arena r) (heap w) ->
  ensures (release jni_ok this w)
    (fun _ w' =>
       calls w' = calls w ++ [destroy_call (type r) (ctxt r);
                              call_PORT_FreeArena (arena r);
                              call_PR_Free (Some p)]).
Proof.
  destruct w as [h ja pe er ca vi], this as [mp], r as [cx t ar].
  simpl. intros -> Hp Hc Ha. unfold release.
  destruct cx as [c|], ar as [a|]; simpl in Hc, Ha;
    try destruct Hc as (cc & Hcc & Hkc); try destruct Ha as (ac & Hac & Hka);
    try assert (a <> c) as Hne by (destruct t; eauto using kinds_apart);
    try assert (c <> p) as Hcp
      by (eapply proxy_apart; [exact Hp|exact Hcc|exact Hkc|by destruct t]);
    try assert (a <> p) as Hap
      by (eapply proxy_apart; [exact Hp|exact Hac|exact Hka|done]).
  all: destruct t; run_inserts.
  all: reflexivity.
Qed.

(** ** setSigContext without the field *)

Lemma initSigContext_set_fails t this w k tag :
  key this = Some {| keyPointer := Some k |} ->
  algorithm this = Some {| oidTag := tag |} ->
  ensures (Java_org_mozilla_jss_pkcs11_PK11Signature_initSigContext
             (initSig_set_fails t) this w)
    (made_and_dropped
       (signing_cells tag (digest_of this) k (length (heap w))) this w).
Proof.
  destruct w as [h ja pe er ca vi], this as [ky al dl sc].
  simpl. intros -> ->.
  unfold made_and_dropped, signing_cells, digest_of, pss_arena,
    initSig_set_fails, key_ok, pss_ok, resolver_ok, wrap_ok.
  assert (SECOidTag_eqb SEC_OID_UNKNOWN SEC_OID_PKCS1_RSA_PSS_SIGNATURE
          = false) as E0 by reflexivity.
  assert (SECOidTag_eqb SEC_OID_PKCS1_RSA_PSS_SIGNATURE
            SEC_OID_PKCS1_RSA_PSS_SIGNATURE = true) as E1 by reflexivity.
  destruct tag as [| |n]; destruct dl as [[d]|]; simpl.
  all: try assert (SECOidTag_eqb (SEC_OID_other n)
                     SEC_OID_PKCS1_RSA_PSS_SIGNATURE = false) as E2
         by reflexivity.
  all: run.
  all: simpl; repeat split; reflexivity.
Qed.

Lemma initVfyContext_set_fails t this w k bits tag :
  key this = Some {| keyPointer := Some k |} ->
  algorithm this = Some {| oidTag := tag |} ->
  heap w !! k = Some (c_public_key bits) ->
  ensures (Java_org_mozilla_jss_pkcs11_PK11Signature_initVfyContext
             (initVfy_set_fails t) this w)
    (made_and_dropped
       (verifying_cells tag (digest_of this) k (length (heap w))) this w).
Proof.
  destruct w as [h ja pe er ca vi], this as [ky al dl sc].
  simpl. intros -> -> Hk.
  unfold made_and_dropped, verifying_cells, digest_of, pss_arena,
    initVfy_set_fails, key_ok, pss_ok, resolver_ok, wrap_ok.
  assert (SECOidTag_eqb SEC_OID_UNKNOWN SEC_OID_PKCS1_RSA_PSS_SIGNATURE
          = false) as E0 by reflexivity.
  assert (SECOidTag_eqb SEC_OID_PKCS1_RSA_PSS_SIGNATURE
            SEC_OID_PKCS1_RSA_PSS_SIGNATURE = true) as E1 by reflexivity.
  destruct tag as [| |n]; destruct dl as [[d]|]; simpl.
  all: try assert (SECOidTag_eqb (SEC_OID_other n)
                     SEC_OID_PKCS1_RSA_PSS_SIGNATURE = false) as E2
         by reflexivity.
  all: run.
  all: simpl; repeat split; reflexivity.
Qed.

(** * Further properties of the bridge *)

(** ** Reading the context of a PK11Signature *)

(** X1: whatever the JVM answers and whatever the heap holds, getSigContext
    changes nothing native.  When it succeeds, the world is as it was and
    the context and the kind returned are those of the proxy record the
    PK11Signature refers to, the context being non-NULL.  When it fails,
    exactly one exception has been raised.  It stops at a fault only when
    the reference stored in the proxy does not point to a proxy record. *)
Theorem getSigContext_outcomes a sig w :
  getSigContext_post sig w (getSigContext a sig w).
Proof.
  destruct w as [h ja pe er ca vi], sig as [k al dl [[[p|]]|]],
    a as [a1 a2].
  all: unfold getSigContext_post, native_same; run_any.
  all: repeat match goal with
              | |- _ /\ _ => split
              | |- exists _, _ => eexists
              end; try reflexivity; try eassumption; try congruence.
  all: reflexivity.
Qed.

(** X2: when the PK11Signature has no context (its sigContext field is
    null, or its proxy stores no reference, or the record has a NULL
    context), getSigContext fails with TokenException in the first case and
    SignatureException in the other two; engineUpdateNative returns having
    raised that exception and borrowed no array; engineSignNative returns
    null having raised it; engineVerifyNative returns false having raised
    it and, on top of it, SignatureException("Unable to retrieve
    verification context").  None of them touches the heap or calls the
    library. *)
Theorem entry_points_without_context this w e :
  context_missing this (heap w) e ->
  ensures (getSigContext sigctx_ok this w)
    (fun r w' => r = None /\ only_raised [e] [] w w') /\
  (forall a bArray offset length,
     ans_upd_ctx a = sigctx_ok ->
     ensures (Java_org_mozilla_jss_pkcs11_PK11Signature_engineUpdateNative
                a this bArray offset length w)
       (fun _ w' =>
          only_raised [e] [call_JSS_DerefByteArray bArray None JNI_ABORT]
            w w')) /\
  (forall a,
     ans_sign_ctx a = sigctx_ok ->
     ensures (Java_org_mozilla_jss_pkcs11_PK11Signature_engineSignNative
                a this w)
       (fun r w' => r = None /\ only_raised [e] [] w w')) /\
  (forall a sigArray,
     ans_vfy_ctx a = sigctx_ok ->
     ensures (Java_org_mozilla_jss_pkcs11_PK11Signature_engineVerifyNative
                a this sigArray w)
       (fun verified w' =>
          verified = false /\
          only_raised
            [e; (SIGNATURE_EXCEPTION,
                 Some "Unable to retrieve verification context")]
            [call_JSS_DerefByteArray sigArray None JNI_ABORT] w w')).
Proof.
  intros Hm. split; [by apply getSigContext_missing|].
  split; [|split].
  - intros a bArray offset length Ha. by apply engineUpdateNative_missing.
  - intros a Ha. by apply engineSignNative_missing.
  - intros a sigArray Ha. by apply engineVerifyNative_missing.
Qed.

Lemma entry_points_without_context_witness :
  context_missing example_fresh_signature (heap example_world)
    (TOKEN_EXCEPTION, None) /\
  ensures (Java_org_mozilla_jss_pkcs11_PK11Signature_engineVerifyNative
             verify_answers_bad_signature example_fresh_signature 0
             example_world)
    (fun verified w' =>
       verified = false /\
       pending w' =
         [(TOKEN_EXCEPTION, None);
          (SIGNATURE_EXCEPTION,
           Some "Unable to retrieve verification context")]).
Proof.
  assert (context_missing example_fresh_signature (heap example_world)
            (TOKEN_EXCEPTION, None)) as H
    by (left; split; reflexivity).
  split; [exact H|].
  destruct (entry_points_without_context example_fresh_signature
              example_world _ H) as (_ & _ & _ & Hv).
  eapply ensures_impl; [exact (Hv verify_answers_bad_signature 0 eq_refl)|].
  intros v w' (Hf & _ & _ & Hp & _). split; [exact Hf | exact Hp].
Defined.

(** ** The streaming engine *)

(** X3: on a PK11Signature whose proxy, if it has one, refers to a live
    record with a NULL or live context of the record's kind, and whatever
    the JVM and the library answer, engineUpdateNative (given jint
    arguments whose sum, where the bounds test computes it, fits in a
    jint, and arrays a jint can measure), engineSignNative (the record
    being of the signing kind) and engineVerifyNative return, and the heap
    they leave is the one they found followed by released cells: every
    buffer they borrowed or were handed is released, on every path, and
    neither the context nor the proxy record is released by them. *)
Theorem engine_returns_and_releases :
  (forall a this bArray offset length w,
     is_jint offset -> is_jint length -> sum_fits offset length ->
     arrays_fit w -> proxy_well_formed this (heap w) ->
     ensures (Java_org_mozilla_jss_pkcs11_PK11Signature_engineUpdateNative
                a this bArray offset length w)
       (fun _ w' => leaves_released w w')) /\
  (forall a this w,
     proxy_well_formed this (heap w) ->
     (forall p r, holds_proxy this (heap w) p r -> type r = SGN_CONTEXT) ->
     ensures (Java_org_mozilla_jss_pkcs11_PK11Signature_engineSignNative
                a this w)
       (fun _ w' => leaves_released w w')) /\
  (forall a this sigArray w,
     proxy_well_formed this (heap w) ->
     ensures (Java_org_mozilla_jss_pkcs11_PK11Signature_engineVerifyNative
                a this sigArray w)
       (fun _ w' => leaves_released w w')).
Proof.
  split; [|split].
  - intros. by apply engineUpdateNative_total.
  - intros. by apply engineSignNative_total.
  - intros. by apply engineVerifyNative_total.
Qed.

Lemma engine_returns_and_releases_witness :
  proxy_well_formed example_signature (heap example_world) /\
  ensures (Java_org_mozilla_jss_pkcs11_PK11Signature_engineSignNative
             sign_answers_ok example_signature example_world)
    (fun _ w' => leaves_released example_world w').
Proof.
  assert (proxy_well_formed example_signature (heap example_world)) as H.
  { intros p [= <-]. eexists. split; [reflexivity|].
    simpl. eexists. split; reflexivity. }
  split; [exact H|].
  apply (proj1 (proj2 engine_returns_and_releases) sign_answers_ok
           example_signature example_world H).
  intros p r [[= <-] [= <-]]. reflexivity.
Defined.

(** X4: on a live context, with the array borrowed and arguments whose
    sum, where the bounds test computes it, fits in a jint,
    engineUpdateNative makes exactly these calls: it borrows the array,
    feeds the context, by SGN_Update or VFY_Update according to its kind,
    the [length] bytes of the array from [offset] on, and gives the buffer
    back in JNI_ABORT mode; it raises SignatureException("update failed")
    when the library refuses them and nothing otherwise.  When the bounds
    test rejects the arguments the context is not fed at all: the array is
    borrowed and given back, and ArrayIndexOutOfBoundsException is raised.
    In both cases the one cell added to the heap, the buffer, is
    released. *)
Theorem update_feeds_the_slice a this bArray b offset length w p r c :
  is_jint offset -> is_jint length -> sum_fits offset length ->
  (Z.of_nat (List.length b) <= jint_max)%Z ->
  update_ok a ->
  holds_proxy this (heap w) p r -> ctxt r = Some c ->
  live_as (context_kind (type r)) (Some c) (heap w) ->
  jarrays w !! bArray = Some b ->
  ensures (Java_org_mozilla_jss_pkcs11_PK11Signature_engineUpdateNative
             a this bArray offset length w)
    (fun _ w' => update_post a bArray b offset length (type r) c w w').
Proof.
  intros Ho Hl Hf Hb [Hctx Href] [Hs Hp] Hc Hlive Harr.
  destruct a as [actx aref aupd]. simpl in *. subst actx aref.
  destruct w as [h ja pe er ca vi], this as [k al dl sc], r as [cx t ar].
  simpl in *. subst sc cx.
  destruct Hlive as (cc & Hcc & Hk).
  unfold update_post.
  destruct (decide (update_bounds_as_coded offset length
                      (Z.of_nat (List.length b)))) as [Hin|Hout].
  - assert (((0 <=? offset) && (0 <=? length)
             && (offset + length <=? Z.of_nat (List.length b)))%Z = true)
      as Hread.
    { unfold update_bounds_as_coded in Hin.
      rewrite !andb_true_iff, !Z.leb_le. lia. }
    unfold sigctx_ok. destruct t; run_bounds.
    all: simpl; rewrite ?app_nil_r; auto.
  - unfold sigctx_ok. destruct t; run_bounds.
    all: auto.
Qed.

Lemma update_feeds_the_slice_witness :
  jarrays example_world !! 0 = Some [Byte.x00] /\
  ensures (Java_org_mozilla_jss_pkcs11_PK11Signature_engineUpdateNative
             update_answers_ok example_signature 0 0 1 example_world)
    (fun _ w' =>
       calls w' = [call_JSS_RefByteArray 0 (Some 2);
                   call_SGN_Update (Some 0) [Byte.x00] SECSuccess;
                   call_JSS_DerefByteArray 0 (Some 2) JNI_ABORT]).
Proof.
  split; [reflexivity|].
  assert (is_jint 0 /\ is_jint 1) as [H0 H1]
    by (unfold is_jint, jint_min, jint_max; lia).
  eapply ensures_impl.
  - apply (update_feeds_the_slice update_answers_ok example_signature 0
             [Byte.x00] 0 1 example_world 1
             {| ctxt := Some 0; type := SGN_CONTEXT; arena := None |} 0).
    + exact H0.
    + exact H1.
    + unfold sum_fits, jint_max. lia.
    + unfold jint_max. simpl. lia.
    + split; reflexivity.
    + split; reflexivity.
    + reflexivity.
    + simpl. eexists. split; reflexivity.
    + reflexivity.
  - intros ? w' (_ & Hpost). revert Hpost.
    destruct (decide (update_bounds_as_coded 0 1
                        (Z.of_nat (List.length [Byte.x00])))) as [_|Hn].
    + intros [Hc _]. exact Hc.
    + exfalso. apply Hn. unfold update_bounds_as_coded. simpl. lia.
Defined.

(** X5: on a live signing context engineSignNative calls SGN_End once.
    When the library produces a signature, the result is a new byte array
    with exactly its bytes, or null with the JVM's exception pending when
    the array cannot be made, and in both cases the library's buffer is
    freed with PR_Free.  When SGN_End fails, the result is null,
    SignatureException("Signing operation failed") is raised and nothing
    is freed.  The context and the proxy record stay as they were. *)
Theorem sign_returns_the_signature a this w p r c :
  ans_sign_ctx a = sigctx_ok ->
  holds_proxy this (heap w) p r -> ctxt r = Some c -> type r = SGN_CONTEXT ->
  live_as is_SGNContext (Some c) (heap w) ->
  ensures (Java_org_mozilla_jss_pkcs11_PK11Signature_engineSignNative a this w)
          (sign_post a c w).
Proof.
  intros Hctx [Hs Hp] Hc Ht (cc & Hcc & Hk).
  destruct a as [actx [s|] aba]. all: simpl in *; subst actx.
  all: destruct w as [h ja pe er ca vi], this as [k al dl sc],
         r as [cx t ar].
  all: simpl in *; subst sc t cx.
  all: try pose proof (read_all_ok s) as Hread.
  all: unfold sigctx_ok, sign_post; destruct aba; run.
  all: simpl; rewrite ?read_all_eq; auto.
Qed.

Lemma sign_returns_the_signature_witness :
  holds_proxy example_signature (heap example_world) 1
    {| ctxt := Some 0; type := SGN_CONTEXT; arena := None |} /\
  ensures (Java_org_mozilla_jss_pkcs11_PK11Signature_engineSignNative
             sign_answers_ok example_signature example_world)
    (fun r w' => r = Some [Byte.x2a] /\
                 heap w' = heap example_world ++ [c_freed]).
Proof.
  assert (holds_proxy example_signature (heap example_world) 1
            {| ctxt := Some 0; type := SGN_CONTEXT; arena := None |}) as H
    by (split; reflexivity).
  split; [exact H|].
  eapply ensures_impl.
  - apply (sign_returns_the_signature sign_answers_ok example_signature
             example_world 1 _ 0 eq_refl H eq_refl eq_refl).
    simpl. eexists. split; reflexivity.
  - intros r w' Hpost. unfold sign_post in Hpost. simpl in Hpost.
    destruct Hpost as (Hh & _ & Hr & _). split; [exact Hr | exact Hh].
Defined.

(** X6: on a live verification context, with the array borrowed,
    engineVerifyNative makes exactly three calls: it borrows the signature
    array, calls VFY_EndWithSignature once with all the bytes of the array,
    and gives the buffer back in JNI_ABORT mode; the result is true exactly
    when that call succeeds.  The buffer is released; the context and the
    proxy record stay as they were, for release to free. *)
Theorem verify_passes_the_signature a this sigArray sig w p r c :
  verify_ok a ->
  holds_proxy this (heap w) p r -> ctxt r = Some c -> type r = VFY_CONTEXT ->
  live_as is_VFYContext (Some c) (heap w) ->
  jarrays w !! sigArray = Some sig ->
  ensures (Java_org_mozilla_jss_pkcs11_PK11Signature_engineVerifyNative
             a this sigArray w)
          (verify_post a sigArray sig c w).
Proof.
  intros [Hctx Href] [Hs Hp] Hc Ht (cc & Hcc & Hk) Harr.
  destruct a as [actx aref aend]. simpl in *. subst actx aref.
  destruct w as [h ja pe er ca vi], this as [k al dl sc], r as [cx t ar].
  simpl in *. subst sc t cx.
  pose proof (read_all_ok sig) as Hread.
  unfold sigctx_ok, verify_post. destruct aend; run.
  all: simpl; rewrite ?read_all_eq; auto.
Qed.

Lemma verify_passes_the_signature_witness :
  jarrays example_verify_world !! 1 = Some [Byte.x01] /\
  ensures (Java_org_mozilla_jss_pkcs11_PK11Signature_engineVerifyNative
             verify_answers_bad_signature example_signature 1
             example_verify_world)
    (fun verified w' =>
       verified = false /\
       calls w' = [call_JSS_RefByteArray 1 (Some 4);
                   call_VFY_EndWithSignature (Some 0) [Byte.x01] SECFailure;
                   call_JSS_DerefByteArray 1 (Some 4) JNI_ABORT]).
Proof.
  split; [reflexivity|].
  eapply ensures_impl.
  - apply (verify_passes_the_signature verify_answers_bad_signature
             example_signature 1 [Byte.x01] example_verify_world 1
             {| ctxt := Some 0; type := VFY_CONTEXT; arena := None |} 0).
    + split; reflexivity.
    + split; reflexivity.
    + reflexivity.
    + reflexivity.
    + simpl. eexists. split; reflexivity.
    + reflexivity.
  - intros v w' (_ & Hc & Hv). split; [exact Hv | exact Hc].
Defined.

(** X20: on a live context, with the array borrowed, when offset is
    within the array, length is not negative and offset + length exceeds
    the largest jint, engineUpdateNative reaches the sum offset + length of
    its bounds test with operands whose sum does not fit in a jint: a
    signed overflow, which C leaves undefined.  The run stops there, the
    array borrowed and not given back, nothing raised. *)
Theorem update_sum_overflows a this bArray b offset length w p r c :
  (0 <= offset < Z.of_nat (List.length b))%Z -> (0 <= length)%Z ->
  (offset + length > jint_max)%Z ->
  update_ok a ->
  holds_proxy this (heap w) p r -> ctxt r = Some c ->
  live_as (context_kind (type r)) (Some c) (heap w) ->
  jarrays w !! bArray = Some b ->
  faults (Java_org_mozilla_jss_pkcs11_PK11Signature_engineUpdateNative
            a this bArray offset length w)
    (signed_overflow "engineUpdateNative")
    (fun w' =>
       calls w' = calls w ++
                  [call_JSS_RefByteArray bArray (Some (List.length (heap w)))] /\
       pending w' = pending w).
Proof.
  intros Ho Hl Hs [Hctx Href] [Hs' Hp] Hc Hlive Harr.
  destruct a as [actx aref aupd]. simpl in *. subst actx aref.
  destruct w as [h ja pe er ca vi], this as [k al dl sc], r as [cx t ar].
  simpl in *. subst sc cx.
  destruct Hlive as (cc & Hcc & Hk).
  unfold sigctx_ok. destruct t; run_bounds.
  all: auto.
Qed.

Lemma update_sum_overflows_witness :
  jarrays example_two_bytes_world !! 0 = Some [Byte.x00; Byte.x01] /\
  is_jint 1 /\ is_jint 2147483647 /\
  faults (Java_org_mozilla_jss_pkcs11_PK11Signature_engineUpdateNative
            update_answers_ok example_signature 0 1 2147483647
            example_two_bytes_world)
    (signed_overflow "engineUpdateNative")
    (fun w' => calls w' = [call_JSS_RefByteArray 0 (Some 2)] /\
               pending w' = []).
Proof.
  split; [reflexivity|].
  split; [unfold is_jint, jint_min, jint_max; lia|].
  split; [unfold is_jint, jint_min, jint_max; lia|].
  apply (update_sum_overflows update_answers_ok example_signature 0
           [Byte.x00; Byte.x01] 1 2147483647 example_two_bytes_world 1
           {| ctxt := Some 0; type := SGN_CONTEXT; arena := None |} 0).
  - simpl. lia.
  - lia.
  - unfold jint_max. lia.
  - split; reflexivity.
  - split; reflexivity.
  - reflexivity.
  - simpl. eexists. split; reflexivity.
  - reflexivity.
Defined.

(** ** Raw verification *)

(** X7: whatever the JVM and the library answer, engineRawVerifyNative
    returns; the SECItems it made from the two arrays are released on every
    path and the arrays are as they were; PK11_Verify is called at most
    once, only when both conversions and the key lookup succeeded, with the
    key stored in the key object, the bytes of the signature array and the
    bytes of the hash array; and the result is true only if that call
    succeeded. *)
Theorem raw_verify_outcomes a keyObj hashBA sigBA w :
  ensures (Java_org_mozilla_jss_pkcs11_PK11Signature_engineRawVerifyNative
             a keyObj hashBA sigBA w)
          (rawVerify_post a keyObj hashBA sigBA w).
Proof.
  destruct w as [h ja pe er ca vi], keyObj as [[kp|]], a as [a1 a2 a3 a4].
  all: unfold rawVerify_post, leaves_released; run_any.
  all: (split; [clean_done|]); (split; [reflexivity|]).
  all: first [ exists []; split; [by rewrite app_nil_r | reflexivity]
             | eexists; split; [reflexivity|]; simpl; repeat split;
               congruence ].
Qed.

(** ** Context Proxy: what a wrapped proxy is good for *)

(** X8: when wrap returns an object and the pointer could be encoded,
    reading the object with JSS_PK11_getSigContext gives back the context
    and the kind that were wrapped and changes nothing, and releasing the
    object leaves the heap as a failed wrap would have left it: the
    context, the arena and the record released. *)
Theorem wrap_then_get_and_release a c t (ar : option ptr) w :
  live_as (context_kind t) (Some c) (heap w) ->
  live_as is_arena (default None ar) (heap w) ->
  ans_ptrToByteArray a = jni_ok ->
  ensures (JSS_PK11_wrapSigContextProxy a (Some c) t ar w)
    (fun '(Context, _, _) w' =>
       match Context with
       | Some proxy => wrapped_usable c t ar w proxy w'
       | None => True
       end).
Proof.
  intros Hc Ha Hptr.
  eapply ensures_impl; [by apply wrap_spec|].
  intros [[[proxy|] ctxt'] arena'] w'; [|done].
  unfold wrap_post. intros (_ & _ & _ & _ & Hh & [Hm|[_ Hn]]); [|done].
  destruct proxy as [mp]. simpl in Hm. subst mp.
  destruct Hc as (cc & Hcc & Hkc).
  assert (heap w' !! length (heap w)
          = Some (c_proxy {| ctxt := Some c; type := t;
                             arena := default None ar |})) as Hp.
  { rewrite Hh. rewrite lookup_app_r by lia.
    by rewrite Nat.sub_diag. }
  unfold wrapped_usable. split.
  - clear Hh. destruct w' as [h' ja pe er ca vi], w as [h0 ? ? ? ? ?].
    simpl in *.
    mcbv; hnorm; mcbv. rewrite Hp. mcbv; hnorm. reflexivity.
  - eapply ensures_impl.
    + apply (release_live {| mPointer := Some (length (heap w)) |} w'
               (length (heap w)) _ eq_refl Hp).
      * simpl. exists cc. rewrite Hh. split; [|done].
        by apply lookup_app_l_Some.
      * simpl. destruct (default None ar) as [l|]; [|done].
        destruct Ha as (ac & Hac & Hka). exists ac. rewrite Hh.
        split; [|done]. by apply lookup_app_l_Some.
    + intros _ w'' (Hh'' & _ & Hpe & _). split; [|done].
      rewrite Hh'', Hh. simpl.
      assert (c < length (heap w)) by (eapply lookup_lt_Some; eauto).
      destruct (default None ar) as [l|]; simpl.
      * destruct Ha as (ac & Hac & Hka).
        assert (l < length (heap w)) by (eapply lookup_lt_Some; eauto).
        rewrite (insert_app_l _ _ c) by done.
        rewrite (insert_app_l _ _ l) by (by rewrite length_insert).
        rewrite insert_app_r_alt by (rewrite !length_insert; lia).
        rewrite !length_insert, Nat.sub_diag. reflexivity.
      * rewrite (insert_app_l _ _ c) by done.
        rewrite insert_app_r_alt by (rewrite !length_insert; lia).
        rewrite !length_insert, Nat.sub_diag. reflexivity.
Qed.

Lemma wrap_then_get_and_release_witness :
  live_as (context_kind SGN_CONTEXT) (Some 0) (heap example_world) /\
  ensures (JSS_PK11_wrapSigContextProxy wrap_ok (Some 0) SGN_CONTEXT
             (Some None) example_world)
    (fun '(Context, _, _) w' =>
       match Context with
       | Some proxy => wrapped_usable 0 SGN_CONTEXT (Some None) example_world
                         proxy w'
       | None => True
       end).
Proof.
  assert (live_as (context_kind SGN_CONTEXT) (Some 0) (heap example_world))
    as H by (simpl; eexists; split; reflexivity).
  split; [exact H|].
  exact (wrap_then_get_and_release wrap_ok 0 SGN_CONTEXT (Some None)
           example_world H I eq_refl).
Defined.

(** ** Context Factory: what it makes *)

(** X9: when nothing fails, initSigContext on a PK11Signature with a key
    and an algorithm adds to the heap, for an algorithm other than RSA-PSS,
    a signing context made from the algorithm's tag and the key, begun, and
    the proxy record that refers to it with no arena; for RSA-PSS, the
    arena holding the SECAlgorithmID bound to the parameters built from the
    digest and the key, a signing context made from that SECAlgorithmID,
    begun, and the proxy record that refers to both.  It stores in the
    PK11Signature a proxy that refers to the record, raises nothing and
    violates no assertion. *)
Theorem initSigContext_makes this w k tag :
  key this = Some {| keyPointer := Some k |} ->
  algorithm this = Some {| oidTag := tag |} ->
  ensures (Java_org_mozilla_jss_pkcs11_PK11Signature_initSigContext
             initSig_ok this w)
    (factory_made
       (signing_cells tag (digest_of this) k (length (heap w))) this w).
Proof. apply initSigContext_success. Qed.

Lemma initSigContext_makes_witness :
  key example_fresh_signature = Some {| keyPointer := Some 2 |} /\
  ensures (Java_org_mozilla_jss_pkcs11_PK11Signature_initSigContext
             initSig_ok example_fresh_signature example_world)
    (fun this' w' =>
       sigContext this' = Some {| mPointer := Some 3 |} /\
       heap w' = heap example_world ++
                 [c_SGNContext (by_tag (SEC_OID_other 1)) (Some 2) true;
                  c_proxy {| ctxt := Some 2; type := SGN_CONTEXT;
                             arena := None |}]).
Proof.
  split; [reflexivity|].
  eapply ensures_impl.
  - exact (initSigContext_makes example_fresh_signature example_world 2
             (SEC_OID_other 1) eq_refl eq_refl).
  - intros this' w' (Hh & -> & _). split; [reflexivity | exact Hh].
Defined.

(** X10: when nothing fails, initVfyContext on a PK11Signature with a live
    public key and an algorithm adds to the heap, for an algorithm other
    than RSA-PSS, a verification context made from the key and the
    algorithm's tag, begun, and the proxy record that refers to it with no
    arena; for RSA-PSS, the two halves of the placeholder key, both
    released, the arena holding the SECAlgorithmID bound to the parameters
    built from the digest and the placeholder key, a verification context
    made from the real key, that SECAlgorithmID and the digest, begun, and
    the proxy record that refers to the context and the arena.  It stores
    in the PK11Signature a proxy that refers to the record, raises nothing
    and violates no assertion. *)
Theorem initVfyContext_makes this w k bits tag :
  key this = Some {| keyPointer := Some k |} ->
  algorithm this = Some {| oidTag := tag |} ->
  heap w !! k = Some (c_public_key bits) ->
  ensures (Java_org_mozilla_jss_pkcs11_PK11Signature_initVfyContext
             initVfy_ok this w)
    (factory_made
       (verifying_cells tag (digest_of this) k (length (heap w))) this w).
Proof. apply initVfyContext_success. Qed.

Lemma initVfyContext_makes_witness :
  heap example_verify_world !! 2 = Some (c_public_key 2048) /\
  ensures (Java_org_mozilla_jss_pkcs11_PK11Signature_initVfyContext
             initVfy_ok example_pss_signature example_verify_world)
    (fun this' w' =>
       sigContext this' = Some {| mPointer := Some 8 |} /\
       heap w' = heap example_verify_world ++
                 verifying_cells SEC_OID_PKCS1_RSA_PSS_SIGNATURE
                   SEC_OID_UNKNOWN 2 4).
Proof.
  split; [reflexivity|].
  eapply ensures_impl.
  - exact (initVfyContext_makes example_pss_signature example_verify_world
             2 2048 SEC_OID_PKCS1_RSA_PSS_SIGNATURE eq_refl eq_refl eq_refl).
  - intros this' w' (Hh & -> & _). split; [reflexivity | exact Hh].
Defined.

(** ** Context Factory: how it can fail *)

(** X11: whatever the JVM and the library answer, initSigContext and
    initVfyContext (on a live public key) return in one of three ways: with
    a proxy stored in the PK11Signature that refers to a live proxy record
    made by this call; or with at least one new exception pending, the
    PK11Signature being as it was or, when the reference to the record
    could not be encoded, holding a proxy without reference; or, when
    setSigContext cannot find the field, with the PK11Signature as it was
    and no exception pending at all, since setSigContext clears them.
    Apart from that last case no failure of a factory is silent. *)
Theorem factories_report_failure :
  (forall a this w,
     ensures (Java_org_mozilla_jss_pkcs11_PK11Signature_initSigContext
                a this w)
             (factory_outcome (ans_sig_set a) this w)) /\
  (forall a this w,
     holds_public_key this (heap w) ->
     ensures (Java_org_mozilla_jss_pkcs11_PK11Signature_initVfyContext
                a this w)
             (factory_outcome (ans_vfy_set a) this w)).
Proof.
  split.
  - apply initSigContext_outcome.
  - apply initVfyContext_outcome.
Qed.

Lemma factories_report_failure_witness :
  holds_public_key example_pss_verifier (heap example_keys_world) /\
  ensures (Java_org_mozilla_jss_pkcs11_PK11Signature_initVfyContext
             initVfy_ok example_pss_verifier example_keys_world)
          (factory_outcome jni_ok example_pss_verifier example_keys_world).
Proof.
  assert (holds_public_key example_pss_verifier (heap example_keys_world))
    as H.
  { intros l [= <-]. eexists. reflexivity. }
  split; [exact H|].
  exact (proj2 factories_report_failure initVfy_ok example_pss_verifier
           example_keys_world H).
Defined.

(** X12: when setSigContext cannot find the sigContext field and nothing
    else fails, the factories have made the context, begun it and wrapped
    it exactly as when nothing fails, the cells are live in the heap, and
    yet the PK11Signature is returned as it was, with no exception pending,
    whatever was pending before the call: the caller is told nothing, and
    the context is referred to only by a proxy object that nothing refers
    to. *)
Theorem set_failure_is_silent t this w k tag :
  key this = Some {| keyPointer := Some k |} ->
  algorithm this = Some {| oidTag := tag |} ->
  ensures (Java_org_mozilla_jss_pkcs11_PK11Signature_initSigContext
             (initSig_set_fails t) this w)
    (made_and_dropped
       (signing_cells tag (digest_of this) k (length (heap w))) this w) /\
  (forall bits,
     heap w !! k = Some (c_public_key bits) ->
     ensures (Java_org_mozilla_jss_pkcs11_PK11Signature_initVfyContext
                (initVfy_set_fails t) this w)
       (made_and_dropped
          (verifying_cells tag (digest_of this) k (length (heap w)))
          this w)).
Proof.
  intros Hk Ha. split.
  - by apply initSigContext_set_fails.
  - intros bits Hb. by eapply initVfyContext_set_fails.
Qed.

Lemma set_failure_is_silent_witness :
  key example_fresh_signature = Some {| keyPointer := Some 2 |} /\
  ensures (Java_org_mozilla_jss_pkcs11_PK11Signature_initSigContext
             (initSig_set_fails (JVM_THROWABLE 0, None))
             example_fresh_signature example_world)
    (fun this' w' =>
       this' = example_fresh_signature /\ pending w' = [] /\
       length (heap w') = 4).
Proof.
  split; [reflexivity|].
  eapply ensures_impl.
  - exact (proj1 (set_failure_is_silent (JVM_THROWABLE 0, None)
                    example_fresh_signature example_world 2
                    (SEC_OID_other 1) eq_refl eq_refl)).
  - intros this' w' (Hh & -> & Hp). split; [reflexivity|].
    split; [exact Hp|]. rewrite Hh. reflexivity.
Defined.

(** X13: for a PK11Signature whose algorithm, if it has one, is not
    RSA-PSS, and whatever the JVM and the library answer, the factories
    make none of the calls that serve RSA-PSS: no arena is created, nothing
    is allocated in one, no placeholder key is created, the strength of the
    key is not asked for, and no context is made from a SECAlgorithmID. *)
Theorem no_pss_calls_for_other_algorithms a a' this w :
  not_pss this ->
  ensures (Java_org_mozilla_jss_pkcs11_PK11Signature_initSigContext a this w)
          (fun _ w' => without_pss w w') /\
  ensures (Java_org_mozilla_jss_pkcs11_PK11Signature_initVfyContext a' this w)
          (fun _ w' => without_pss w w').
Proof.
  intros Hn. split.
  - by apply initSigContext_without_pss.
  - by apply initVfyContext_without_pss.
Qed.

Lemma no_pss_calls_witness :
  not_pss example_fresh_signature /\
  ensures (Java_org_mozilla_jss_pkcs11_PK11Signature_initVfyContext
             initVfy_ok example_fresh_signature example_verify_world)
          (fun _ w' => without_pss example_verify_world w').
Proof.
  assert (not_pss example_fresh_signature) as H
    by (intros alg [= <-]; discriminate).
  split; [exact H|].
  exact (proj2 (no_pss_calls_for_other_algorithms initSig_ok initVfy_ok
                  example_fresh_signature example_verify_world H)).
Defined.

(** X14: the factories do not look at whether getAlgorithm failed.  When
    the key is resolved and the algorithm cannot be (the field is null, or
    a lookup fails and leaves its exception pending), the first call they
    make into the library is the creation of a context with
    SEC_OID_UNKNOWN: SGN_NewContext(SEC_OID_UNKNOWN, key) in initSigContext
    and VFY_CreateContext(key, SEC_OID_UNKNOWN) in initVfyContext. *)
Theorem unresolved_algorithm_is_not_checked this w k :
  key this = Some {| keyPointer := Some k |} ->
  (forall a,
     ans_sig_key a = key_ok -> algorithm_unresolved (ans_sig_alg a) this ->
     ensures (Java_org_mozilla_jss_pkcs11_PK11Signature_initSigContext
                a this w)
       (fun _ w' =>
          first_call (call_SGN_NewContext SEC_OID_UNKNOWN (Some k)) w w')) /\
  (forall a,
     ans_vfy_key a = key_ok -> algorithm_unresolved (ans_vfy_alg a) this ->
     ensures (Java_org_mozilla_jss_pkcs11_PK11Signature_initVfyContext
                a this w)
       (fun _ w' =>
          first_call (call_VFY_CreateContext (Some k) SEC_OID_UNKNOWN)
            w w')).
Proof.
  intros Hk. split.
  - intros a Ha Hu. by apply initSigContext_unresolved.
  - intros a Ha Hu. by apply initVfyContext_unresolved.
Qed.

Lemma unresolved_algorithm_witness :
  algorithm_unresolved resolver_no_field example_fresh_signature /\
  ensures (Java_org_mozilla_jss_pkcs11_PK11Signature_initSigContext
             initSig_no_algorithm example_fresh_signature example_world)
    (fun _ w' =>
       first_call (call_SGN_NewContext SEC_OID_UNKNOWN (Some 2))
         example_world w').
Proof.
  assert (algorithm_unresolved resolver_no_field example_fresh_signature)
    as H by (right; right; left; discriminate).
  split; [exact H|].
  exact (proj1 (unresolved_algorithm_is_not_checked example_fresh_signature
                  example_world 2 eq_refl) initSig_no_algorithm eq_refl H).
Defined.

(** ** From creation to release *)





(** X17: after the release of its proxy, a PK11Signature still refers to
    the proxy, whose stored reference release has not cleared: the next
    engineUpdateNative, engineSignNative or engineVerifyNative reads the
    released record in JSS_PK11_getSigContext, before its test for a NULL
    context, and stops there. *)
Theorem use_after_release_reads_released_record t this w p c r :
  session t this (heap w) p c r ->
  ensures (release jni_ok (proxy_of this) w)
    (fun _ w' => reads_released this p w').
Proof.
  intros Hses.
  pose proof Hses as ([Hsc Hp] & Hc & Ht & Hl & Ha).
  eapply ensures_impl.
  - apply (release_live (proxy_of this) w p r).
    + unfold proxy_of. by rewrite Hsc.
    + exact Hp.
    + by rewrite Ht, Hc.
    + exact Ha.
  - intros ? w' (Hh & _). apply released_record; [done|].
    rewrite Hh. simpl. apply list_lookup_insert_eq.
    rewrite !released_length. eapply lookup_lt_Some; eauto.
Qed.

Lemma use_after_release_witness :
  session SGN_CONTEXT example_signature (heap example_world) 1 0
    {| ctxt := Some 0; type := SGN_CONTEXT; arena := None |} /\
  ensures (release jni_ok (proxy_of example_signature) example_world)
    (fun _ w' => reads_released example_signature 1 w').
Proof.
  assert (session SGN_CONTEXT example_signature (heap example_world) 1 0
            {| ctxt := Some 0; type := SGN_CONTEXT; arena := None |}) as H.
  { repeat split; simpl; try reflexivity. eexists. split; reflexivity. }
  split; [exact H|].
  exact (use_after_release_reads_released_record _ _ _ _ _ _ H).
Defined.

(** X18: on a proxy that refers to a live record, release makes exactly
    three calls, in this order: the destruction of the context by
    SGN_DestroyContext or VFY_DestroyContext according to the kind noted in
    the record, PORT_FreeArena on the record's arena (NULL when it has
    none), and PR_Free on the record.  When the reference cannot be read
    from the proxy, release returns at once: it calls and releases
    nothing, and leaves the JVM's exception pending. *)
Theorem release_calls_in_order this w p r :
  mPointer this = Some p ->
  heap w !! p = Some (c_proxy r) ->
  live_as (context_kind (type r)) (ctxt r) (heap w) ->
  live_as is_arena (arena r) (heap w) ->
  ensures (release jni_ok this w)
    (fun _ w' =>
       calls w' = calls w ++ [destroy_call (type r) (ctxt r);
                              call_PORT_FreeArena (arena r);
                              call_PR_Free (Some p)]) /\
  forall t,
    release (jni_fails t) this w = Ok tt (set_pending (pending w ++ [t]) w).
Proof.
  intros Hm Hp Hc Ha. split.
  - by apply release_calls.
  - intros t. apply release_unreadable.
Qed.

Lemma release_calls_in_order_witness :
  mPointer example_proxy = Some 1 /\
  ensures (release jni_ok example_proxy example_verify_world)
    (fun _ w' =>
       calls w' = [call_VFY_DestroyContext (Some 0);
                   call_PORT_FreeArena None;
                   call_PR_Free (Some 1)]).
Proof.
  split; [reflexivity|].
  apply (proj1 (release_calls_in_order example_proxy example_verify_world 1
                  {| ctxt := Some 0; type := VFY_CONTEXT; arena := None |}
                  eq_refl eq_refl
                  ltac:(simpl; eexists; split; reflexivity) I)).
Defined.

(** ** Key Resolver *)

(** X19: whatever the JVM answers, getPrivateKey and getPublicKey change
    nothing native.  When they succeed, nothing was raised and the pointer
    returned is the non-NULL pointer stored in the key object of the
    PK11Signature; when they fail, the pointer is NULL and exactly one
    exception was raised, TokenException when the key field could be read
    and was null.  With no JNI failure they succeed on every key object
    that stores a pointer, and leave the world as it was. *)
Theorem key_resolver_outcomes sig w :
  (forall a,
     ensures (getPrivateKey a sig w) (key_outcome a sig w) /\
     ensures (getPublicKey a sig w) (key_outcome a sig w)) /\
  (forall k,
     key sig = Some {| keyPointer := Some k |} ->
     getPrivateKey key_ok sig w = Ok (PR_SUCCESS, Some k) w /\
     getPublicKey key_ok sig w = Ok (PR_SUCCESS, Some k) w).
Proof.
  split.
  - intros a. split; apply getSomeKey_outcome.
  - intros k Hk. split; by apply getSomeKey_ok.
Qed.

Lemma key_resolver_outcomes_witness :
  getPublicKey key_ok example_fresh_signature example_world
  = Ok (PR_SUCCESS, Some 2) example_world.
Proof.
  exact (proj2 (proj2 (key_resolver_outcomes example_fresh_signature
                         example_world) 2 eq_refl)).
Defined.
